(** * Stock-Web-Data: the quarterly-data scraper (Retrieval package)

    A shallow embedding of [AdRemoval.py], [ScrollAndTools.py] and
    [RetriveData.py].  The browser session is an abstract world [W]; each
    Selenium call is a transition on it that either returns a value or
    raises.  [time.sleep] and [print] have no counterpart: what the page
    does while the script sleeps is folded into the next driver call. *)

From Stdlib Require Import List String Ascii Bool Arith ZArith QArith Lia Permutation.
From Stdlib Require Import DecimalString.
Import ListNotations.
Close Scope Q_scope.
Local Open Scope string_scope.
Local Open Scope list_scope.
Local Open Scope nat_scope.

(** ** Python values used by the scripts *)

Module Py.

(** Exceptions, by the class the scripts can tell apart (they only ever
    use [except Exception] and bare [except], which catch all of them). *)
Inductive exn : Type :=
| TimeoutException
| NoSuchElementException
| WebDriverException (msg : string)
| ValueError
| IndexError
| KeyError.

Inductive result (A : Type) : Type :=
| Ok (a : A)
| Raise (e : exn).
Arguments Ok {A} a.
Arguments Raise {A} e.

(** [x in l] on a list of strings. *)
Fixpoint mem (x : string) (l : list string) : bool :=
  match l with
  | [] => false
  | y :: l' => String.eqb x y || mem x l'
  end.

(** [l.index(x)]: position of the first occurrence.  Only called on an
    [x] taken from [l]; the length of [l] stands for the [ValueError]
    case, which every caller then reads as "out of range". *)
Fixpoint index (x : string) (l : list string) : nat :=
  match l with
  | [] => 0
  | y :: l' => if String.eqb x y then 0 else S (index x l')
  end.

(** [row[idx] if idx < len(row) else ''] *)
Definition get_or_empty (row : list string) (idx : nat) : string :=
  nth idx row "".

(** White space as [str.strip] sees it, within ASCII: texts are taken to
    be ASCII, so the Unicode spaces [str.strip] also removes are out of
    the model. *)
Definition is_space (c : ascii) : bool :=
  let n := nat_of_ascii c in
  ((9 <=? n) && (n <=? 13)) || ((28 <=? n) && (n <=? 32)).

Fixpoint lstrip (s : string) : string :=
  match s with
  | EmptyString => EmptyString
  | String c s' => if is_space c then lstrip s' else s
  end.

Fixpoint rstrip (s : string) : string :=
  match s with
  | EmptyString => EmptyString
  | String c s' =>
      match rstrip s' with
      | EmptyString => if is_space c then EmptyString else String c EmptyString
      | t => String c t
      end
  end.

Definition strip (s : string) : string := rstrip (lstrip s).

(** [s.replace(c, "")] for a one-character pattern. *)
Fixpoint remove_char (c : ascii) (s : string) : string :=
  match s with
  | EmptyString => EmptyString
  | String d s' => if Ascii.eqb c d then remove_char c s' else String d (remove_char c s')
  end.

Definition is_digit (c : ascii) : bool :=
  let n := nat_of_ascii c in (48 <=? n) && (n <=? 57).

Definition digit_val (c : ascii) : Z := Z.of_nat (nat_of_ascii c) - 48.

(** Value of a run of decimal digits, most significant first; [None] as
    soon as a character is not a digit. *)
Fixpoint digits_from (acc : Z) (s : string) : option Z :=
  match s with
  | EmptyString => Some acc
  | String c s' => if is_digit c then digits_from (10 * acc + digit_val c) s' else None
  end.

Definition digits (s : string) : option Z :=
  match s with
  | EmptyString => None
  | _ => digits_from 0 s
  end.

(** The digits of an [int] literal: single underscores may stand between
    digits.  [after_digit] says that the character before was a digit. *)
Fixpoint int_digits (acc : Z) (after_digit : bool) (s : string) : option Z :=
  match s with
  | EmptyString => if after_digit then Some acc else None
  | String c s' =>
      if is_digit c then int_digits (10 * acc + digit_val c) true s'
      else if Ascii.eqb c "_" && after_digit then int_digits acc false s'
      else None
  end.

(** [int(s)] on text: surrounding white space, an optional sign, then
    decimal digits.  Anything else is a [ValueError]. *)
Definition int_of_str (s : string) : result Z :=
  match strip s with
  | String "-" t => match int_digits 0 false t with Some n => Ok (- n)%Z | None => Raise ValueError end
  | String "+" t => match int_digits 0 false t with Some n => Ok n | None => Raise ValueError end
  | t => match int_digits 0 false t with Some n => Ok n | None => Raise ValueError end
  end.

End Py.
Export Py.

(** ** The browser session *)

Module Selenium.

Inductive By : Type := ID | CSS_SELECTOR | XPATH | TAG_NAME.

(** A handle on a DOM element. *)
Definition WebElement : Type := nat.

(** A computation on the session: it returns or raises, and leaves the
    session in a new state either way. *)
Definition M (W A : Type) : Type := W -> result A * W.

Definition ret {W A} (a : A) : M W A := fun w => (Ok a, w).

Definition bind {W A B} (m : M W A) (k : A -> M W B) : M W B :=
  fun w =>
    match m w with
    | (Ok a, w') => k a w'
    | (Raise e, w') => (Raise e, w')
    end.

Definition raise {W A} (e : exn) : M W A := fun w => (Raise e, w).

(** [try: m  except Exception as e: h e] *)
Definition try_except {W A} (m : M W A) (h : exn -> M W A) : M W A :=
  fun w =>
    match m w with
    | (Ok a, w') => (Ok a, w')
    | (Raise e, w') => h e w'
    end.

(** [[f(x) for x in l]] when [f] talks to the session. *)
Fixpoint mapM {W A B} (f : A -> M W B) (l : list A) : M W (list B) :=
  match l with
  | [] => ret []
  | x :: l' => bind (f x) (fun y => bind (mapM f l') (fun ys => ret (y :: ys)))
  end.

Set Implicit Arguments.

(** The capability set the scripts call, with the arguments they pass. *)
Record WebDriver (W : Type) : Type := {
  find_element : By -> string -> M W WebElement;
  find_elements : By -> string -> M W (list WebElement);
  elem_find_element : WebElement -> By -> string -> M W WebElement;
  elem_find_elements : WebElement -> By -> string -> M W (list WebElement);
  text : WebElement -> M W string;
  location_x : WebElement -> M W Z;
  is_displayed : WebElement -> M W bool;
  get_attribute : WebElement -> string -> M W string;
  click_element : WebElement -> M W unit;
  clear_element : WebElement -> M W unit;
  send_keys : WebElement -> string -> M W unit;
  execute_script : string -> list WebElement -> M W unit;
  (** [ActionChains(d).click_and_hold(e).move_by_offset(dx, 0).release().perform()] *)
  drag_and_release : WebElement -> Z -> M W unit;
  (** [WebDriverWait(d, t).until(EC.presence_of_element_located(loc))] *)
  wait_presence : Z -> By -> string -> M W WebElement;
  wait_presence_all : Z -> By -> string -> M W (list WebElement);
  wait_clickable : Z -> By -> string -> M W WebElement;
  (** [WebDriverWait(d, t).until(lambda d: len(d.find_elements(loc)) == 0)] *)
  wait_none_left : Z -> By -> string -> M W unit
}.

Unset Implicit Arguments.

End Selenium.
Export Selenium.

Declare Scope py_scope.
Delimit Scope py_scope with py.
Notation "x <- m ;; k" := (bind m (fun x => k))
  (at level 61, m at next level, right associativity) : py_scope.
Notation "m ;; k" := (bind m (fun _ => k))
  (at level 61, right associativity) : py_scope.
Notation "' pat <- m ;; k" := (bind m (fun x => match x with pat => k end))
  (at level 61, pat pattern, m at next level, right associativity) : py_scope.
Local Open Scope py_scope.

(** ** AdRemoval.py *)

Module Remove.
Section WithDriver.

Context {W : Type} (driver : WebDriver W).

Definition overlay_selector : string :=
  "div[role='dialog'], div[class*='modal'], div[class*='popup'], div[class*='overlay']".

Definition close_text_xpath : string :=
  ".//button[contains(text(), '×') or contains(text(), 'Close') or contains(text(), 'close') or contains(text(), 'CLOSE')]".

Definition close_class_selector : string :=
  "button.close, button.btn-close, button[class*='close'], button[class*='dismiss']".

(** One overlay: the text-matched close button first, the class-matched
    one when that fails; [true] when a click went through (the script
    then returns). *)
Definition try_close (overlay : WebElement) : M W bool :=
  try_except
    (close_btn <- elem_find_element driver overlay XPATH close_text_xpath ;;
     click_element driver close_btn ;;
     ret true)
    (fun _ =>
       try_except
         (close_btn <- elem_find_element driver overlay CSS_SELECTOR close_class_selector ;;
          click_element driver close_btn ;;
          ret true)
         (fun _ => ret false)).

(** The [for overlay in overlays] loop with its two [return]s. *)
Fixpoint close_each (overlays : list WebElement) : M W unit :=
  match overlays with
  | [] => ret tt
  | overlay :: rest =>
      shown <- is_displayed driver overlay ;;
      if shown then
        closed <- try_close overlay ;;
        if closed then ret tt else close_each rest
      else close_each rest
  end.

Definition close_ad_overlay : M W unit :=
  try_except
    (overlays <- find_elements driver CSS_SELECTOR overlay_selector ;;
     close_each overlays)
    (fun _ => ret tt).

Definition dquote : string := String (ascii_of_nat 34) EmptyString.

Definition newline : string := String (ascii_of_nat 10) EmptyString.

(** The script as the triple-quoted literal spells it, line breaks and
    indentation included. *)
Definition remove_script : string :=
  newline
  ++ "            document.querySelectorAll(" ++ dquote
  ++ "div[role='dialog'], div[class*='modal'], div[class*='popup'], div[class*='overlay'], div[style*='position:fixed'], div[style*='position: fixed']"
  ++ dquote ++ ").forEach(function(el) {" ++ newline
  ++ "                el.remove();" ++ newline
  ++ "            });" ++ newline
  ++ "            document.body.style.overflow = 'auto'; // restore scroll in case it was locked"
  ++ newline
  ++ "        ".

(** No [try] here: whatever [execute_script] raises leaves the method. *)
Definition remove_ad_overlay : M W unit :=
  execute_script driver remove_script [].

Definition wait_selector : string :=
  "div[id^='gray'], div[id^='overlay'], div[role='dialog'], div[class*='overlay']".

Definition wait_for_overlay_to_disappear (timeout : Z) : M W unit :=
  try_except
    (wait_none_left driver timeout CSS_SELECTOR wait_selector)
    (fun _ => ret tt).

End WithDriver.
End Remove.

(** ** ScrollAndTools.py *)

Module Tools.
Section WithDriver.

Context {W : Type} (driver : WebDriver W).

(** [re.match(r'^\d{4}-\d{2}-\d{2}$', s)]: four digits, dash, two digits,
    dash, two digits; [$] also accepts one final newline.  Digits are the
    ASCII ones: the other Unicode decimal digits [\d] matches are out of
    the model. *)
Definition looks_like_date (s : string) : bool :=
  match s with
  | String y1 (String y2 (String y3 (String y4 (String d1
      (String m1 (String m2 (String d2 (String a1 (String a2 tl))))))))) =>
      is_digit y1 && is_digit y2 && is_digit y3 && is_digit y4
      && Ascii.eqb d1 "-" && is_digit m1 && is_digit m2
      && Ascii.eqb d2 "-" && is_digit a1 && is_digit a2
      && match tl with
         | EmptyString => true
         | String nl EmptyString => Ascii.eqb nl (ascii_of_nat 10)
         | _ => false
         end
  | _ => false
  end.

Definition stripped_text (e : WebElement) : M W string :=
  t <- text driver e ;; ret (strip t).

Definition extract_grid_data : M W (list string * list (list string)) :=
  hs <- find_elements driver CSS_SELECTOR "#jqxgrid .jqx-grid-column-header span" ;;
  headers <- mapM stripped_text hs ;;
  rs <- find_elements driver CSS_SELECTOR "#jqxgrid .jqx-grid-content div[role='row']" ;;
  rows <- mapM (fun row =>
                  cells <- elem_find_elements driver row CSS_SELECTOR "div[role='gridcell']" ;;
                  mapM stripped_text cells) rs ;;
  ret (headers, rows).

Definition thumb_id : string := "jqxScrollThumbhorizontalScrollBarjqxgrid".

(** [None] is Python's [None]: the thumb could not be found or read. *)
Definition get_scrollbar_thumb_x : M W (option Z) :=
  try_except
    (thumb <- find_element driver ID thumb_id ;;
     x <- location_x driver thumb ;;
     ret (Some x))
    (fun _ => ret None).

Definition drag_scrollbar (scroll_amount : Z) : M W bool :=
  try_except
    (thumb <- find_element driver ID thumb_id ;;
     drag_and_release driver thumb scroll_amount ;;
     ret true)
    (fun _ => ret false).

Definition str_of_nat (n : nat) : string := NilEmpty.string_of_uint (Nat.to_uint n).

Definition scroll_down (pixels : nat) : M W unit :=
  execute_script driver ("window.scrollBy(0, " ++ str_of_nat pixels ++ ");") [].

Definition ensure_ads_removed : M W unit :=
  Remove.close_ad_overlay driver ;;
  Remove.remove_ad_overlay driver ;;
  Remove.wait_for_overlay_to_disappear driver 10.

Definition search_xpath_primary : string :=
  "//input[@class='js-typeahead' and @placeholder='Search over 200,000 charts...']".
Definition search_xpath_fallback : string :=
  "//input[@class='js-typeahead' and @placeholder='Search over 200,000 interactive charts...']".

Definition search (name : string) : M W unit :=
  try_except
    (search_box <- try_except
                     (wait_presence driver 10 XPATH search_xpath_primary)
                     (fun _ => wait_presence driver 10 XPATH search_xpath_fallback) ;;
     execute_script driver "arguments[0].scrollIntoView(true);" [search_box] ;;
     clear_element driver search_box ;;
     send_keys driver search_box name ;;
     wait_presence driver 10 CSS_SELECTOR ".typeahead__result ul li a" ;;
     first_result <- wait_clickable driver 10 CSS_SELECTOR ".typeahead__result ul li a" ;;
     click_element driver first_result)
    (fun _ => ret tt).

Definition tab_xpath (click_value : string) : string :=
  "//ul[@id='myTabs']//a[contains(text(), '" ++ click_value ++ "')]".

(** [Some tab], or [None] for the early [return] when the nested tab
    strip is missing. *)
Definition locate_tab (click_value : string) (nested : bool) : M W (option WebElement) :=
  if nested then
    tabs <- wait_presence_all driver 10 CSS_SELECTOR "ul#myTabs" ;;
    match tabs with
    | _ :: second :: _ =>
        tab <- elem_find_element driver second XPATH
                 (".//a[contains(text(), '" ++ click_value ++ "')]") ;;
        ret (Some tab)
    | _ => ret None
    end
  else
    tab <- wait_presence driver 10 XPATH (tab_xpath click_value) ;;
    ret (Some tab).

Definition click (click_value : string) (nested : bool) : M W unit :=
  try_except
    (ensure_ads_removed ;;
     found <- locate_tab click_value nested ;;
     match found with
     | None => ret tt
     | Some tab =>
         execute_script driver "arguments[0].scrollIntoView(true);" [tab] ;;
         wait_clickable driver 10 XPATH (tab_xpath click_value) ;;
         click_element driver tab ;;
         ensure_ads_removed
     end)
    (fun _ => ret tt).

(** [needle in s] *)
Fixpoint contains (needle s : string) : bool :=
  String.prefix needle s
  || match s with
     | EmptyString => false
     | String _ s' => contains needle s'
     end.

Definition quartely : M W unit :=
  try_except
    (ensure_ads_removed ;;
     select_element <- wait_presence driver 10 CSS_SELECTOR "select.frequency_select" ;;
     selected_option <- elem_find_element driver select_element CSS_SELECTOR "option[selected]" ;;
     selected_text <- stripped_text selected_option ;;
     selected_value <- get_attribute driver selected_option "value" ;;
     if String.eqb selected_value "0" || contains "Quarterly" selected_text then ret tt
     else
       dropdown <- wait_clickable driver 10 CSS_SELECTOR "span.select2-selection--single" ;;
       click_element driver dropdown ;;
       quarterly_option <- wait_clickable driver 10 XPATH "//li[contains(text(),'Quarterly')]" ;;
       click_element driver quarterly_option ;;
       ensure_ads_removed)
    (fun _ => ret tt).

End WithDriver.
End Tools.

(** ** pandas tables *)

Module Pandas.

(** A cell: text as scraped, a number once coerced, a missing number, a
    calendar day once the column went through [to_datetime], or a
    missing day. *)
Inductive cell : Type :=
| CStr (s : string)
| CNum (q : Q)
| CNaN
| CTimestamp (y m d : Z)
| CNaT.

Record DataFrame : Type := {
  columns : list string;
  rows : list (list cell)
}.

(** [pd.DataFrame()] *)
Definition no_frame : DataFrame := {| columns := []; rows := [] |}.

(** [df.empty]: one of the two axes has length zero. *)
Definition empty (df : DataFrame) : bool :=
  match columns df, rows df with
  | [], _ => true
  | _, [] => true
  | _, _ => false
  end.

(** [pd.DataFrame(data, columns=cols)] on rows of text.  pandas refuses
    rows whose width is not the number of columns. *)
Definition DataFrame_of (data : list (list string)) (cols : list string) : result DataFrame :=
  if forallb (fun row => List.length row =? List.length cols) data
  then Ok {| columns := cols; rows := map (map CStr) data |}
  else Raise ValueError.

(** *** Numbers and their text *)

Fixpoint split_at_dot (s : string) : string * option string :=
  match s with
  | EmptyString => (EmptyString, None)
  | String c s' =>
      if Ascii.eqb c "." then (EmptyString, Some s')
      else let '(a, b) := split_at_dot s' in (String c a, b)
  end.

Definition pow10 (n : nat) : Z := (10 ^ Z.of_nat n)%Z.

(** Digits, optionally a point and more digits, at least one digit. *)
Definition unsigned_literal (s : string) : option Q :=
  match split_at_dot s with
  | (ip, None) => option_map inject_Z (digits ip)
  | (EmptyString, Some EmptyString) => None
  | (ip, Some fp) =>
      match digits_from 0 ip, digits_from 0 fp with
      | Some a, Some b =>
          let scale := pow10 (String.length fp) in
          Some (Qred (Qmake (a * scale + b) (Z.to_pos scale)))
      | _, _ => None
      end
  end.

(** The number a text stands for, for the plain decimal literals a grid
    cell can hold once [$], [,] and [%] are gone: white space around, an
    optional sign, digits and an optional fraction.  Exponents, [inf] and
    the like are out of the model and count as text that is no number. *)
Definition number_of_str (s : string) : option Q :=
  match strip s with
  | String "-" t => option_map Qopp (unsigned_literal t)
  | String "+" t => unsigned_literal t
  | t => unsigned_literal t
  end.

Definition str_of_Z (z : Z) : string := NilZero.string_of_int (Z.to_int z).

(** The least number of decimal places that writes [num/den] exactly,
    looking no further than [fuel] places past [k]. *)
Fixpoint places (fuel : nat) (num den : Z) (k : nat) : option nat :=
  if ((num * pow10 k) mod den =? 0)%Z then Some k
  else match fuel with
       | 0 => None
       | S fuel' => places fuel' num den (S k)
       end.

Fixpoint zero_pad (width : nat) (s : string) : string :=
  if width <=? String.length s then s
  else match width with
       | 0 => s
       | S w => String "0" (zero_pad w s)
       end.

(** [str(x)] of a number: the integer, or the shortest exact decimal.
    Numbers are exact rationals without a type: a float that is whole in
    value, which Python prints with [.0], prints here as the integer. *)
Definition str_of_number (q : Q) : string :=
  let r := Qred q in
  let num := Qnum r in
  let den := Zpos (Qden r) in
  match places 40 num den 0 with
  | Some 0 => str_of_Z num
  | Some k =>
      let scaled := (Z.abs num * pow10 k / den)%Z in
      (if (num <? 0)%Z then "-" else "")
      ++ str_of_Z (scaled / pow10 k) ++ "."
      ++ zero_pad k (str_of_Z (scaled mod pow10 k))
  | None => str_of_Z (num / den)
  end.

Definition two_digits (z : Z) : string := zero_pad 2 (str_of_Z z).

(** [str(x)] of a cell. *)
Definition py_str (c : cell) : string :=
  match c with
  | CStr s => s
  | CNum q => str_of_number q
  | CNaN => "nan"
  | CTimestamp y m d => zero_pad 4 (str_of_Z y) ++ "-" ++ two_digits m ++ "-" ++ two_digits d
  | CNaT => "NaT"
  end.

(** [pd.to_numeric] on one value: [None] when it cannot be parsed.  The
    empty text reads as [NaN]. *)
Definition to_numeric_cell (c : cell) : option cell :=
  match c with
  | CStr EmptyString => Some CNaN
  | CStr s => option_map CNum (number_of_str s)
  | CNum q => Some (CNum q)
  | CNaN => Some CNaN
  | CTimestamp _ _ _ => None
  | CNaT => Some CNaN
  end.

(** [pd.to_numeric(col, errors="ignore")]: all of the column or none. *)
Fixpoint all_some {A} (l : list (option A)) : option (list A) :=
  match l with
  | [] => Some []
  | None :: _ => None
  | Some a :: l' => option_map (cons a) (all_some l')
  end.

Definition to_numeric_ignore (col : list cell) : list cell :=
  match all_some (map to_numeric_cell col) with
  | Some col' => col'
  | None => col
  end.

(** [pd.to_numeric(col, errors="coerce").fillna(0)] on one value. *)
Definition to_numeric_coerce_fill0 (c : cell) : cell :=
  match to_numeric_cell c with
  | Some CNaN | None => CNum 0
  | Some c' => c'
  end.

(** [df.replace("-", 0)] on one value. *)
Definition replace_dash (c : cell) : cell :=
  match c with
  | CStr s => if String.eqb s "-" then CNum 0 else c
  | _ => c
  end.

(** Drop every [$], [,] and [%]. *)
Definition strip_symbols (s : string) : string :=
  remove_char "%" (remove_char "," (remove_char "$" s)).

(** [lambda x: str(x).replace("$", "").replace(",", "").replace("%", "")
    if isinstance(x, str) else x] *)
Definition strip_symbols_cell (c : cell) : cell :=
  match c with
  | CStr s => CStr (strip_symbols s)
  | _ => c
  end.

(** *** Columns *)

Definition cell_at (j : nat) (row : list cell) : cell := nth j row CNaN.

Definition column (j : nat) (df : DataFrame) : list cell := map (cell_at j) (rows df).

(** The table whose columns are the given cell lists, [n_rows] long. *)
Definition rows_of_columns (n_rows : nat) (cols : list (list cell)) : list (list cell) :=
  map (fun i => map (cell_at i) cols) (seq 0 n_rows).

(** [df.apply(f)]: [f] column by column. *)
Definition apply_columns (f : list cell -> list cell) (df : DataFrame) : DataFrame :=
  {| columns := columns df;
     rows := rows_of_columns (List.length (rows df))
               (map (fun j => f (column j df)) (seq 0 (List.length (columns df)))) |}.

(** [df.applymap(f)] *)
Definition applymap (f : cell -> cell) (df : DataFrame) : DataFrame :=
  {| columns := columns df; rows := map (map f) (rows df) |}.

Fixpoint position (name : string) (cols : list string) : option nat :=
  match cols with
  | [] => None
  | c :: cols' => if String.eqb name c then Some 0 else option_map S (position name cols')
  end.

Definition drop_nth {A} (j : nat) (l : list A) : list A := firstn j l ++ skipn (S j) l.

Fixpoint set_nth {A} (j : nat) (x : A) (l : list A) : list A :=
  match l, j with
  | [], _ => []
  | _ :: l', 0 => x :: l'
  | y :: l', S j' => y :: set_nth j' x l'
  end.

(** *** Joins *)

(** Join keys are equal as pandas matches them: a missing key matches a
    missing key. *)
Definition cell_eqb (a b : cell) : bool :=
  match a, b with
  | CStr s, CStr t => String.eqb s t
  | CNum p, CNum q => Qeq_bool p q
  | CNaN, CNaN => true
  | CTimestamp y m d, CTimestamp y' m' d' => (y =? y')%Z && (m =? m')%Z && (d =? d')%Z
  | CNaT, CNaT => true
  | _, _ => false
  end.

(** Columns of a merge on [key]: the left ones, then the right ones
    without the key; a name on both sides gets [_x] and [_y]. *)
Definition merge_columns (key : string) (lcols rcols : list string) : list string :=
  map (fun c => if negb (String.eqb c key) && mem c rcols then (c ++ "_x")%string else c) lcols
  ++ map (fun c => if mem c lcols then (c ++ "_y")%string else c)
       (filter (fun c => negb (String.eqb c key)) rcols).

Definition blanks (n : nat) : list cell := repeat CNaN n.

Definition matching (j : nat) (k : cell) (rs : list (list cell)) : list (list cell) :=
  filter (fun r => cell_eqb (cell_at j r) k) rs.

(** [left.merge(right, how="left", on=key)]: the left rows in their
    order, each once per right row with the same key, or once with the
    right side missing. *)
Definition merge_left_rows (jl jr wr : nat) (lrows rrows : list (list cell))
  : list (list cell) :=
  flat_map (fun l =>
              match matching jr (cell_at jl l) rrows with
              | [] => [l ++ blanks (wr - 1)]
              | rs => map (fun r => l ++ drop_nth jr r) rs
              end) lrows.

Definition merge_left (key : string) (left right : DataFrame) : result DataFrame :=
  match position key (columns left), position key (columns right) with
  | Some jl, Some jr =>
      Ok {| columns := merge_columns key (columns left) (columns right);
            rows := merge_left_rows jl jr (List.length (columns right))
                      (rows left) (rows right) |}
  | _, _ => Raise KeyError
  end.

Fixpoint insert_key (k : string) (l : list string) : list string :=
  match l with
  | [] => [k]
  | x :: l' => if String.leb k x then k :: l else x :: insert_key k l'
  end.

Definition sort_keys (l : list string) : list string := fold_right insert_key [] l.

(** The keys of both sides, each once, in lexicographic order. *)
Definition outer_keys (jl jr : nat) (lrows rrows : list (list cell)) : list string :=
  sort_keys (nodup string_dec
               (map (fun r => py_str (cell_at jl r)) lrows
                ++ map (fun r => py_str (cell_at jr r)) rrows)).

Definition with_key (j : nat) (k : string) (rs : list (list cell)) : list (list cell) :=
  filter (fun r => String.eqb (py_str (cell_at j r)) k) rs.

(** [pd.merge(left, right, on=key, how="outer")] for a key column that
    holds text, as the [Date] column does at both call sites: key by
    key in lexicographic order, the pairs of rows that share the key, or
    the rows of the one side with the other side missing. *)
Definition merge_outer_rows (jl jr wl wr : nat) (lrows rrows : list (list cell))
  : list (list cell) :=
  flat_map (fun k =>
              match with_key jl k lrows, with_key jr k rrows with
              | [], rs => map (fun r => set_nth jl (cell_at jr r) (blanks wl) ++ drop_nth jr r) rs
              | ls, [] => map (fun l => l ++ blanks (wr - 1)) ls
              | ls, rs => flat_map (fun l => map (fun r => l ++ drop_nth jr r) rs) ls
              end) (outer_keys jl jr lrows rrows).

Definition merge_outer (key : string) (left right : DataFrame) : result DataFrame :=
  match position key (columns left), position key (columns right) with
  | Some jl, Some jr =>
      Ok {| columns := merge_columns key (columns left) (columns right);
            rows := merge_outer_rows jl jr (List.length (columns left))
                      (List.length (columns right)) (rows left) (rows right) |}
  | _, _ => Raise KeyError
  end.

(** *** Dates *)

Definition leap (y : Z) : bool :=
  ((y mod 4 =? 0) && negb (y mod 100 =? 0) || (y mod 400 =? 0))%Z.

Definition days_in_month (y m : Z) : Z :=
  if (m =? 2)%Z then (if leap y then 29 else 28)%Z
  else if ((m =? 4) || (m =? 6) || (m =? 9) || (m =? 11))%Z then 30%Z
  else 31%Z.

Definition date_leb (a b : Z * Z * Z) : bool :=
  let '(y, m, d) := a in
  let '(y', m', d') := b in
  ((y <? y') || ((y =? y') && ((m <? m') || ((m =? m') && (d <=? d')))))%Z.

(** A day a nanosecond [Timestamp] can hold. *)
Definition in_timestamp_range (y m d : Z) : bool :=
  date_leb (1677, 9, 22)%Z (y, m, d) && date_leb (y, m, d) (2262, 4, 11)%Z.

(** [pd.to_datetime(x, errors="coerce")] on one value, for the texts a
    [Date] column holds here: a header of the form [YYYY-MM-DD] that
    names a real day becomes that day; any other text is taken not to
    be a date and becomes [NaT]. *)
Definition to_datetime_cell (c : cell) : cell :=
  match c with
  | CStr s =>
      if Tools.looks_like_date s && (String.length s =? 10) then
        match digits (substring 0 4 s), digits (substring 5 2 s), digits (substring 8 2 s) with
        | Some y, Some m, Some d =>
            if ((1 <=? m) && (m <=? 12) && (1 <=? d) && (d <=? days_in_month y m))%Z
               && in_timestamp_range y m d
            then CTimestamp y m d else CNaT
        | _, _, _ => CNaT
        end
      else CNaT
  | CTimestamp y m d => c
  | _ => CNaT
  end.

(** [col.dt.year.fillna(0).astype(int)] on one value. *)
Definition year_of (c : cell) : cell :=
  match c with
  | CTimestamp y _ _ => CNum (inject_Z y)
  | _ => CNum 0
  end.

(** Order of [sort_values(by="Date")]: days in time order, [NaT] last. *)
Definition date_cell_leb (a b : cell) : bool :=
  match a, b with
  | CTimestamp y m d, CTimestamp y' m' d' => date_leb (y, m, d) (y', m', d')
  | CTimestamp _ _ _, _ => true
  | _, CTimestamp _ _ _ => false
  | _, _ => true
  end.

Fixpoint insert_row (j : nat) (r : list cell) (l : list (list cell)) : list (list cell) :=
  match l with
  | [] => [r]
  | x :: l' =>
      if date_cell_leb (cell_at j r) (cell_at j x) then r :: l else x :: insert_row j r l'
  end.

(** Rows in the order of column [j]; rows with the same day keep their
    order (pandas leaves the order among them open). *)
Definition sort_rows (j : nat) (l : list (list cell)) : list (list cell) :=
  fold_right (insert_row j) [] l.

(** [df[name] = f(df[name])], cell by cell. *)
Definition map_column (j : nat) (f : cell -> cell) (df : DataFrame) : DataFrame :=
  {| columns := columns df;
     rows := map (fun r => set_nth j (f (cell_at j r)) r) (rows df) |}.

(** [df[name] = values], one value per row: overwrite the column of
    that name or append a new one. *)
Definition set_column (name : string) (f : list cell -> cell) (df : DataFrame) : DataFrame :=
  match position name (columns df) with
  | Some j => {| columns := columns df; rows := map (fun r => set_nth j (f r) r) (rows df) |}
  | None => {| columns := columns df ++ [name]; rows := map (fun r => r ++ [f r]) (rows df) |}
  end.

(** [astype(int)] on one value: the fraction is cut off.  Integers are
    unbounded here; the wrap-around of [int64] is out of the model. *)
Definition as_int (c : cell) : cell :=
  match c with
  | CNum q => CNum (inject_Z (Z.quot (Qnum q) (Zpos (Qden q))))
  | _ => c
  end.

(** [df[name] = pd.to_numeric(df[name], errors="coerce").fillna(0).astype(int)] *)
Definition coerce_int_column (name : string) (df : DataFrame) : result DataFrame :=
  match position name (columns df) with
  | Some j => Ok (map_column j (fun c => as_int (to_numeric_coerce_fill0 c)) df)
  | None => Raise KeyError
  end.

(** [df.iloc[1:]] *)
Definition iloc_from_1 (df : DataFrame) : DataFrame :=
  {| columns := columns df; rows := tl (rows df) |}.

(** [df[[a, b]]] *)
Definition select2 (a b : string) (df : DataFrame) : result DataFrame :=
  match position a (columns df), position b (columns df) with
  | Some ja, Some jb =>
      Ok {| columns := [a; b]; rows := map (fun r => [cell_at ja r; cell_at jb r]) (rows df) |}
  | _, _ => Raise KeyError
  end.

(** [df.drop(columns=[name])] *)
Definition drop_column (name : string) (df : DataFrame) : result DataFrame :=
  match position name (columns df) with
  | Some j => Ok {| columns := drop_nth j (columns df); rows := map (drop_nth j) (rows df) |}
  | None => Raise KeyError
  end.

End Pandas.
Export Pandas.

(** ** RetriveData.py: the grid assembler *)

Module Collect.

Definition max_scroll_attempts : nat := 50.

(** The three variables the [while] loop of [get_chart] carries. *)
Record LoopState : Type := {
  all_headers : list string;
  all_data : list (list string);
  attempts : nat
}.

(** How one pass through the loop body ends. *)
Inductive ctl (S : Type) : Type :=
| Break (s : S)
| Next (s : S).
Arguments Break {S} s.
Arguments Next {S} s.

(** [[h for h in new_headers if looks_like_date(h) and h not in all_headers]] *)
Definition new_date_cols (all_headers new_headers : list string) : list string :=
  filter (fun h => Tools.looks_like_date h && negb (mem h all_headers)) new_headers.

(** [[new_headers.index(h) for h in new_date_cols]] *)
Definition new_indices (new_headers cols : list string) : list nat :=
  map (fun h => index h new_headers) cols.

(** [all_data[i].extend(row_data)] *)
Fixpoint extend_at (i : nat) (row_data : list string) (data : list (list string))
  : list (list string) :=
  match data, i with
  | [], _ => []
  | r :: data', 0 => (r ++ row_data) :: data'
  | r :: data', S i' => r :: extend_at i' row_data data'
  end.

(** The [for i, row in enumerate(new_data)] loop, from index [i] on. *)
Fixpoint absorb_rows (n_headers : nat) (indices : list nat) (i : nat)
         (new_data all_data : list (list string)) : list (list string) :=
  match new_data with
  | [] => all_data
  | row :: rest =>
      let row_data := map (get_or_empty row) indices in
      let all_data' :=
        if i <? List.length all_data
        then extend_at i row_data all_data
        else all_data ++ [repeat "" n_headers ++ row_data] in
      absorb_rows n_headers indices (S i) rest all_data'
  end.

(** The final pass: pad with blanks or truncate to the header count. *)
Definition normalize_row (n : nat) (row : list string) : list string :=
  if List.length row <? n then row ++ repeat "" (n - List.length row)
  else if n <? List.length row then firstn n row
  else row.

Section WithDriver.

Context {W : Type} (driver : WebDriver W).

(** One pass through the body of the [while] loop. *)
Definition loop_body (st : LoopState) : M W (ctl LoopState) :=
  x_before <- Tools.get_scrollbar_thumb_x driver ;;
  match x_before with
  | None => ret (Break st)
  | Some xb =>
      scrolled <- Tools.drag_scrollbar driver 100 ;;
      x_after <- Tools.get_scrollbar_thumb_x driver ;;
      match x_after with
      | None => ret (Break st)
      | Some xa =>
          if (xa <=? xb)%Z then ret (Break st)
          else
            '(new_headers, new_data) <- Tools.extract_grid_data driver ;;
            let cols := new_date_cols (all_headers st) new_headers in
            match cols with
            | [] => ret (Break st)
            | _ =>
                let idx := new_indices new_headers cols in
                ret (Next {| all_headers := all_headers st ++ cols;
                             all_data := absorb_rows (List.length (all_headers st)) idx 0
                                           new_data (all_data st);
                             attempts := S (attempts st) |})
            end
      end
  end.

(** [while attempts < max_scroll_attempts: body].  Python has no fuel:
    [fuel] bounds the passes the model may take, [Ok None] says it ran
    out, and [iters] counts the passes through the body taken so far. *)
Fixpoint scroll_loop (fuel : nat) (st : LoopState) (iters : nat) (w : W)
  : result (option LoopState) * nat * W :=
  match fuel with
  | 0 => (Ok None, iters, w)
  | S fuel' =>
      if attempts st <? max_scroll_attempts then
        match loop_body st w with
        | (Ok (Next st'), w') => scroll_loop fuel' st' (S iters) w'
        | (Ok (Break st'), w') => (Ok (Some st'), S iters, w')
        | (Raise e, w') => (Raise e, S iters, w')
        end
      else (Ok (Some st), iters, w)
  end.

(** The loop as a step of the method: the pass count is dropped. *)
Definition run_scroll_loop (fuel : nat) (st : LoopState) : M W (option LoopState) :=
  fun w => let '(r, _, w') := scroll_loop fuel st 0 w in (r, w').

(** What the method hands to [pd.DataFrame] after the final pass. *)
Definition finish (st : LoopState) : list (list string) :=
  map (normalize_row (List.length (all_headers st))) (all_data st).

Definition get_chart (fuel : nat) : M W (option DataFrame) :=
  Tools.scroll_down driver 150 ;;
  wait_presence driver 20 ID "jqxgrid" ;;
  '(headers0, data0) <- Tools.extract_grid_data driver ;;
  r <- run_scroll_loop fuel {| all_headers := headers0; all_data := data0; attempts := 0 |} ;;
  match r with
  | None => ret None
  | Some st =>
      match DataFrame_of (finish st) (all_headers st) with
      | Ok df => ret (Some df)
      | Raise e => raise e
      end
  end.

End WithDriver.

(** *** The panel orchestrator *)

Definition charts : list string :=
  ["Financials"; "Balance Sheet"; "Cash Flow Statement"; "Key Financial Ratios"; "Other Metrics"].

Definition lower_char (c : ascii) : ascii :=
  let n := nat_of_ascii c in
  if (65 <=? n) && (n <=? 90) then ascii_of_nat (n + 32) else c.

(** [s.lower()] *)
Fixpoint lower (s : string) : string :=
  match s with
  | EmptyString => EmptyString
  | String c s' => String (lower_char c) (lower s')
  end.

(** [s.replace(" ", "_")] *)
Fixpoint spaces_to_underscores (s : string) : string :=
  match s with
  | EmptyString => EmptyString
  | String c s' => String (if Ascii.eqb c " " then "_"%char else c) (spaces_to_underscores s')
  end.

(** [s.replace("__", "_")] *)
Fixpoint squeeze_underscores (s : string) : string :=
  match s with
  | String "_" (String "_" rest) => String "_" (squeeze_underscores rest)
  | String c rest => String c (squeeze_underscores rest)
  | EmptyString => EmptyString
  end.

Definition prefix_of (chart_title : string) : string :=
  squeeze_underscores (spaces_to_underscores (lower chart_title)).

(** The cleaning of a panel's wide table: [replace("-", 0)], the symbol
    stripping [applymap], and [apply(pd.to_numeric, errors="ignore")]. *)
Definition clean_panel (df : DataFrame) : DataFrame :=
  apply_columns to_numeric_ignore
    (applymap strip_symbols_cell (applymap replace_dash df)).

(** Name of the column a metric label turns into: [index] is renamed
    to [Date], and every name but [Date] gets the panel prefix. *)
Definition column_name (prefix : string) (label : cell) : string :=
  let name := py_str label in
  let name := if String.eqb name "index" then "Date" else name in
  if String.eqb name "Date" then name else (prefix ++ "_" ++ name)%string.

(** [df.set_index(df.columns[0]).T.reset_index()] and the two renames:
    one row per column after the first, led by that column's header. *)
Definition transpose_panel (prefix : string) (df : DataFrame) : result DataFrame :=
  match columns df with
  | [] => Raise IndexError
  | _ :: dates =>
      Ok {| columns := "Date" :: map (fun r => column_name prefix (cell_at 0 r)) (rows df);
            rows := map (fun j => CStr (nth j (columns df) "") :: column j df)
                      (seq 1 (List.length dates)) |}
  end.

(** The merge by calendar year in the "Other Metrics" branch, for a
    running table that has a [Date] column. *)
Definition merge_employees (jd : nat) (combined_df df : DataFrame) : result DataFrame :=
  let dated := map_column jd to_datetime_cell combined_df in
  let with_year := set_column "Year" (fun r => year_of (cell_at jd r)) dated in
  let rest := iloc_from_1 with_year in
  match select2 "Year" "Employees" df with
  | Raise e => Raise e
  | Ok by_year =>
      match merge_left "Year" rest by_year with
      | Raise e => Raise e
      | Ok merged_df => drop_column "Year" merged_df
      end
  end.

(** The last pass over one cell outside [Date]: [astype(str)], the
    regex that drops [$], [,] and [%], then
    [to_numeric(errors="coerce").fillna(0)]. *)
Definition final_cell (c : cell) : cell :=
  to_numeric_coerce_fill0 (CStr (strip_symbols (py_str c))).

Fixpoint final_row (cols : list string) (row : list cell) : list cell :=
  match cols, row with
  | name :: cols', c :: row' =>
      (if String.eqb name "Date" then c else final_cell c) :: final_row cols' row'
  | _, _ => row
  end.

(** What is done to the merged table before it is written out. *)
Definition finalize (combined_df : DataFrame) : result DataFrame :=
  match position "Date" (columns combined_df) with
  | None => Raise KeyError
  | Some jd =>
      let dated := map_column jd to_datetime_cell combined_df in
      let sorted := {| columns := columns dated; rows := sort_rows jd (rows dated) |} in
      let cleaned := applymap replace_dash sorted in
      Ok {| columns := columns cleaned;
            rows := map (final_row (columns cleaned)) (rows cleaned) |}
  end.

(** How a collection run ends: the model ran out of fuel in a scroll
    loop, nothing was collected, or the merged table was written. *)
Inductive verdict : Type :=
| OutOfFuel
| NoData
| Saved (df : DataFrame).

Section WithDriver.

Context {W : Type} (driver : WebDriver W).

Definition lift {A} (r : result A) : M W A :=
  match r with
  | Ok a => ret a
  | Raise e => raise e
  end.

(** One [tr] of the employee table: [None] when it does not have
    exactly two cells. *)
Definition employee_row (row : WebElement) : M W (option (Z * Z)) :=
  cols <- elem_find_elements driver row TAG_NAME "td" ;;
  match cols with
  | [c0; c1] =>
      year <- Tools.stripped_text driver c0 ;;
      t1 <- Tools.stripped_text driver c1 ;;
      let employees := remove_char "," t1 in
      y <- lift (int_of_str year) ;;
      e <- (if String.eqb employees "N/A" then ret 0%Z else lift (int_of_str employees)) ;;
      ret (Some (y, e))
  | _ => ret None
  end.

(** The [for row in rows] loop, appending to [data]. *)
Fixpoint employee_rows (rows : list WebElement) (data : list (Z * Z)) : M W (list (Z * Z)) :=
  match rows with
  | [] => ret data
  | row :: rest =>
      r <- employee_row row ;;
      employee_rows rest (match r with Some ye => data ++ [ye] | None => data end)
  end.

(** [pd.DataFrame(data)] on the list of [{"Year": .., "Employees": ..}]. *)
Definition employee_frame (data : list (Z * Z)) : DataFrame :=
  match data with
  | [] => no_frame
  | _ => {| columns := ["Year"; "Employees"];
            rows := map (fun ye => [CNum (inject_Z (fst ye)); CNum (inject_Z (snd ye))]) data |}
  end.

Definition extract_employee_table_to_df : M W DataFrame :=
  try_except
    (rows <- find_elements driver CSS_SELECTOR "table.historical_data_table tbody tr" ;;
     data <- employee_rows rows [] ;;
     ret (employee_frame data))
    (fun _ => ret no_frame).

(** The "Other Metrics" branch of the panel loop. *)
Definition employee_panel (chart_title : string) (combined_df : option DataFrame)
  : M W (option DataFrame) :=
  Tools.click driver chart_title false ;;
  Tools.click driver "Employee Count" true ;;
  df <- extract_employee_table_to_df ;;
  if negb (empty df) then
    df <- lift (coerce_int_column "Year" df) ;;
    df <- lift (coerce_int_column "Employees" df) ;;
    match combined_df with
    | Some c =>
        match position "Date" (columns c) with
        | Some jd => merged <- lift (merge_employees jd c df) ;; ret (Some merged)
        | None => ret combined_df
        end
    | None => ret combined_df
    end
  else ret combined_df.

(** The branch for every other tab; [None] when the scroll loop ran out
    of fuel. *)
Definition ordinary_panel (fuel : nat) (chart_title : string) (combined_df : option DataFrame)
  : M W (option (option DataFrame)) :=
  Tools.click driver chart_title false ;;
  Tools.quartely driver ;;
  r <- get_chart driver fuel ;;
  match r with
  | None => ret None
  | Some df =>
      let df := clean_panel df in
      df_t <- lift (transpose_panel (prefix_of chart_title) df) ;;
      match combined_df with
      | None => ret (Some (Some df_t))
      | Some c => merged <- lift (merge_outer "Date" c df_t) ;; ret (Some (Some merged))
      end
  end.

(** [for chart_title in self.charts] *)
Fixpoint panels (fuel : nat) (titles : list string) (combined_df : option DataFrame)
  : M W (option (option DataFrame)) :=
  match titles with
  | [] => ret (Some combined_df)
  | chart_title :: rest =>
      if String.eqb (lower chart_title) "other metrics" then
        c <- employee_panel chart_title combined_df ;;
        panels fuel rest c
      else
        r <- ordinary_panel fuel chart_title combined_df ;;
        match r with
        | None => ret None
        | Some c => panels fuel rest c
        end
  end.

Definition collect_stock_info (fuel : nat) (stock_name : string) : M W verdict :=
  Tools.search driver stock_name ;;
  r <- panels fuel charts None ;;
  match r with
  | None => ret OutOfFuel
  | Some None => ret NoData
  | Some (Some combined_df) =>
      df <- lift (finalize combined_df) ;;
      ret (Saved df)
  end.

End WithDriver.
End Collect.

(** ** A scripted page, for running the scripts on concrete inputs *)

Module Scripted.

(** What the grid shows at one scroll position. *)
Record Frame : Type := {
  thumb : option Z;                 (** thumb offset, [None]: no scrollbar *)
  headers : list string;
  cells : list (list string)
}.

Record Site : Type := {
  frame_at : nat -> Frame;          (** the grid after [k] drags *)
  gesture_fails : bool;             (** the drag gesture raises (the page may still move) *)
  jqxgrid_appears : bool;           (** the wait for [#jqxgrid] succeeds *)
  script_fails : bool;              (** [execute_script] raises *)
  employee_table : list (list string)
}.

Definition blank : Frame := {| thumb := None; headers := []; cells := [] |}.

(** A site that shows the given frames in turn, then nothing. *)
Definition site_of (frames : list Frame) : Site :=
  {| frame_at := fun k => nth k frames blank;
     gesture_fails := false;
     jqxgrid_appears := true;
     script_fails := false;
     employee_table := [] |}.

Definition row_selector : string := "#jqxgrid .jqx-grid-content div[role='row']".
Definition header_selector : string := "#jqxgrid .jqx-grid-column-header span".
Definition employee_selector : string := "table.historical_data_table tbody tr".

(** Handles: header [j] is [2*j]; row [i] is [i]; the cell [j] of row [i]
    is [2*(16*i+j)+1]; employee rows and cells the same from row 8.  A
    scripted grid has fewer than 8 rows and 16 columns. *)
Definition cell_handle (i j : nat) : WebElement := 2 * (16 * i + j) + 1.

Definition text_of (s : Site) (k : nat) (e : WebElement) : string :=
  if Nat.even e then nth (e / 2) (headers (frame_at s k)) ""
  else
    let i := (e / 2) / 16 in
    let j := (e / 2) mod 16 in
    if i <? 8 then nth j (nth i (cells (frame_at s k)) []) ""
    else nth j (nth (i - 8) (employee_table s) []) "".

(** The world is the number of drags so far. *)
Definition driver (s : Site) : WebDriver nat := {|
  find_element := fun by_ sel k =>
    if String.eqb sel Tools.thumb_id then
      match thumb (frame_at s k) with
      | Some _ => (Ok 0, k)
      | None => (Raise NoSuchElementException, k)
      end
    else (Raise NoSuchElementException, k);
  find_elements := fun by_ sel k =>
    if String.eqb sel header_selector
    then (Ok (map (fun j => 2 * j) (seq 0 (List.length (headers (frame_at s k))))), k)
    else if String.eqb sel row_selector
    then (Ok (seq 0 (List.length (cells (frame_at s k)))), k)
    else if String.eqb sel employee_selector
    then (Ok (seq 8 (List.length (employee_table s))), k)
    else (Ok [], k);
  elem_find_element := fun e by_ sel k => (Raise NoSuchElementException, k);
  elem_find_elements := fun e by_ sel k =>
    let width := if e <? 8 then List.length (nth e (cells (frame_at s k)) [])
                 else List.length (nth (e - 8) (employee_table s) []) in
    (Ok (map (cell_handle e) (seq 0 width)), k);
  text := fun e k => (Ok (text_of s k e), k);
  location_x := fun e k =>
    match thumb (frame_at s k) with
    | Some x => (Ok x, k)
    | None => (Raise NoSuchElementException, k)
    end;
  is_displayed := fun e k => (Ok false, k);
  get_attribute := fun e a k => (Ok "0", k);
  click_element := fun e k => (Ok tt, k);
  clear_element := fun e k => (Ok tt, k);
  send_keys := fun e t k => (Ok tt, k);
  execute_script := fun code args k =>
    if script_fails s then (Raise (WebDriverException "javascript error"), k)
    else (Ok tt, k);
  drag_and_release := fun e dx k =>
    if gesture_fails s then (Raise (WebDriverException "move target out of bounds"), S k)
    else (Ok tt, S k);
  wait_presence := fun t by_ sel k =>
    if String.eqb sel "jqxgrid" && negb (jqxgrid_appears s)
    then (Raise TimeoutException, k) else (Ok 0, k);
  wait_presence_all := fun t by_ sel k => (Ok [0; 1], k);
  wait_clickable := fun t by_ sel k => (Ok 0, k);
  wait_none_left := fun t by_ sel k => (Ok tt, k)
|}.

(** The grid that never runs dry: after [k] drags the thumb stands at
    [k] and the only date column is one not shown before. *)
Definition fresh_date (k : nat) : string :=
  let d := fun n => String (ascii_of_nat (48 + n mod 10)) EmptyString in
  d (k / 1000) ++ d (k / 100) ++ d (k / 10) ++ d k ++ "-01-01".

Definition endless : Site :=
  {| frame_at := fun k => {| thumb := Some (Z.of_nat k);
                             headers := ["Metric"; fresh_date k];
                             cells := [["Revenue"; "1"]] |};
     gesture_fails := false;
     jqxgrid_appears := true;
     script_fails := false;
     employee_table := [] |}.

(** The walk-through: one date column at first, a second one after the
    first drag, and a thumb that no longer moves after that. *)
Definition walkthrough : Site :=
  site_of [ {| thumb := Some 0%Z;
               headers := ["Metric"; "2023-01-01"];
               cells := [["Revenue"; "100"]] |};
            {| thumb := Some 50%Z;
               headers := ["Metric"; "2023-01-01"; "2023-04-01"];
               cells := [["Revenue"; "100"; "110"]] |};
            {| thumb := Some 50%Z;
               headers := ["Metric"; "2023-01-01"; "2023-04-01"];
               cells := [["Revenue"; "100"; "110"]] |} ].

(** A grid whose second window shows one new date under two header
    cells. *)
Definition repeated_header : Site :=
  site_of [ {| thumb := Some 0%Z;
               headers := ["Metric"; "2023-01-01"];
               cells := [["Revenue"; "100"]] |};
            {| thumb := Some 50%Z;
               headers := ["Metric"; "2023-04-01"; "2023-04-01"];
               cells := [["Revenue"; "110"; "110"]] |} ].

(** A grid whose second window renders fewer rows than the first. *)
Definition shrinking : Site :=
  site_of [ {| thumb := Some 0%Z;
               headers := ["Metric"; "2023-01-01"];
               cells := [["Revenue"; "100"]; ["Costs"; "40"]] |};
            {| thumb := Some 50%Z;
               headers := ["Metric"; "2023-04-01"];
               cells := [["Revenue"; "110"]] |} ].

(** The walk-through page again, with a gesture that reports an error
    although the grid scrolls. *)
Definition jammed : Site :=
  {| frame_at := frame_at walkthrough;
     gesture_fails := true;
     jqxgrid_appears := true;
     script_fails := false;
     employee_table := [] |}.

(** A page on which every tab shows the same grid, already scrolled to
    its end, with an employee table under "Other Metrics". *)
Definition staffed : Site :=
  {| frame_at := fun _ => {| thumb := Some 50%Z;
                             headers := ["Metric"; "2023-01-01"; "2023-04-01"];
                             cells := [["Revenue"; "$900.00"; "$1,234.56"];
                                       ["Margin"; "10%"; "12%"];
                                       ["Debt"; "5"; "-"];
                                       ["Outlook"; "good"; "n/a"]] |};
     gesture_fails := false;
     jqxgrid_appears := true;
     script_fails := false;
     employee_table := [["2023"; "1,500"]; ["2022"; "N/A"]; ["ignored"]] |}.

(** A page on which every tab shows the two quarters of 2021, with 500
    employees listed for that year. *)
Definition year_2021 : Site :=
  {| frame_at := fun _ => {| thumb := Some 50%Z;
                             headers := ["Metric"; "2021-03-01"; "2021-09-01"];
                             cells := [["Revenue"; "10"; "20"]] |};
     gesture_fails := false;
     jqxgrid_appears := true;
     script_fails := false;
     employee_table := [["2021"; "500"]] |}.

(** Two tabs with overlapping quarters: the first shows January and
    April, the second April and July; the tabs after them show a metric
    without any date column. *)
Definition overlapping : Site :=
  {| frame_at := fun k =>
       match k with
       | 0 => {| thumb := Some 0%Z;
                 headers := ["Metric"; "2023-01-01"; "2023-04-01"];
                 cells := [["Revenue"; "1"; "2"]] |}
       | 1 => {| thumb := Some 0%Z;
                 headers := ["Metric"; "2023-04-01"; "2023-07-01"];
                 cells := [["Assets"; "3"; "4"]] |}
       | _ => {| thumb := None; headers := ["Metric"]; cells := [["Flow"]] |}
       end;
     gesture_fails := false;
     jqxgrid_appears := true;
     script_fails := false;
     employee_table := [] |}.

(** The walk-through page on which [execute_script] fails. *)
Definition scriptless : Site :=
  {| frame_at := frame_at walkthrough;
     gesture_fails := false;
     jqxgrid_appears := true;
     script_fails := true;
     employee_table := [] |}.

(** A page on which the grid element never shows up. *)
Definition gridless : Site :=
  {| frame_at := fun _ => blank;
     gesture_fails := false;
     jqxgrid_appears := false;
     script_fails := false;
     employee_table := [["2021"; "500"]] |}.

(** An employee table whose second row has a year that is no number. *)
Definition misprinted : Site :=
  {| frame_at := fun _ => blank;
     gesture_fails := false;
     jqxgrid_appears := true;
     script_fails := false;
     employee_table := [["2023"; "1,500"]; ["20x2"; "1,400"]] |}.

End Scripted.

(** ** Vocabulary of the statements *)

(** The computation returns, whatever the state of the session. *)
Definition never_raises {W A} (m : M W A) : Prop :=
  forall w, exists a w', m w = (Ok a, w').

(** None of the calls [get_chart] makes outside a [try] raises. *)
Definition grid_readable {W} (driver : WebDriver W) : Prop :=
  (forall code args, never_raises (execute_script driver code args))
  /\ never_raises (wait_presence driver 20 ID "jqxgrid")
  /\ (forall sel, never_raises (find_elements driver CSS_SELECTOR sel))
  /\ (forall e sel, never_raises (elem_find_elements driver e CSS_SELECTOR sel))
  /\ (forall e, never_raises (text driver e)).

(** No scan shows the same header text twice. *)
Definition scans_distinct {W} (driver : WebDriver W) : Prop :=
  forall w hs rows w', Tools.extract_grid_data driver w = (Ok (hs, rows), w') -> NoDup hs.

(** The state in which a pass of the scroll loop that starts in [w]
    takes its scan: after the thumb was read, dragged and read again. *)
Definition scan_state {W} (driver : WebDriver W) (w : W) : W :=
  snd (Tools.get_scrollbar_thumb_x driver
         (snd (Tools.drag_scrollbar driver 100
                 (snd (Tools.get_scrollbar_thumb_x driver w))))).

(** Every row is as wide as the header. *)
Definition well_formed (df : DataFrame) : Prop :=
  Forall (fun r => List.length r = List.length (columns df)) (rows df).

(** The cell in row [i], column [j]. *)
Definition cell_of (df : DataFrame) (i j : nat) : cell := cell_at j (nth i (rows df) []).

(** What the last pass of [collect_stock_info] writes for a cell outside
    the [Date] column: [replace("-", 0)], then the per-column coercion. *)
Definition written (c : cell) : cell := Collect.final_cell (replace_dash c).

(** The texts in the key column [j], as the outer merge reads them. *)
Definition keys_of (j : nat) (rs : list (list cell)) : list string :=
  map (fun r => py_str (cell_at j r)) rs.

(** [c in s] for a character. *)
Fixpoint occurs (c : ascii) (s : string) : bool :=
  match s with
  | EmptyString => false
  | String d s' => Ascii.eqb c d || occurs c s'
  end.

(** The characters that the text of a number may hold, read generously:
    digits, signs, the point, the underscore, and every letter of an
    exponent, of [inf], [infinity] and [nan], of a hexadecimal, octal or
    binary literal and of a type suffix. *)
Definition numeric_alphabet : string :=
  "0123456789+-._abcdefijlnoptxyABCDEFIJLNOPTXY".

(** A printable ASCII character that no number holds. *)
Definition never_in_number (c : ascii) : bool :=
  let n := nat_of_ascii c in
  (33 <=? n) && (n <=? 126) && negb (occurs c numeric_alphabet).

(** Text that holds such a character: no reader of numbers accepts it. *)
Fixpoint surely_text (s : string) : bool :=
  match s with
  | EmptyString => false
  | String c s' => never_in_number c || surely_text s'
  end.

(** The employee counts the table lists under year [y]. *)
Definition employees_in (y : Z) (data : list (Z * Z)) : list Z :=
  map snd (filter (fun ye => (fst ye =? y)%Z) data).

(** A unified table with the two dates in this order, and one with a row
    before them. *)
Definition two_dates : DataFrame :=
  {| columns := ["Date"; "financials_Revenue"];
     rows := [[CStr "2021-03-01"; CNum 10]; [CStr "2021-09-01"; CNum 20]] |}.

Definition three_dates : DataFrame :=
  {| columns := ["Date"; "financials_Revenue"];
     rows := [[CStr "2020-12-01"; CNum 5]; [CStr "2021-03-01"; CNum 10];
              [CStr "2021-09-01"; CNum 20]] |}.

(** The year a [Date] cell falls in, 0 when it is no date. *)
Definition year_number (c : cell) : Z :=
  match to_datetime_cell c with
  | CTimestamp y _ _ => y
  | _ => 0%Z
  end.

(** The row a row of the running table becomes, with count [e]. *)
Definition with_employees (jd : nat) (r : list cell) (e : cell) : list cell :=
  set_nth jd (to_datetime_cell (cell_at jd r)) r ++ [e].

(** The rows the merge by year makes of one row of the running table. *)
Definition employee_join (jd : nat) (data : list (Z * Z)) (r : list cell) : list (list cell) :=
  match employees_in (year_number (cell_at jd r)) data with
  | [] => [with_employees jd r CNaN]
  | es => map (fun e => with_employees jd r (CNum (inject_Z e))) es
  end.

From Stdlib Require Import Sorted.

(** ** AdRemoval.py, the combined clearing *)

Module Obstructions.
Section WithDriver.

Context {W : Type} (driver : WebDriver W).

(** [WebDriverWait(d, t).until(lambda d: all(not el.is_displayed() for el
    in d.find_elements(fixed-position selector)))], a wait the driver
    interface above has no entry for. *)
Variable wait_fixed_hidden : Z -> M W unit.

Definition force_clear_all_obstructions (timeout : Z) : M W unit :=
  Remove.close_ad_overlay driver ;;
  Remove.remove_ad_overlay driver ;;
  Remove.wait_for_overlay_to_disappear driver timeout ;;
  try_except (wait_fixed_hidden timeout) (fun _ => ret tt).

End WithDriver.
End Obstructions.

(** ** More vocabulary *)

(** The tabs that go through [get_chart]. *)
Definition ordinary_charts : list string :=
  filter (fun t => negb (String.eqb (Collect.lower t) "other metrics")) Collect.charts.

(** The table [get_chart] makes of one scan alone. *)
Definition table_of_scan (headers : list string) (data : list (list string)) : DataFrame :=
  {| columns := headers;
     rows := map (map CStr) (map (Collect.normalize_row (List.length headers)) data) |}.

(** The cells a pass takes from a scan row for the new columns. *)
Definition picked (idx : list nat) (row : list string) : list string :=
  map (get_or_empty row) idx.

(** A grid without a scrollbar. *)
Definition unscrollable : Scripted.Site :=
  Scripted.site_of [ {| Scripted.thumb := None;
                        Scripted.headers := ["Metric"; "2023-01-01"];
                        Scripted.cells := [["Revenue"; "100"]; ["Costs"]] |} ].

(** A cell that holds a number or a missing number. *)
Definition is_number (c : cell) : bool :=
  match c with
  | CNum _ | CNaN => true
  | _ => false
  end.

(** A cell that holds a day or a missing day. *)
Definition is_day (c : cell) : bool :=
  match c with
  | CTimestamp _ _ _ | CNaT => true
  | _ => false
  end.

(** A cell as the symbol-stripping pass leaves it. *)
Definition stripped_cell (df : DataFrame) (i j : nat) : cell :=
  strip_symbols_cell (replace_dash (cell_of df i j)).

(** A wide table with one column that cannot be read as numbers. *)
Definition mixed_panel : DataFrame :=
  {| columns := ["Metric"; "2023-01-01"; "2023-04-01"];
     rows := [[CStr "Revenue"; CStr "$1,234.56"; CStr "$900"];
              [CStr "Outlook"; CStr "n/a"; CStr "-"]] |}.

(** The count the employee table lists for year [y], missing when the
    year is not listed. *)
Definition count_for (y : Z) (data : list (Z * Z)) : cell :=
  match employees_in y data with
  | [] => CNaN
  | e :: _ => CNum (inject_Z e)
  end.

(** Row [a] may stand before row [b] when sorted by column [j]. *)
Definition in_date_order (j : nat) (a b : list cell) : Prop :=
  date_cell_leb (cell_at j a) (cell_at j b) = true.

(** A merged table with its dates out of order, a header among them, a
    dash and a text left over. *)
Definition unsorted_table : DataFrame :=
  {| columns := ["Date"; "financials_Revenue"; "Employees"];
     rows := [[CStr "2023-04-01"; CStr "-"; CNum 500];
              [CStr "Metric"; CStr "n/a"; CNaN];
              [CStr "2021-09-01"; CNum 20; CNum 450]] |}.

(** Text without white space at its start. *)
Definition starts_clean (s : string) : bool :=
  match s with
  | EmptyString => true
  | String c _ => negb (is_space c)
  end.

(** Text whose last character is white space. *)
Fixpoint ends_in_space (s : string) : bool :=
  match s with
  | EmptyString => false
  | String c EmptyString => is_space c
  | String _ s' => ends_in_space s'
  end.

(** Text as [str.strip] leaves it. *)
Definition stripped (s : string) : Prop := strip s = s.

(** ** A driver that keeps a record of what it did *)

Module Logged.

(** The actions on the page that went through. *)
Inductive event : Type :=
| Clicked (e : WebElement)
| Cleared (e : WebElement)
| Typed (e : WebElement) (t : string)
| Ran (code : string) (args : list WebElement)
| Dragged (e : WebElement) (dx : Z).

(** A call that only looks at the page. *)
Definition quiet {W A} (m : M W A) : M (W * list event) A :=
  fun s => let (r, w') := m (fst s) in (r, (w', snd s)).

(** An action: recorded when it returns, not when it raises. *)
Definition noting {W} (ev : event) (m : M W unit) : M (W * list event) unit :=
  fun s =>
    match m (fst s) with
    | (Ok u, w') => (Ok u, (w', snd s ++ [ev]))
    | (Raise e, w') => (Raise e, (w', snd s))
    end.

(** The driver [d], with the record of its actions beside the session. *)
Definition driver {W} (d : WebDriver W) : WebDriver (W * list event) := {|
  find_element := fun by_ sel => quiet (find_element d by_ sel);
  find_elements := fun by_ sel => quiet (find_elements d by_ sel);
  elem_find_element := fun e by_ sel => quiet (elem_find_element d e by_ sel);
  elem_find_elements := fun e by_ sel => quiet (elem_find_elements d e by_ sel);
  text := fun e => quiet (text d e);
  location_x := fun e => quiet (location_x d e);
  is_displayed := fun e => quiet (is_displayed d e);
  get_attribute := fun e a => quiet (get_attribute d e a);
  click_element := fun e => noting (Clicked e) (click_element d e);
  clear_element := fun e => noting (Cleared e) (clear_element d e);
  send_keys := fun e t => noting (Typed e t) (send_keys d e t);
  execute_script := fun code args => noting (Ran code args) (execute_script d code args);
  drag_and_release := fun e dx => noting (Dragged e dx) (drag_and_release d e dx);
  wait_presence := fun t by_ sel => quiet (wait_presence d t by_ sel);
  wait_presence_all := fun t by_ sel => quiet (wait_presence_all d t by_ sel);
  wait_clickable := fun t by_ sel => quiet (wait_clickable d t by_ sel);
  wait_none_left := fun t by_ sel => quiet (wait_none_left d t by_ sel)
|}.

(** The record after running [m] from [s]. *)
Definition log_after {W A} (m : M (W * list event) A) (s : W * list event) : list event :=
  snd (snd (m s)).

(** [m] adds nothing to the record. *)
Definition silent {W A} (m : M (W * list event) A) : Prop :=
  forall s, log_after m s = snd s.

(** What [search name] does when every step goes through. *)
Definition search_actions (name : string) (box first_result : WebElement) : list event :=
  [Ran "arguments[0].scrollIntoView(true);" [box]; Cleared box; Typed box name;
   Clicked first_result].

Definition is_drag (ev : event) : Prop := exists thumb, ev = Dragged thumb 100.

End Logged.

(** The most [close_ad_overlay] does: nothing, or one click. *)
Definition closing (evs : list Logged.event) : Prop :=
  evs = [] \/ exists btn, evs = [Logged.Clicked btn].

(** What [ensure_ads_removed] does when the script goes through. *)
Definition clearing (closes : list Logged.event) : list Logged.event :=
  closes ++ [Logged.Ran Remove.remove_script []].

(** What [click] does when every step goes through. *)
Definition click_actions (closes1 : list Logged.event) (tab : WebElement)
           (closes2 : list Logged.event) : list Logged.event :=
  clearing closes1
  ++ [Logged.Ran "arguments[0].scrollIntoView(true);" [tab]; Logged.Clicked tab]
  ++ clearing closes2.

(** What [quartely] does when the view has to be switched and every
    step goes through. *)
Definition quartely_actions (closes1 : list Logged.event) (dropdown option : WebElement)
           (closes2 : list Logged.event) : list Logged.event :=
  clearing closes1 ++ [Logged.Clicked dropdown; Logged.Clicked option] ++ clearing closes2.

(** [done] is a beginning of [full]. *)
Definition begins (done full : list Logged.event) : Prop :=
  exists rest, done ++ rest = full.

(** Column [j] holds text in every row. *)
Definition text_column (j : nat) (df : DataFrame) : Prop :=
  Forall (fun r => exists s, cell_at j r = CStr s) (rows df).

(** A second panel, one quarter later than [two_dates]. *)
Definition later_dates : DataFrame :=
  {| columns := ["Date"; "balance_sheet_Assets"];
     rows := [[CStr "2021-09-01"; CNum 3]; [CStr "2021-12-01"; CNum 4]] |}.

(** The state in which [get_chart], started in [w], takes its first
    scan: after the scroll-down script and the wait for the grid. *)
Definition seed_state {W} (driver : WebDriver W) (w : W) : W :=
  snd (wait_presence driver 20 ID "jqxgrid" (snd (Tools.scroll_down driver 150 w))).

(** The ordinary tabs and the prefixes under which the module docstring
    lists their columns. *)
Definition documented_prefixes : list (string * string) :=
  [("Financials", "financials"); ("Balance Sheet", "balance_sheet");
   ("Cash Flow Statement", "cash_flow_statement");
   ("Key Financial Ratios", "key_financial_ratios")].

(** A grid without a scrollbar whose metric labels hold symbols. *)
Definition symbol_labels : Scripted.Site :=
  Scripted.site_of [ {| Scripted.thumb := None;
                        Scripted.headers := ["Metric"; "2023-01-01"];
                        Scripted.cells := [["R&D, net"; "100"]; ["Margin %"; "12%"]] |} ].

(** The search box as [search] looks it up: under the first placeholder,
    or under the second one when the first wait fails. *)
Definition find_search_box {W} (driver : WebDriver W) : M W WebElement :=
  try_except (wait_presence driver 10 XPATH Tools.search_xpath_primary)
             (fun _ => wait_presence driver 10 XPATH Tools.search_xpath_fallback).

(** * Properties *)

(** ** The session monad *)

Lemma never_raises_ret {W A} (a : A) : never_raises (W := W) (ret a).
Proof. intros w. exists a, w. reflexivity. Qed.

Lemma never_raises_bind {W A B} (m : M W A) (k : A -> M W B) :
  never_raises m -> (forall a, never_raises (k a)) -> never_raises (bind m k).
Proof.
  intros Hm Hk w. destruct (Hm w) as (a & w1 & E).
  destruct (Hk a w1) as (b & w2 & E2).
  exists b, w2. unfold bind. rewrite E. exact E2.
Qed.

Lemma never_raises_try {W A} (m : M W A) (h : exn -> M W A) :
  (forall e, never_raises (h e)) -> never_raises (try_except m h).
Proof.
  intros Hh w. unfold try_except.
  destruct (m w) as [[a|e] w1].
  - exists a, w1. reflexivity.
  - apply Hh.
Qed.

Lemma never_raises_mapM {W A B} (f : A -> M W B) (l : list A) :
  (forall a, never_raises (f a)) -> never_raises (mapM f l).
Proof.
  intros Hf. induction l as [|x l IH]; simpl.
  - apply never_raises_ret.
  - apply never_raises_bind; [apply Hf|]. intros y.
    apply never_raises_bind; [exact IH|]. intros ys. apply never_raises_ret.
Qed.

(** ** Date-like headers *)

Example looks_like_date_samples :
  map Tools.looks_like_date ["2023-01-01"; "2023-1-1"; "Q1 2023"; "Revenue"; ""]
  = [true; false; false; false; false].
Proof. reflexivity. Qed.

(** ** The scroll loop of [get_chart] *)

Section ScrollLoop.

Context {W : Type} (driver : WebDriver W).

(** The two tool calls that wrap their body in [try]/[except]. *)
Lemma get_scrollbar_thumb_x_safe : never_raises (Tools.get_scrollbar_thumb_x driver).
Proof. apply never_raises_try. intros e. apply never_raises_ret. Qed.

Lemma drag_scrollbar_safe amount : never_raises (Tools.drag_scrollbar driver amount).
Proof. apply never_raises_try. intros e. apply never_raises_ret. Qed.

(** A pass that goes on to the next one has counted itself. *)
Lemma loop_body_next st w st' w' :
  Collect.loop_body driver st w = (Ok (Collect.Next st'), w') ->
  Collect.attempts st' = S (Collect.attempts st).
Proof.
  unfold Collect.loop_body, bind, ret.
  destruct (Tools.get_scrollbar_thumb_x driver w) as [[[xb|]|e] w1]; try discriminate.
  destruct (Tools.drag_scrollbar driver 100 w1) as [[scrolled|e] w2]; try discriminate.
  destruct (Tools.get_scrollbar_thumb_x driver w2) as [[[xa|]|e] w3]; try discriminate.
  destruct (xa <=? xb)%Z; try discriminate.
  destruct (Tools.extract_grid_data driver w3) as [[[nh nd]|e] w4]; try discriminate.
  destruct (Collect.new_date_cols (Collect.all_headers st) nh); try discriminate.
  intros H. injection H as H _. subst st'. reflexivity.
Qed.

(** A pass that stops leaves the three variables as they were. *)
Lemma loop_body_break st w st' w' :
  Collect.loop_body driver st w = (Ok (Collect.Break st'), w') -> st' = st.
Proof.
  unfold Collect.loop_body, bind, ret.
  destruct (Tools.get_scrollbar_thumb_x driver w) as [[[xb|]|e] w1]; try discriminate;
    [|intros H; injection H as H _; congruence].
  destruct (Tools.drag_scrollbar driver 100 w1) as [[scrolled|e] w2]; try discriminate.
  destruct (Tools.get_scrollbar_thumb_x driver w2) as [[[xa|]|e] w3]; try discriminate;
    [|intros H; injection H as H _; congruence].
  destruct (xa <=? xb)%Z; [intros H; injection H as H _; congruence|].
  destruct (Tools.extract_grid_data driver w3) as [[[nh nd]|e] w4]; try discriminate.
  destruct (Collect.new_date_cols (Collect.all_headers st) nh); try discriminate.
  intros H; injection H as H _; congruence.
Qed.

(** With more fuel than attempts left, the loop stops by itself, after
    at most that many passes. *)
Lemma scroll_loop_bounded fuel : forall st iters w,
  Collect.max_scroll_attempts - Collect.attempts st < fuel ->
  forall r n w', Collect.scroll_loop driver fuel st iters w = (r, n, w') ->
  r <> Ok None /\ n <= iters + (Collect.max_scroll_attempts - Collect.attempts st).
Proof.
  induction fuel as [|fuel IH]; intros st iters w Hfuel r n w' Hrun; [lia|].
  simpl in Hrun.
  destruct (Nat.ltb_spec (Collect.attempts st) Collect.max_scroll_attempts) as [Hlt|Hge].
  - destruct (Collect.loop_body driver st w) as [[[st1|st1]|e] w1] eqn:Hbody.
    + injection Hrun as <- <- <-. split; [discriminate|lia].
    + apply loop_body_next in Hbody.
      apply IH in Hrun; [|lia]. destruct Hrun as [Hr Hn]. split; [exact Hr|lia].
    + injection Hrun as <- <- <-. split; [discriminate|lia].
  - injection Hrun as <- <- <-. split; [discriminate|lia].
Qed.

End ScrollLoop.

(** ** Row widths *)

Lemma normalize_row_length n row : List.length (Collect.normalize_row n row) = n.
Proof.
  unfold Collect.normalize_row.
  destruct (Nat.ltb_spec (List.length row) n) as [Hlt|Hge].
  - rewrite length_app, repeat_length. lia.
  - destruct (Nat.ltb_spec n (List.length row)) as [Hgt|Hle].
    + apply firstn_length_le. lia.
    + lia.
Qed.

Lemma finish_widths st :
  Forall (fun row => List.length row = List.length (Collect.all_headers st)) (Collect.finish st).
Proof.
  unfold Collect.finish. apply Forall_forall. intros row Hin.
  apply in_map_iff in Hin. destruct Hin as (r & <- & _). apply normalize_row_length.
Qed.

Lemma DataFrame_of_finish st :
  DataFrame_of (Collect.finish st) (Collect.all_headers st)
  = Ok {| columns := Collect.all_headers st; rows := map (map CStr) (Collect.finish st) |}.
Proof.
  unfold DataFrame_of.
  replace (forallb _ (Collect.finish st)) with true; [reflexivity|].
  symmetry. apply forallb_forall. intros row Hin.
  apply Nat.eqb_eq. revert row Hin. apply Forall_forall. apply finish_widths.
Qed.

(** ** A page whose grid can be read *)

Section Readable.

Context {W : Type} (driver : WebDriver W) (Hread : grid_readable driver).

Lemma stripped_text_safe e : never_raises (Tools.stripped_text driver e).
Proof.
  destruct Hread as (_ & _ & _ & _ & Ht).
  apply never_raises_bind; [apply Ht|]. intros t. apply never_raises_ret.
Qed.

Lemma extract_grid_data_safe : never_raises (Tools.extract_grid_data driver).
Proof.
  destruct Hread as (_ & _ & Hfs & Hefs & _).
  unfold Tools.extract_grid_data.
  apply never_raises_bind; [apply Hfs|]. intros hs.
  apply never_raises_bind; [apply never_raises_mapM, stripped_text_safe|]. intros headers.
  apply never_raises_bind; [apply Hfs|]. intros rs.
  apply never_raises_bind.
  - apply never_raises_mapM. intros row.
    apply never_raises_bind; [apply Hefs|]. intros cells.
    apply never_raises_mapM, stripped_text_safe.
  - intros rows. apply never_raises_ret.
Qed.

Lemma loop_body_safe st : never_raises (Collect.loop_body driver st).
Proof.
  unfold Collect.loop_body.
  apply never_raises_bind; [apply get_scrollbar_thumb_x_safe|]. intros [xb|]; [|apply never_raises_ret].
  apply never_raises_bind; [apply drag_scrollbar_safe|]. intros scrolled.
  apply never_raises_bind; [apply get_scrollbar_thumb_x_safe|]. intros [xa|]; [|apply never_raises_ret].
  destruct (xa <=? xb)%Z; [apply never_raises_ret|].
  apply never_raises_bind; [apply extract_grid_data_safe|]. intros [nh nd].
  destruct (Collect.new_date_cols (Collect.all_headers st) nh); apply never_raises_ret.
Qed.

Lemma scroll_loop_safe fuel : forall st iters w r n w',
  Collect.scroll_loop driver fuel st iters w = (r, n, w') -> exists o, r = Ok o.
Proof.
  induction fuel as [|fuel IH]; intros st iters w r n w' Hrun; simpl in Hrun.
  - injection Hrun as <- _ _. eauto.
  - destruct (Collect.attempts st <? Collect.max_scroll_attempts).
    + destruct (loop_body_safe st w) as (c & w1 & E). rewrite E in Hrun.
      destruct c as [st1|st1].
      * injection Hrun as <- _ _. eauto.
      * eapply IH, Hrun.
    + injection Hrun as <- _ _. eauto.
Qed.

Lemma get_chart_returns fuel w :
  Collect.max_scroll_attempts < fuel ->
  exists df w', Collect.get_chart driver fuel w = (Ok (Some df), w').
Proof.
  intros Hfuel. unfold Collect.get_chart, bind.
  destruct Hread as (Hexec & Hwait & _).
  unfold Tools.scroll_down.
  destruct (Hexec ("window.scrollBy(0, " ++ Tools.str_of_nat 150 ++ ");")%string [] w)
    as ([] & w1 & E1).
  rewrite E1.
  destruct (Hwait w1) as (g & w2 & E2). rewrite E2.
  destruct (extract_grid_data_safe w2) as ([h0 d0] & w3 & E3). rewrite E3.
  unfold Collect.run_scroll_loop.
  destruct (Collect.scroll_loop driver fuel _ 0 w3) as [[r n] w4] eqn:Hrun.
  destruct (scroll_loop_safe _ _ _ _ _ _ _ Hrun) as (o & ->).
  apply scroll_loop_bounded in Hrun; [|unfold Collect.max_scroll_attempts in *; simpl; lia].
  destruct o as [st|]; [|exfalso; apply (proj1 Hrun); reflexivity].
  rewrite DataFrame_of_finish. unfold ret. eauto.
Qed.

End Readable.

(** C1. Whatever the driver and the scanner answer, the scroll loop of
    [get_chart] takes at most [max_scroll_attempts] = 50 passes and never
    runs out of fuel; and when the page can be read, the method returns a
    table.  The bound comes from [attempts] alone. *)
Theorem get_chart_terminates {W} (driver : WebDriver W) (fuel : nat) :
  Collect.max_scroll_attempts < fuel ->
  (forall headers0 data0 w, exists r n w',
      Collect.scroll_loop driver fuel
        {| Collect.all_headers := headers0; Collect.all_data := data0; Collect.attempts := 0 |}
        0 w = (r, n, w')
      /\ n <= 50 /\ r <> Ok None)
  /\ (grid_readable driver ->
      forall w, exists df w', Collect.get_chart driver fuel w = (Ok (Some df), w')).
Proof.
  intros Hfuel. split.
  - intros h0 d0 w.
    destruct (Collect.scroll_loop driver fuel _ 0 w) as [[r n] w'] eqn:Hrun.
    exists r, n, w'. split; [reflexivity|].
    apply scroll_loop_bounded in Hrun; [|unfold Collect.max_scroll_attempts in *; simpl; lia].
    simpl in Hrun. unfold Collect.max_scroll_attempts in Hrun. split; [lia|tauto].
  - intros Hread w. apply get_chart_returns; assumption.
Qed.

Lemma scripted_grid_readable s :
  Scripted.script_fails s = false -> Scripted.jqxgrid_appears s = true ->
  grid_readable (Scripted.driver s).
Proof.
  intros Hs Hg. repeat split.
  - intros code args k. exists tt, k. simpl. rewrite Hs. reflexivity.
  - intros k. exists 0, k. simpl. rewrite Hg. reflexivity.
  - intros sel k. simpl.
    destruct (sel =? Scripted.header_selector)%string; [eauto|].
    destruct (sel =? Scripted.row_selector)%string; [eauto|].
    destruct (sel =? Scripted.employee_selector)%string; eauto.
  - intros e sel k. simpl. eauto.
  - intros e k. simpl. eauto.
Qed.

(** The endless grid: 51 units of fuel, the loop stops after exactly 50
    passes and the method returns. *)
Lemma get_chart_terminates_witness :
  Collect.max_scroll_attempts < 51
  /\ grid_readable (Scripted.driver Scripted.endless)
  /\ (exists r w', Collect.scroll_loop (Scripted.driver Scripted.endless) 51
        {| Collect.all_headers := []; Collect.all_data := []; Collect.attempts := 0 |} 0 0
        = (r, 50, w') /\ r <> Ok None)
  /\ (exists df w', Collect.get_chart (Scripted.driver Scripted.endless) 51 0 = (Ok (Some df), w')).
Proof.
  assert (Hfuel : Collect.max_scroll_attempts < 51) by (unfold Collect.max_scroll_attempts; lia).
  assert (Hread : grid_readable (Scripted.driver Scripted.endless))
    by (apply scripted_grid_readable; reflexivity).
  split; [exact Hfuel|]. split; [exact Hread|]. split.
  - destruct (proj1 (get_chart_terminates (Scripted.driver Scripted.endless) 51 Hfuel) [] [] 0)
      as (r & n & w' & Hrun & _ & Hr).
    exists r, w'. split; [|exact Hr].
    rewrite Hrun. revert Hrun. vm_compute. intros H. injection H as _ <- _. reflexivity.
  - exact (proj2 (get_chart_terminates (Scripted.driver Scripted.endless) 51 Hfuel) Hread 0).
Defined.

(** ** What a run of [get_chart] is made of *)

Section Runs.

Context {W : Type} (driver : WebDriver W).

(** A pass that goes on has read a scan with new date columns and has
    folded them in. *)
Lemma loop_body_next_inv st w st' w' :
  Collect.loop_body driver st w = (Ok (Collect.Next st'), w') ->
  exists nh nd w3,
    Tools.extract_grid_data driver w3 = (Ok (nh, nd), w')
    /\ Collect.new_date_cols (Collect.all_headers st) nh <> []
    /\ st' = {| Collect.all_headers :=
                 Collect.all_headers st ++ Collect.new_date_cols (Collect.all_headers st) nh;
               Collect.all_data :=
                 Collect.absorb_rows (List.length (Collect.all_headers st))
                   (Collect.new_indices nh (Collect.new_date_cols (Collect.all_headers st) nh))
                   0 nd (Collect.all_data st);
               Collect.attempts := S (Collect.attempts st) |}.
Proof.
  unfold Collect.loop_body, bind, ret.
  destruct (Tools.get_scrollbar_thumb_x driver w) as [[[xb|]|e] w1]; try discriminate.
  destruct (Tools.drag_scrollbar driver 100 w1) as [[scrolled|e] w2]; try discriminate.
  destruct (Tools.get_scrollbar_thumb_x driver w2) as [[[xa|]|e] w3]; try discriminate.
  destruct (xa <=? xb)%Z; try discriminate.
  destruct (Tools.extract_grid_data driver w3) as [[[nh nd]|e] w4] eqn:Hscan; try discriminate.
  destruct (Collect.new_date_cols (Collect.all_headers st) nh) as [|c cols] eqn:Hcols;
    try discriminate.
  intros H. injection H as H <-. exists nh, nd, w3.
  rewrite Hcols. split; [exact Hscan|]. split; [discriminate|]. symmetry. exact H.
Qed.

(** The scan a pass folds in is the one taken in [scan_state]. *)
Lemma loop_body_next_scan st w st' w' :
  Collect.loop_body driver st w = (Ok (Collect.Next st'), w') ->
  exists nh nd,
    Tools.extract_grid_data driver (scan_state driver w) = (Ok (nh, nd), w')
    /\ Collect.new_date_cols (Collect.all_headers st) nh <> []
    /\ st' = {| Collect.all_headers :=
                 Collect.all_headers st ++ Collect.new_date_cols (Collect.all_headers st) nh;
               Collect.all_data :=
                 Collect.absorb_rows (List.length (Collect.all_headers st))
                   (Collect.new_indices nh (Collect.new_date_cols (Collect.all_headers st) nh))
                   0 nd (Collect.all_data st);
               Collect.attempts := S (Collect.attempts st) |}.
Proof.
  unfold Collect.loop_body, scan_state, bind, ret.
  destruct (Tools.get_scrollbar_thumb_x driver w) as [[[xb|]|e] w1]; try discriminate.
  cbn [snd].
  destruct (Tools.drag_scrollbar driver 100 w1) as [[scrolled|e] w2]; try discriminate.
  cbn [snd].
  destruct (Tools.get_scrollbar_thumb_x driver w2) as [[[xa|]|e] w3]; try discriminate.
  cbn [snd].
  destruct (xa <=? xb)%Z; try discriminate.
  destruct (Tools.extract_grid_data driver w3) as [[[nh nd]|e] w4] eqn:Hscan; try discriminate.
  destruct (Collect.new_date_cols (Collect.all_headers st) nh) as [|c cols] eqn:Hcols;
    try discriminate.
  intros H. injection H as H <-. exists nh, nd.
  rewrite Hcols. split; [reflexivity|]. split; [discriminate|]. symmetry. exact H.
Qed.

(** A property of the loop variables that every pass keeps holds when
    the loop is left. *)
Lemma scroll_loop_invariant (P : Collect.LoopState -> Prop) :
  (forall st w st' w',
      P st -> Collect.loop_body driver st w = (Ok (Collect.Next st'), w') -> P st') ->
  forall fuel st iters w st' n w',
    P st -> Collect.scroll_loop driver fuel st iters w = (Ok (Some st'), n, w') -> P st'.
Proof.
  intros Hstep. induction fuel as [|fuel IH]; intros st iters w st' n w' HP Hrun;
    simpl in Hrun; [discriminate|].
  destruct (Collect.attempts st <? Collect.max_scroll_attempts).
  - destruct (Collect.loop_body driver st w) as [[[st1|st1]|e] w1] eqn:Hbody.
    + apply loop_body_break in Hbody. injection Hrun as <- _ _. subst st1. exact HP.
    + eapply IH; [|exact Hrun]. eapply Hstep; eassumption.
    + discriminate.
  - injection Hrun as <- _ _. exact HP.
Qed.

(** A returned table is the final pass applied to the variables of a
    loop seeded with the first scan. *)
Lemma get_chart_inv fuel w df w' :
  Collect.get_chart driver fuel w = (Ok (Some df), w') ->
  exists h0 d0 w0 w1 st n,
    Tools.extract_grid_data driver w0 = (Ok (h0, d0), w1)
    /\ Collect.scroll_loop driver fuel
         {| Collect.all_headers := h0; Collect.all_data := d0; Collect.attempts := 0 |} 0 w1
       = (Ok (Some st), n, w')
    /\ df = {| columns := Collect.all_headers st;
               rows := map (map CStr) (Collect.finish st) |}.
Proof.
  unfold Collect.get_chart, bind.
  destruct (Tools.scroll_down driver 150 w) as [[[]|e] wa]; try discriminate.
  destruct (wait_presence driver 20 ID "jqxgrid" wa) as [[g|e] w0]; try discriminate.
  destruct (Tools.extract_grid_data driver w0) as [[[h0 d0]|e] w1] eqn:Hscan; try discriminate.
  unfold Collect.run_scroll_loop.
  destruct (Collect.scroll_loop driver fuel _ 0 w1) as [[r n] w2] eqn:Hrun.
  destruct r as [[st|]|e]; try discriminate.
  rewrite DataFrame_of_finish. unfold ret. intros H. injection H as <- <-.
  exists h0, d0, w0, w1, st, n. repeat split; assumption.
Qed.

End Runs.

(** ** Header uniqueness *)

Lemma mem_In x l : mem x l = true <-> In x l.
Proof.
  induction l as [|y l IH]; simpl; [split; [discriminate|tauto]|].
  rewrite orb_true_iff, IH, String.eqb_eq. split; intros [H|H]; auto.
Qed.

Lemma new_date_cols_spec all nh h :
  In h (Collect.new_date_cols all nh)
  <-> In h nh /\ Tools.looks_like_date h = true /\ ~ In h all.
Proof.
  unfold Collect.new_date_cols. rewrite filter_In, andb_true_iff, negb_true_iff.
  pose proof (mem_In h all) as Hmem.
  destruct (mem h all); intuition congruence.
Qed.

Lemma headers_stay_distinct all nh :
  NoDup all -> NoDup nh -> NoDup (all ++ Collect.new_date_cols all nh).
Proof.
  intros Hall Hnh. apply NoDup_app; [exact Hall| |].
  - unfold Collect.new_date_cols. apply NoDup_filter. exact Hnh.
  - intros h Hin Hnew. apply new_date_cols_spec in Hnew. tauto.
Qed.

(** C2, amended. When no single scan repeats a header, the headers of the
    table [get_chart] returns are pairwise distinct; and in any case a
    pass only ever appends date-like headers that were not there yet. *)
Theorem assembled_headers_distinct {W} (driver : WebDriver W) :
  scans_distinct driver ->
  (forall fuel w df w',
      Collect.get_chart driver fuel w = (Ok (Some df), w') -> NoDup (columns df))
  /\ (forall st w st' w',
        Collect.loop_body driver st w = (Ok (Collect.Next st'), w') ->
        exists cols,
          Collect.all_headers st' = Collect.all_headers st ++ cols
          /\ forall h, In h cols ->
               Tools.looks_like_date h = true /\ ~ In h (Collect.all_headers st)).
Proof.
  intros Hscans. split.
  - intros fuel w df w' Hrun.
    apply get_chart_inv in Hrun.
    destruct Hrun as (h0 & d0 & w0 & w1 & st & n & Hscan & Hloop & ->). simpl.
    eapply (scroll_loop_invariant driver (fun st => NoDup (Collect.all_headers st)));
      [| |exact Hloop].
    + intros st1 wa st2 wb HP Hbody.
      apply loop_body_next_inv in Hbody.
      destruct Hbody as (nh & nd & w3 & Hs & _ & ->). simpl.
      apply headers_stay_distinct; [exact HP|]. eapply Hscans, Hs.
    + simpl. eapply Hscans, Hscan.
  - intros st w st' w' Hbody.
    apply loop_body_next_inv in Hbody.
    destruct Hbody as (nh & nd & w3 & _ & _ & ->). simpl.
    eexists. split; [reflexivity|].
    intros h Hin. apply new_date_cols_spec in Hin. tauto.
Qed.

Ltac distinct_strings :=
  repeat (constructor; [simpl; intuition discriminate|]); constructor.

Ltac scripted_frames k H :=
  destruct k as [|[|[|[|k]]]]; vm_compute in H.

Lemma walkthrough_scans_distinct : scans_distinct (Scripted.driver Scripted.walkthrough).
Proof.
  intros k hs rows w' H. scripted_frames k H; injection H as <- _ _; distinct_strings.
Qed.

(** The walk-through grid: three distinct headers. *)
Lemma assembled_headers_distinct_witness :
  scans_distinct (Scripted.driver Scripted.walkthrough)
  /\ NoDup ["Metric"; "2023-01-01"; "2023-04-01"].
Proof.
  split; [exact walkthrough_scans_distinct|].
  exact (proj1 (assembled_headers_distinct (Scripted.driver Scripted.walkthrough)
                  walkthrough_scans_distinct)
           51 0
           {| columns := ["Metric"; "2023-01-01"; "2023-04-01"];
              rows := [[CStr "Revenue"; CStr "100"; CStr "110"]] |}
           2 eq_refl).
Defined.

(** C2 as stated fails: a second scan that shows the new date 2023-04-01
    under two header cells puts that header into the table twice. *)
Lemma assembled_headers_repeat :
  Collect.get_chart (Scripted.driver Scripted.repeated_header) 51 0
  = (Ok (Some {| columns := ["Metric"; "2023-01-01"; "2023-04-01"; "2023-04-01"];
                 rows := [[CStr "Revenue"; CStr "100"; CStr "110"; CStr "110"]] |}), 2)
  /\ ~ NoDup ["Metric"; "2023-01-01"; "2023-04-01"; "2023-04-01"].
Proof.
  split; [reflexivity|].
  intros H. inversion H as [|? ? _ H1]; subst.
  inversion H1 as [|? ? _ H2]; subst.
  inversion H2 as [|? ? Hin _]; subst.
  apply Hin. left. reflexivity.
Qed.

(** ** Row widths, pass by pass *)

Section Absorb.

Variables (n : nat) (idx : list nat).

Let wide (k : nat) (row : list string) : Prop := List.length row = k.
Let m : nat := List.length idx.

Lemma extend_at_length i rd data :
  List.length (Collect.extend_at i rd data) = List.length data.
Proof.
  revert i. induction data as [|r data IH]; intros [|i]; simpl; auto.
Qed.

Lemma extend_at_firstn : forall data i rd,
  i < List.length data ->
  firstn (S i) (Collect.extend_at i rd data) = firstn i data ++ [nth i data [] ++ rd].
Proof.
  induction data as [|r data IH]; intros [|i] rd Hi; simpl in *; try lia; [reflexivity|].
  f_equal. apply IH. lia.
Qed.

Lemma extend_at_skipn : forall data i rd,
  skipn (S i) (Collect.extend_at i rd data) = skipn (S i) data.
Proof.
  induction data as [|r data IH]; intros [|i] rd; simpl; auto.
  apply IH.
Qed.

Lemma skipn_head : forall (data : list (list string)) i,
  i < List.length data -> skipn i data = nth i data [] :: skipn (S i) data.
Proof.
  induction data as [|r data IH]; intros [|i] Hi; simpl in *; try lia; [reflexivity|].
  apply IH. lia.
Qed.

(** Rows below [i] already carry the new cells, rows from [i] on do not
    yet; absorbing the scan's rows from [i] on moves that border. *)
Lemma absorb_rows_widths : forall new i data,
  i <= List.length data ->
  Forall (wide (n + m)) (firstn i data) ->
  Forall (wide n) (skipn i data) ->
  let res := Collect.absorb_rows n idx i new data in
  List.length res = Nat.max (List.length data) (i + List.length new)
  /\ Forall (wide (n + m)) (firstn (i + List.length new) res)
  /\ Forall (wide n) (skipn (i + List.length new) res).
Proof.
  induction new as [|row new IH]; intros i data Hi Hdone Htodo; simpl.
  - rewrite Nat.add_0_r. repeat split; [lia|assumption|assumption].
  - set (rd := map (get_or_empty row) idx).
    assert (Hrd : List.length rd = m) by (unfold rd, m; apply length_map).
    destruct (Nat.ltb_spec i (List.length data)) as [Hlt|Hge].
    + specialize (IH (S i) (Collect.extend_at i rd data)).
      rewrite extend_at_length, extend_at_firstn, extend_at_skipn in IH by assumption.
      rewrite (skipn_head data i Hlt) in Htodo. inversion Htodo as [|? ? Hrow Hrest]; subst.
      destruct IH as (Hlen & Hd & Ht); [lia| |exact Hrest|].
      * apply Forall_app. split; [exact Hdone|]. constructor; [|constructor].
        unfold wide in *. rewrite length_app. lia.
      * replace (i + S (List.length new)) with (S i + List.length new) by lia.
        repeat split; [lia|assumption|assumption].
    + assert (i = List.length data) by lia. subst i.
      rewrite firstn_all in Hdone.
      set (fresh := repeat "" n ++ rd).
      assert (Hlen' : List.length (data ++ [fresh]) = S (List.length data))
        by (rewrite length_app; simpl; lia).
      assert (Hf : firstn (S (List.length data)) (data ++ [fresh]) = data ++ [fresh])
        by (apply firstn_all2; lia).
      assert (Hs : skipn (S (List.length data)) (data ++ [fresh]) = [])
        by (apply skipn_all2; lia).
      destruct (IH (S (List.length data)) (data ++ [fresh])) as (Hlen & Hd & Ht).
      * lia.
      * rewrite Hf. apply Forall_app. split; [exact Hdone|]. constructor; [|constructor].
        unfold wide, fresh. rewrite length_app, repeat_length. lia.
      * rewrite Hs. constructor.
      * replace (List.length data + S (List.length new))
          with (S (List.length data) + List.length new) by lia.
        repeat split; [lia|assumption|assumption].
Qed.

End Absorb.

(** A scan with at least as many rows as gathered so far keeps every row
    as wide as the header list. *)
Lemma absorb_keeps_widths headers cols nh nd data :
  Forall (fun row => List.length row = List.length headers) data ->
  List.length data <= List.length nd ->
  Forall (fun row => List.length row = List.length (headers ++ cols))
    (Collect.absorb_rows (List.length headers) (Collect.new_indices nh cols) 0 nd data).
Proof.
  intros Hw Hrows.
  destruct (absorb_rows_widths (List.length headers) (Collect.new_indices nh cols) nd 0 data)
    as (Hlen & Hd & _); [lia|constructor|exact Hw|].
  simpl in Hd. rewrite firstn_all2 in Hd by lia.
  unfold Collect.new_indices in Hd. rewrite length_map in Hd.
  rewrite length_app. exact Hd.
Qed.

(** C3, amended. Every row of the table [get_chart] returns is exactly as
    wide as its header list: the final pass pads short rows with empty
    strings and truncates long ones.  Inside the loop a pass keeps rows
    and headers in step when the scan that pass reads (the one taken in
    [scan_state]) has at least as many rows as were gathered so far. *)
Theorem returned_rows_match_headers {W} (driver : WebDriver W) :
  (forall fuel w df w',
      Collect.get_chart driver fuel w = (Ok (Some df), w') ->
      Forall (fun row => List.length row = List.length (columns df)) (rows df))
  /\ (forall n row,
        List.length (Collect.normalize_row n row) = n
        /\ (List.length row <= n ->
            Collect.normalize_row n row = row ++ repeat "" (n - List.length row))
        /\ (n <= List.length row -> Collect.normalize_row n row = firstn n row))
  /\ (forall st w st' w',
        Forall (fun row => List.length row = List.length (Collect.all_headers st))
          (Collect.all_data st) ->
        (forall nh nd w4,
            Tools.extract_grid_data driver (scan_state driver w) = (Ok (nh, nd), w4) ->
            List.length (Collect.all_data st) <= List.length nd) ->
        Collect.loop_body driver st w = (Ok (Collect.Next st'), w') ->
        Forall (fun row => List.length row = List.length (Collect.all_headers st'))
          (Collect.all_data st')).
Proof.
  split; [|split].
  - intros fuel w df w' Hrun.
    apply get_chart_inv in Hrun.
    destruct Hrun as (h0 & d0 & w0 & w1 & st & n & _ & _ & ->). simpl.
    apply Forall_forall. intros row Hin.
    apply in_map_iff in Hin. destruct Hin as (r & <- & Hr).
    rewrite length_map. revert r Hr. apply Forall_forall, finish_widths.
  - intros n row. split; [apply normalize_row_length|]. unfold Collect.normalize_row. split.
    + intros Hle. destruct (Nat.ltb_spec (List.length row) n) as [Hlt|Hge]; [reflexivity|].
      destruct (Nat.ltb_spec n (List.length row)); [lia|].
      replace (n - List.length row) with 0 by lia. simpl. symmetry. apply app_nil_r.
    + intros Hle. destruct (Nat.ltb_spec (List.length row) n) as [Hlt|Hge]; [lia|].
      destruct (Nat.ltb_spec n (List.length row)); [reflexivity|].
      symmetry. apply firstn_all2. lia.
  - intros st w st' w' Hw Hrows Hbody.
    apply loop_body_next_scan in Hbody.
    destruct Hbody as (nh & nd & Hscan & _ & ->). simpl.
    apply absorb_keeps_widths; [exact Hw|]. eapply Hrows, Hscan.
Qed.

(** The walk-through grid: one row, three headers, three cells; and its
    first pass, which reads a scan of one row for the one row gathered. *)
Lemma returned_rows_match_headers_witness :
  let seed := {| Collect.all_headers := ["Metric"; "2023-01-01"];
                 Collect.all_data := [["Revenue"; "100"]];
                 Collect.attempts := 0 |} in
  let after := {| Collect.all_headers := ["Metric"; "2023-01-01"; "2023-04-01"];
                  Collect.all_data := [["Revenue"; "100"; "110"]];
                  Collect.attempts := 1 |} in
  (Collect.get_chart (Scripted.driver Scripted.walkthrough) 51 0
   = (Ok (Some {| columns := ["Metric"; "2023-01-01"; "2023-04-01"];
                  rows := [[CStr "Revenue"; CStr "100"; CStr "110"]] |}), 2)
   /\ Forall (fun row => List.length row = 3) [[CStr "Revenue"; CStr "100"; CStr "110"]])
  /\ (Forall (fun row => List.length row = List.length (Collect.all_headers seed))
        (Collect.all_data seed)
      /\ (forall nh nd w4,
            Tools.extract_grid_data (Scripted.driver Scripted.walkthrough)
              (scan_state (Scripted.driver Scripted.walkthrough) 0) = (Ok (nh, nd), w4) ->
            List.length (Collect.all_data seed) <= List.length nd)
      /\ Collect.loop_body (Scripted.driver Scripted.walkthrough) seed 0
         = (Ok (Collect.Next after), 1)
      /\ Forall (fun row => List.length row = List.length (Collect.all_headers after))
           (Collect.all_data after)).
Proof.
  intros seed after.
  assert (Hseed : Forall (fun row => List.length row = List.length (Collect.all_headers seed))
                    (Collect.all_data seed)) by (repeat constructor).
  assert (Hscan : forall nh nd w4,
             Tools.extract_grid_data (Scripted.driver Scripted.walkthrough)
               (scan_state (Scripted.driver Scripted.walkthrough) 0) = (Ok (nh, nd), w4) ->
             List.length (Collect.all_data seed) <= List.length nd).
  { intros nh nd w4 H. vm_compute in H. injection H as _ <- _. simpl. lia. }
  assert (Hbody : Collect.loop_body (Scripted.driver Scripted.walkthrough) seed 0
                  = (Ok (Collect.Next after), 1)) by reflexivity.
  split.
  - split; [reflexivity|].
    exact (proj1 (returned_rows_match_headers (Scripted.driver Scripted.walkthrough))
             51 0
             {| columns := ["Metric"; "2023-01-01"; "2023-04-01"];
                rows := [[CStr "Revenue"; CStr "100"; CStr "110"]] |}
             2 eq_refl).
  - split; [exact Hseed|]. split; [exact Hscan|]. split; [exact Hbody|].
    exact (proj2 (proj2 (returned_rows_match_headers (Scripted.driver Scripted.walkthrough)))
             seed 0 after 1 Hseed Hscan Hbody).
Defined.

(** C3 as stated fails inside the loop: the first scan shows two rows, the
    scan after the first drag a new date column but one row only.  After
    that pass there are three headers, and the second row still has two
    cells; it is padded only by the final pass. *)
Lemma rows_lag_behind_headers :
  let seed := {| Collect.all_headers := ["Metric"; "2023-01-01"];
                 Collect.all_data := [["Revenue"; "100"]; ["Costs"; "40"]];
                 Collect.attempts := 0 |} in
  let after := {| Collect.all_headers := ["Metric"; "2023-01-01"; "2023-04-01"];
                  Collect.all_data := [["Revenue"; "100"; "110"]; ["Costs"; "40"]];
                  Collect.attempts := 1 |} in
  Tools.extract_grid_data (Scripted.driver Scripted.shrinking) 0
  = (Ok (Collect.all_headers seed, Collect.all_data seed), 0)
  /\ Forall (fun row => List.length row = List.length (Collect.all_headers seed))
       (Collect.all_data seed)
  /\ Collect.loop_body (Scripted.driver Scripted.shrinking) seed 0 = (Ok (Collect.Next after), 1)
  /\ ~ Forall (fun row => List.length row = List.length (Collect.all_headers after))
         (Collect.all_data after).
Proof.
  repeat split.
  - repeat constructor.
  - intros H. simpl in H. inversion H as [|? ? _ H1]; subst.
    inversion H1 as [|? ? Hrow _]; subst. discriminate Hrow.
Qed.

(** ** The boolean [drag_scrollbar] returns *)

Section Drag.

Context {W : Type} (driver driver' : WebDriver W).

Lemma loop_body_ignores_drag :
  (forall w, Tools.get_scrollbar_thumb_x driver w = Tools.get_scrollbar_thumb_x driver' w) ->
  (forall w, Tools.extract_grid_data driver w = Tools.extract_grid_data driver' w) ->
  (forall w, snd (Tools.drag_scrollbar driver 100 w) = snd (Tools.drag_scrollbar driver' 100 w)) ->
  forall st w, Collect.loop_body driver st w = Collect.loop_body driver' st w.
Proof.
  intros Hthumb Hscan Hdrag st w. unfold Collect.loop_body, bind.
  rewrite <- Hthumb.
  destruct (Tools.get_scrollbar_thumb_x driver w) as [[[xb|]|e] w1]; try reflexivity.
  specialize (Hdrag w1).
  destruct (drag_scrollbar_safe driver 100 w1) as (b & w2 & E). rewrite E in *.
  destruct (drag_scrollbar_safe driver' 100 w1) as (b' & w2' & E'). rewrite E' in *.
  simpl in Hdrag. subst w2'.
  rewrite <- Hthumb.
  destruct (Tools.get_scrollbar_thumb_x driver w2) as [[[xa|]|e] w3]; try reflexivity.
  destruct (xa <=? xb)%Z; [reflexivity|].
  rewrite <- Hscan. reflexivity.
Qed.

End Drag.

(** C9. [drag_scrollbar] never raises: it returns [True] exactly when the
    thumb was found and the gesture went through, [False] otherwise.  The
    scroll loop does not look at that boolean: two drivers that give the
    same thumb readings and scans and move the page alike, whatever their
    gestures report, take the loop through the same passes to the same
    result. *)
Theorem drag_scrollbar_total_and_unused {W} (driver driver' : WebDriver W) :
  (forall amount w, exists b w',
      Tools.drag_scrollbar driver amount w = (Ok b, w')
      /\ (b = true <->
          exists thumb w1,
            find_element driver ID Tools.thumb_id w = (Ok thumb, w1)
            /\ drag_and_release driver thumb amount w1 = (Ok tt, w')))
  /\ ((forall w, Tools.get_scrollbar_thumb_x driver w = Tools.get_scrollbar_thumb_x driver' w) ->
      (forall w, Tools.extract_grid_data driver w = Tools.extract_grid_data driver' w) ->
      (forall w, snd (Tools.drag_scrollbar driver 100 w)
                 = snd (Tools.drag_scrollbar driver' 100 w)) ->
      forall fuel st iters w,
        Collect.scroll_loop driver fuel st iters w = Collect.scroll_loop driver' fuel st iters w).
Proof.
  split.
  - intros amount w. unfold Tools.drag_scrollbar, try_except, bind, ret.
    destruct (find_element driver ID Tools.thumb_id w) as [[thumb|e] w1] eqn:Hfind.
    + destruct (drag_and_release driver thumb amount w1) as [[[]|e] w2] eqn:Hdrag.
      * exists true, w2. split; [reflexivity|]. split; [|reflexivity].
        intros _. exists thumb, w1. split; [reflexivity|exact Hdrag].
      * exists false, w2. split; [reflexivity|]. split; [discriminate|].
        intros (t & wa & Hf & Hd). injection Hf as -> ->. congruence.
    + exists false, w1. split; [reflexivity|]. split; [discriminate|].
      intros (t & wa & Hf & _). discriminate Hf.
  - intros Hthumb Hscan Hdrag.
    induction fuel as [|fuel IH]; intros st iters w; simpl; [reflexivity|].
    rewrite (loop_body_ignores_drag driver driver' Hthumb Hscan Hdrag).
    destruct (Collect.attempts st <? Collect.max_scroll_attempts); [|reflexivity].
    destruct (Collect.loop_body driver' st w) as [[[st1|st1]|e] w1]; try reflexivity.
    apply IH.
Qed.

(** The walk-through page with a working and with a jammed gesture: the
    boolean differs, the loop does the same. *)
Lemma drag_scrollbar_total_and_unused_witness :
  let good := Scripted.driver Scripted.walkthrough in
  let bad := Scripted.driver Scripted.jammed in
  let seed := {| Collect.all_headers := ["Metric"; "2023-01-01"];
                 Collect.all_data := [["Revenue"; "100"]];
                 Collect.attempts := 0 |} in
  (forall w, Tools.get_scrollbar_thumb_x good w = Tools.get_scrollbar_thumb_x bad w)
  /\ (forall w, Tools.extract_grid_data good w = Tools.extract_grid_data bad w)
  /\ (forall w, snd (Tools.drag_scrollbar good 100 w) = snd (Tools.drag_scrollbar bad 100 w))
  /\ Tools.drag_scrollbar good 100 0 = (Ok true, 1)
  /\ Tools.drag_scrollbar bad 100 0 = (Ok false, 1)
  /\ Collect.scroll_loop good 51 seed 0 0 = Collect.scroll_loop bad 51 seed 0 0.
Proof.
  intros good bad seed.
  assert (Hthumb : forall w, Tools.get_scrollbar_thumb_x good w = Tools.get_scrollbar_thumb_x bad w)
    by (intros w; reflexivity).
  assert (Hscan : forall w, Tools.extract_grid_data good w = Tools.extract_grid_data bad w)
    by (intros w; reflexivity).
  assert (Hdrag : forall w, snd (Tools.drag_scrollbar good 100 w)
                            = snd (Tools.drag_scrollbar bad 100 w)).
  { intros w. unfold Tools.drag_scrollbar, try_except, bind, good, bad. simpl.
    destruct (Scripted.thumb _); reflexivity. }
  split; [exact Hthumb|]. split; [exact Hscan|]. split; [exact Hdrag|].
  split; [reflexivity|]. split; [reflexivity|].
  exact (proj2 (drag_scrollbar_total_and_unused good bad) Hthumb Hscan Hdrag 51 seed 0 0).
Defined.

(** ** Overlay removal *)

Section Overlays.

Context {W : Type} (driver : WebDriver W).

Lemma close_ad_overlay_safe : never_raises (Remove.close_ad_overlay driver).
Proof. apply never_raises_try. intros e. apply never_raises_ret. Qed.

Lemma wait_for_overlay_to_disappear_safe timeout :
  never_raises (Remove.wait_for_overlay_to_disappear driver timeout).
Proof. apply never_raises_try. intros e. apply never_raises_ret. Qed.

End Overlays.

(** C6 fails on [remove_ad_overlay]. The first and the third step of the
    overlay-clearing sequence never raise, but [remove_ad_overlay] calls
    [execute_script] outside any [try]: when that call raises, the
    exception leaves [remove_ad_overlay] and [ensure_ads_removed]. *)
Theorem remove_ad_overlay_propagates {W} (driver : WebDriver W) (e : exn) :
  never_raises (Remove.close_ad_overlay driver)
  /\ (forall timeout, never_raises (Remove.wait_for_overlay_to_disappear driver timeout))
  /\ ((forall w, exists w', execute_script driver Remove.remove_script [] w = (Raise e, w')) ->
      forall w,
        (exists w', Remove.remove_ad_overlay driver w = (Raise e, w'))
        /\ (exists w', Tools.ensure_ads_removed driver w = (Raise e, w'))).
Proof.
  split; [apply close_ad_overlay_safe|].
  split; [apply wait_for_overlay_to_disappear_safe|].
  intros Hscript w. split; [apply Hscript|].
  unfold Tools.ensure_ads_removed, bind.
  destruct (close_ad_overlay_safe driver w) as ([] & w1 & E). rewrite E.
  unfold Remove.remove_ad_overlay.
  destruct (Hscript w1) as (w2 & E2). rewrite E2. eauto.
Qed.

(** A page whose script engine reports an error. *)
Lemma remove_ad_overlay_propagates_witness :
  (forall w, exists w',
      execute_script (Scripted.driver Scripted.scriptless) Remove.remove_script [] w
      = (Raise (WebDriverException "javascript error"), w'))
  /\ (exists w', Remove.remove_ad_overlay (Scripted.driver Scripted.scriptless) 0
                 = (Raise (WebDriverException "javascript error"), w'))
  /\ (exists w', Tools.ensure_ads_removed (Scripted.driver Scripted.scriptless) 0
                 = (Raise (WebDriverException "javascript error"), w')).
Proof.
  assert (Hscript : forall w, exists w',
             execute_script (Scripted.driver Scripted.scriptless) Remove.remove_script [] w
             = (Raise (WebDriverException "javascript error"), w'))
    by (intros w; exists w; reflexivity).
  split; [exact Hscript|].
  exact (proj2 (proj2 (remove_ad_overlay_propagates
                         (Scripted.driver Scripted.scriptless)
                         (WebDriverException "javascript error"))) Hscript 0).
Defined.

(** ** The employee table *)

Section Employees.

Context {W : Type} (driver : WebDriver W).

(** C10. [extract_employee_table_to_df] never raises.  A table row that
    does not have exactly two cells adds nothing and the loop goes on;
    when every row is read and parsed, the method returns the frame of the
    parsed rows; and when anything raises while the rows are looked up,
    read or parsed, it returns the empty frame, whatever had been parsed
    before. *)
Theorem extract_employee_table_to_df_total :
  never_raises (Collect.extract_employee_table_to_df driver)
  /\ (forall row rest data w cols w1,
        elem_find_elements driver row TAG_NAME "td" w = (Ok cols, w1) ->
        List.length cols <> 2 ->
        Collect.employee_rows driver (row :: rest) data w
        = Collect.employee_rows driver rest data w1)
  /\ (forall w rows w1 data w2,
        find_elements driver CSS_SELECTOR "table.historical_data_table tbody tr" w
        = (Ok rows, w1) ->
        Collect.employee_rows driver rows [] w1 = (Ok data, w2) ->
        Collect.extract_employee_table_to_df driver w = (Ok (Collect.employee_frame data), w2))
  /\ (forall w rows w1 e w2,
        find_elements driver CSS_SELECTOR "table.historical_data_table tbody tr" w
        = (Ok rows, w1) ->
        Collect.employee_rows driver rows [] w1 = (Raise e, w2) ->
        Collect.extract_employee_table_to_df driver w = (Ok no_frame, w2))
  /\ (forall w e w1,
        find_elements driver CSS_SELECTOR "table.historical_data_table tbody tr" w
        = (Raise e, w1) ->
        Collect.extract_employee_table_to_df driver w = (Ok no_frame, w1)).
Proof.
  split; [|split; [|split; [|split]]].
  - apply never_raises_try. intros e. apply never_raises_ret.
  - intros row rest data w cols w1 Hcols Hlen. simpl.
    unfold bind at 1. unfold Collect.employee_row. unfold bind at 1. rewrite Hcols.
    destruct cols as [|c0 [|c1 [|c2 cols]]]; simpl in Hlen; try lia; reflexivity.
  - intros w rows w1 data w2 Hrows Hparse.
    unfold Collect.extract_employee_table_to_df, try_except, bind.
    rewrite Hrows, Hparse. reflexivity.
  - intros w rows w1 e w2 Hrows Hparse.
    unfold Collect.extract_employee_table_to_df, try_except, bind.
    rewrite Hrows, Hparse. reflexivity.
  - intros w e w1 Hrows.
    unfold Collect.extract_employee_table_to_df, try_except, bind.
    rewrite Hrows. reflexivity.
Qed.

End Employees.

(** A table whose second row cannot be parsed: the first row is lost with
    it. *)
Lemma extract_employee_table_to_df_total_witness :
  let driver := Scripted.driver Scripted.misprinted in
  find_elements driver CSS_SELECTOR "table.historical_data_table tbody tr" 0 = (Ok [8; 9], 0)
  /\ Collect.employee_rows driver [8; 9] [] 0 = (Raise ValueError, 0)
  /\ Collect.extract_employee_table_to_df driver 0 = (Ok no_frame, 0).
Proof.
  intros driver. split; [reflexivity|]. split; [reflexivity|].
  exact (proj1 (proj2 (proj2 (proj2 (extract_employee_table_to_df_total driver))))
           0 [8; 9] 0 ValueError 0 eq_refl eq_refl).
Defined.

(** ** Errors inside a panel *)

Section PanelErrors.

Context {W : Type} (driver : WebDriver W).

Lemma search_safe name : never_raises (Tools.search driver name).
Proof. apply never_raises_try. intros e. apply never_raises_ret. Qed.

Lemma click_safe value nested : never_raises (Tools.click driver value nested).
Proof. apply never_raises_try. intros e. apply never_raises_ret. Qed.

Lemma quartely_safe : never_raises (Tools.quartely driver).
Proof. apply never_raises_try. intros e. apply never_raises_ret. Qed.

(** C5 fails on the first ordinary panel. [collect_stock_info] has no
    handler around a panel: when the wait for the grid in [get_chart]
    times out, the exception leaves [collect_stock_info], and no later
    panel is visited. *)
Theorem panel_timeout_aborts_run :
  (forall code args, never_raises (execute_script driver code args)) ->
  (forall w, exists w', wait_presence driver 20 ID "jqxgrid" w = (Raise TimeoutException, w')) ->
  forall fuel stock_name w,
  exists w', Collect.collect_stock_info driver fuel stock_name w = (Raise TimeoutException, w').
Proof.
  intros Hscript Hwait fuel stock_name w.
  unfold Collect.collect_stock_info, bind.
  destruct (search_safe stock_name w) as ([] & w1 & E1). rewrite E1.
  simpl. unfold bind at 1. unfold Collect.ordinary_panel, bind.
  destruct (click_safe "Financials" false w1) as ([] & w2 & E2). rewrite E2.
  destruct (quartely_safe w2) as ([] & w3 & E3). rewrite E3.
  unfold Collect.get_chart, bind, Tools.scroll_down.
  destruct (Hscript ("window.scrollBy(0, " ++ Tools.str_of_nat 150 ++ ");")%string [] w3)
    as ([] & w4 & E4).
  rewrite E4.
  destruct (Hwait w4) as (w5 & E5). rewrite E5. eauto.
Qed.

End PanelErrors.

(** A page without the grid element. *)
Lemma panel_timeout_aborts_run_witness :
  let driver := Scripted.driver Scripted.gridless in
  (forall code args, never_raises (execute_script driver code args))
  /\ (forall w, exists w', wait_presence driver 20 ID "jqxgrid" w = (Raise TimeoutException, w'))
  /\ exists w', Collect.collect_stock_info driver 51 "Nvidia" 0 = (Raise TimeoutException, w').
Proof.
  intros driver.
  assert (Hscript : forall code args, never_raises (execute_script driver code args))
    by (intros code args w; exists tt, w; reflexivity).
  assert (Hwait : forall w, exists w',
             wait_presence driver 20 ID "jqxgrid" w = (Raise TimeoutException, w'))
    by (intros w; exists w; reflexivity).
  split; [exact Hscript|]. split; [exact Hwait|].
  exact (panel_timeout_aborts_run driver Hscript Hwait 51 "Nvidia" 0).
Defined.

(** ** Cell cleaning *)

Lemma all_some_length {A} (l : list (option A)) l' :
  all_some l = Some l' -> List.length l' = List.length l.
Proof.
  revert l'. induction l as [|[a|] l IH]; intros l' H; simpl in H; try discriminate.
  - injection H as <-. reflexivity.
  - destruct (all_some l) as [t|]; simpl in H; [|discriminate].
    injection H as <-. simpl. f_equal. apply IH. reflexivity.
Qed.

Lemma all_some_nth {A B} (f : A -> option B) (l : list A) l' (i : nat) da db :
  all_some (map f l) = Some l' -> i < List.length l -> f (nth i l da) = Some (nth i l' db).
Proof.
  revert l' i. induction l as [|a l IH]; intros l' i H Hi; simpl in *; [lia|].
  destruct (f a) as [b|] eqn:Hfa; [|discriminate].
  destruct (all_some (map f l)) as [t|] eqn:Ht; simpl in H; [|discriminate].
  injection H as <-. destruct i as [|i]; simpl; [exact Hfa|].
  apply IH; [reflexivity|lia].
Qed.


Lemma cell_at_map (g : cell -> cell) j r :
  g CNaN = CNaN -> cell_at j (map g r) = g (cell_at j r).
Proof.
  intros Hg. unfold cell_at. rewrite <- Hg at 1. apply map_nth.
Qed.

Lemma column_applymap (g : cell -> cell) j df :
  g CNaN = CNaN -> column j (applymap g df) = map g (column j df).
Proof.
  intros Hg. unfold column, applymap. simpl. rewrite !map_map.
  apply map_ext. intros r. apply cell_at_map, Hg.
Qed.

Lemma nth_map_seq {A} (f : nat -> A) n i d : i < n -> nth i (map f (seq 0 n)) d = f i.
Proof.
  intros Hi. rewrite (nth_indep _ d (f 0)) by (rewrite length_map, length_seq; exact Hi).
  rewrite map_nth, seq_nth by exact Hi. reflexivity.
Qed.

(** Where a cell of the cleaned wide table comes from: its column of the
    scraped table, cleaned as a whole. *)
Lemma clean_panel_cell df i j :
  i < List.length (rows df) -> j < List.length (columns df) ->
  cell_of (Collect.clean_panel df) i j
  = cell_at i (to_numeric_ignore
                 (map strip_symbols_cell (map replace_dash (column j df)))).
Proof.
  intros Hi Hj. unfold cell_of, Collect.clean_panel, apply_columns. simpl.
  unfold rows_of_columns. rewrite !length_map.
  rewrite nth_map_seq by exact Hi.
  unfold cell_at at 1.
  rewrite (nth_indep _ CNaN (cell_at i [])) by (rewrite !length_map, length_seq; exact Hj).
  rewrite map_nth. rewrite nth_map_seq by exact Hj.
  rewrite !column_applymap by reflexivity. reflexivity.
Qed.

Lemma column_cell df i j : cell_at i (column j df) = cell_of df i j.
Proof.
  assert (E : cell_at j [] = CNaN) by (destruct j; reflexivity).
  unfold cell_of, column. unfold cell_at at 1. rewrite <- E at 1. apply map_nth.
Qed.

(** *** Stripping twice is stripping once *)







Lemma all_some_none {A B} (f : A -> option B) (l : list A) i d :
  i < List.length l -> f (nth i l d) = None -> all_some (map f l) = None.
Proof.
  revert i. induction l as [|a l IH]; intros i Hi Hf; simpl in *; [lia|].
  destruct i as [|i].
  - rewrite Hf. reflexivity.
  - destruct (f a); [|reflexivity]. rewrite (IH i); [reflexivity|lia|exact Hf].
Qed.

Lemma all_some_total {A B} (f : A -> option B) (l : list A) :
  (forall a, In a l -> f a <> None) -> exists l', all_some (map f l) = Some l'.
Proof.
  induction l as [|a l IH]; intros H; simpl; [eauto|].
  destruct (f a) as [b|] eqn:E; [|exfalso; apply (H a); [left; reflexivity|exact E]].
  destruct IH as (l' & ->); [intros x Hx; apply H; right; exact Hx|].
  simpl. eauto.
Qed.

Lemma stripped_column df i j :
  cell_at i (map strip_symbols_cell (map replace_dash (column j df))) = stripped_cell df i j.
Proof.
  rewrite !cell_at_map by reflexivity. rewrite column_cell. reflexivity.
Qed.

Lemma to_numeric_cell_number c n : to_numeric_cell c = Some n -> is_number n = true.
Proof.
  destruct c as [s| | | |]; simpl; try (intros H; injection H as <-; reflexivity);
    try discriminate.
  destruct s as [|a s]; [intros H; injection H as <-; reflexivity|].
  destruct (number_of_str (String a s)); simpl; [|discriminate].
  intros H. injection H as <-. reflexivity.
Qed.

(** One cell that cannot be read leaves its whole column as stripped
    text. *)
Lemma clean_panel_text_column df j i0 i :
  j < List.length (columns df) -> i0 < List.length (rows df) -> i < List.length (rows df) ->
  to_numeric_cell (stripped_cell df i0 j) = None ->
  cell_of (Collect.clean_panel df) i j = stripped_cell df i j.
Proof.
  intros Hj Hi0 Hi Hbad. rewrite clean_panel_cell by assumption.
  set (col := map strip_symbols_cell (map replace_dash (column j df))).
  assert (Hlen : List.length col = List.length (rows df))
    by (unfold col, column; rewrite !length_map; reflexivity).
  unfold to_numeric_ignore.
  rewrite (all_some_none to_numeric_cell col i0 CNaN).
  - apply stripped_column.
  - rewrite Hlen. exact Hi0.
  - fold (cell_at i0 col). unfold col. rewrite stripped_column. exact Hbad.
Qed.


(** *** Text that no reader of numbers accepts *)

Lemma never_in_number_char c :
  never_in_number c = true ->
  is_digit c = false /\ is_space c = false
  /\ Ascii.eqb c "." = false /\ Ascii.eqb c "-" = false /\ Ascii.eqb c "+" = false.
Proof.
  destruct c as [[] [] [] [] [] [] [] []]; vm_compute; intros H; try discriminate H;
    repeat split.
Qed.

Lemma space_in_number c : is_space c = true -> never_in_number c = false.
Proof.
  intros H. destruct (never_in_number c) eqn:E; [|reflexivity].
  apply never_in_number_char in E. destruct E as (_ & E & _). congruence.
Qed.

Lemma surely_text_lstrip s : surely_text (lstrip s) = surely_text s.
Proof.
  induction s as [|c s IH]; [reflexivity|]. cbn [lstrip].
  destruct (is_space c) eqn:E; [|reflexivity].
  cbn [surely_text]. rewrite (space_in_number c E). exact IH.
Qed.

Lemma surely_text_rstrip s : surely_text (rstrip s) = surely_text s.
Proof.
  induction s as [|c s IH]; [reflexivity|]. cbn [rstrip surely_text].
  destruct (rstrip s) as [|d t].
  - rewrite <- IH. destruct (is_space c) eqn:E.
    + rewrite (space_in_number c E). reflexivity.
    + reflexivity.
  - rewrite <- IH. reflexivity.
Qed.

Lemma digits_from_text s : surely_text s = true -> forall acc, digits_from acc s = None.
Proof.
  induction s as [|c s IH]; [discriminate|]. cbn [surely_text digits_from]. intros H acc.
  destruct (never_in_number c) eqn:E.
  - apply never_in_number_char in E. destruct E as (-> & _). reflexivity.
  - destruct (is_digit c); [apply IH, H|reflexivity].
Qed.

Lemma split_at_dot_text s :
  surely_text s = true ->
  surely_text (fst (split_at_dot s)) = true
  \/ exists f, snd (split_at_dot s) = Some f /\ surely_text f = true.
Proof.
  induction s as [|c s IH]; [discriminate|]. cbn [surely_text split_at_dot]. intros H.
  destruct (Ascii.eqb c ".") eqn:Edot.
  - right. exists s. split; [reflexivity|].
    destruct (never_in_number c) eqn:E; [|exact H].
    apply never_in_number_char in E. destruct E as (_ & _ & E & _). congruence.
  - destruct (split_at_dot s) as [a b]. cbn [fst snd surely_text] in *.
    destruct (never_in_number c); [left; reflexivity|].
    destruct (IH H) as [Ha|Hb]; [left; exact Ha|right; exact Hb].
Qed.

Lemma unsigned_literal_text s : surely_text s = true -> unsigned_literal s = None.
Proof.
  intros H. unfold unsigned_literal.
  pose proof (split_at_dot_text s H) as Hsplit.
  destruct (split_at_dot s) as [ip [fp|]]; cbn [fst snd] in Hsplit.
  - assert (Hnone : match digits_from 0 ip, digits_from 0 fp with
                    | Some a, Some b =>
                        Some (Qred (Qmake (a * pow10 (String.length fp) + b)
                                      (Z.to_pos (pow10 (String.length fp)))))
                    | _, _ => None
                    end = None).
    { destruct Hsplit as [Hip|(f & Hf & Hfp)].
      - rewrite (digits_from_text ip Hip). reflexivity.
      - injection Hf as ->. rewrite (digits_from_text f Hfp).
        destruct (digits_from 0 ip); reflexivity. }
    destruct ip as [|a ip']; [destruct fp as [|b fp']; [reflexivity|exact Hnone]|exact Hnone].
  - destruct Hsplit as [Hip|(f & Hf & _)]; [|discriminate].
    unfold digits. destruct ip as [|a ip']; [discriminate|].
    rewrite (digits_from_text _ Hip). reflexivity.
Qed.

(** The model's reader of numbers agrees: such text is no number. *)
Lemma surely_text_unreadable s : surely_text s = true -> number_of_str s = None.
Proof.
  intros H. unfold number_of_str.
  assert (Hs : surely_text (strip s) = true)
    by (unfold strip; rewrite surely_text_rstrip, surely_text_lstrip; exact H).
  destruct (strip s) as [|c t]; [discriminate|].
  assert (Hsign : Ascii.eqb c "-" = true \/ Ascii.eqb c "+" = true -> surely_text t = true).
  { intros Hc. cbn [surely_text] in Hs.
    destruct (never_in_number c) eqn:E; [|exact Hs].
    apply never_in_number_char in E. destruct E as (_ & _ & _ & E1 & E2).
    destruct Hc; congruence. }
  destruct (Ascii.eqb c "-") eqn:Em.
  - apply Ascii.eqb_eq in Em. subst c.
    rewrite (unsigned_literal_text t (Hsign (or_introl eq_refl))). reflexivity.
  - destruct (Ascii.eqb c "+") eqn:Ep.
    + apply Ascii.eqb_eq in Ep. subst c.
      apply (unsigned_literal_text t (Hsign (or_intror eq_refl))).
    + assert (Hrest : unsigned_literal (String c t) = None)
        by (apply unsigned_literal_text, Hs).
      clear Hsign Hs H. revert Em Ep Hrest.
      destruct c as [[] [] [] [] [] [] [] []]; cbn [Ascii.eqb Bool.eqb]; intros Em Ep Hrest;
        try discriminate; exact Hrest.
Qed.




(** ** The merge by calendar year *)

Lemma position_In name cols j : position name cols = Some j -> In name cols.
Proof.
  revert j. induction cols as [|c cols IH]; intros j H; simpl in *; [discriminate|].
  destruct (String.eqb name c) eqn:E; [left; symmetry; apply String.eqb_eq, E|].
  destruct (position name cols) as [k|]; [|discriminate]. right. eapply IH. reflexivity.
Qed.

Lemma position_lt name cols j : position name cols = Some j -> j < List.length cols.
Proof.
  revert j. induction cols as [|c cols IH]; intros j H; simpl in *; [discriminate|].
  destruct (String.eqb name c); [injection H as <-; lia|].
  destruct (position name cols) as [k|]; [|discriminate].
  injection H as <-. specialize (IH k eq_refl). lia.
Qed.

Lemma position_after name cols rest :
  ~ In name cols -> position name (cols ++ name :: rest) = Some (List.length cols).
Proof.
  induction cols as [|c cols IH]; intros Hnot; simpl.
  - rewrite String.eqb_refl. reflexivity.
  - destruct (String.eqb name c) eqn:E.
    + apply String.eqb_eq in E. exfalso. apply Hnot. left. symmetry. exact E.
    + rewrite IH; [reflexivity|]. intros H. apply Hnot. right. exact H.
Qed.

Lemma set_nth_length {A} j (x : A) l : List.length (set_nth j x l) = List.length l.
Proof. revert j. induction l as [|y l IH]; intros [|j]; simpl; auto. Qed.

Lemma cell_at_set_nth j x r : j < List.length r -> cell_at j (set_nth j x r) = x.
Proof.
  revert j. induction r as [|c r IH]; intros [|j] Hj; simpl in *; try lia; [reflexivity|].
  apply IH. lia.
Qed.

Lemma cell_at_app_left j r t : j < List.length r -> cell_at j (r ++ t) = cell_at j r.
Proof. intros Hj. unfold cell_at. apply app_nth1, Hj. Qed.

Lemma cell_at_app_here r x t : cell_at (List.length r) (r ++ x :: t) = x.
Proof. unfold cell_at. rewrite app_nth2, Nat.sub_diag by lia. reflexivity. Qed.

Lemma drop_nth_here {A} (r : list A) x t : drop_nth (List.length r) (r ++ x :: t) = r ++ t.
Proof.
  unfold drop_nth. induction r as [|a r IH]; simpl; [reflexivity|].
  f_equal. exact IH.
Qed.

Lemma Qeq_bool_inject a b : Qeq_bool (inject_Z a) (inject_Z b) = (a =? b)%Z.
Proof. unfold Qeq_bool. simpl. rewrite !Z.mul_1_r. reflexivity. Qed.

(** The rows of the employee frame listed under a year. *)
Lemma matching_year y data :
  matching 0 (CNum (inject_Z y))
    (map (fun ye => [CNum (inject_Z (fst ye)); CNum (inject_Z (snd ye))]) data)
  = map (fun e => [CNum (inject_Z y); CNum (inject_Z e)]) (employees_in y data).
Proof.
  unfold matching, employees_in. induction data as [|[y' e] data IH]; simpl; [reflexivity|].
  rewrite Qeq_bool_inject. destruct (Z.eqb_spec y' y) as [->|Hne]; simpl.
  - f_equal. exact IH.
  - exact IH.
Qed.

Lemma merge_columns_employees cols :
  ~ In "Year" cols -> ~ In "Employees" cols ->
  merge_columns "Year" (cols ++ ["Year"]) ["Year"; "Employees"]
  = cols ++ ["Year"; "Employees"].
Proof.
  intros HY HE. unfold merge_columns. simpl.
  replace (mem "Employees" (cols ++ ["Year"])) with false.
  2:{ symmetry. apply not_true_is_false. intros H. apply mem_In in H.
      apply in_app_or in H. destruct H as [H|[H|[]]]; [tauto|discriminate]. }
  rewrite map_app. simpl. rewrite <- app_assoc. simpl. f_equal.
  rewrite <- (map_id cols) at 2. apply map_ext_in. intros c Hc.
  destruct (String.eqb_spec c "Year") as [->|HnY]; [tauto|].
  destruct (String.eqb_spec c "Employees") as [->|HnE]; [tauto|]. reflexivity.
Qed.

Lemma year_of_number c : year_of (to_datetime_cell c) = CNum (inject_Z (year_number c)).
Proof. unfold year_number. destruct (to_datetime_cell c); reflexivity. Qed.

Lemma position_absent name cols : ~ In name cols -> position name cols = None.
Proof.
  intros Hnot. destruct (position name cols) as [j|] eqn:E; [|reflexivity].
  exfalso. eapply Hnot, position_In, E.
Qed.

(** One row of the running table through the join and the dropping of
    the helper column. *)
Lemma employee_join_row n jd data r :
  jd < n -> List.length r = n ->
  let dated := set_nth jd (to_datetime_cell (cell_at jd r)) r in
  let keyed := dated ++ [year_of (cell_at jd dated)] in
  map (drop_nth n)
    (match matching 0 (cell_at n keyed)
             (map (fun ye => [CNum (inject_Z (fst ye)); CNum (inject_Z (snd ye))]) data) with
     | [] => [keyed ++ blanks (2 - 1)]
     | rs => map (fun r0 => keyed ++ drop_nth 0 r0) rs
     end)
  = employee_join jd data r.
Proof.
  intros Hjd Hlen dated keyed.
  assert (Hd : List.length dated = n) by (unfold dated; rewrite set_nth_length; exact Hlen).
  assert (Hkey : cell_at n keyed = CNum (inject_Z (year_number (cell_at jd r)))).
  { unfold keyed. rewrite <- Hd at 1. rewrite cell_at_app_here.
    unfold dated. rewrite cell_at_set_nth by lia. apply year_of_number. }
  rewrite Hkey, matching_year. unfold employee_join, with_employees. fold dated.
  assert (Hone : forall e, drop_nth n (keyed ++ [e]) = dated ++ [e]).
  { intros e. unfold keyed. rewrite <- app_assoc. simpl. rewrite <- Hd. apply drop_nth_here. }
  clearbody keyed dated.
  destruct (employees_in (year_number (cell_at jd r)) data) as [|e es]; cbn [map].
  - f_equal. exact (Hone CNaN).
  - f_equal; [exact (Hone _)|].
    rewrite !map_map. apply map_ext. intros e'. exact (Hone _).
Qed.

Lemma employee_join_rows n jd data rs :
  jd < n -> Forall (fun r => List.length r = n) rs ->
  map (drop_nth n)
    (merge_left_rows n 0 2
       (map (fun r' => r' ++ [year_of (cell_at jd r')])
          (map (fun r => set_nth jd (to_datetime_cell (cell_at jd r)) r) rs))
       (map (fun ye => [CNum (inject_Z (fst ye)); CNum (inject_Z (snd ye))]) data))
  = flat_map (employee_join jd data) rs.
Proof.
  intros Hjd Hrs. induction Hrs as [|r rs Hr _ IH]; [reflexivity|].
  simpl. rewrite map_app. f_equal; [|exact IH].
  apply (employee_join_row n jd data r Hjd Hr).
Qed.

Lemma tl_map {A B} (f : A -> B) l : tl (map f l) = map f (tl l).
Proof. destruct l; reflexivity. Qed.

(** The merge by year, written out: the first row of the running table
    is left out, every other row is joined with the counts of its year. *)
Lemma merge_employees_rows combined jd data :
  well_formed combined ->
  position "Date" (columns combined) = Some jd ->
  ~ In "Year" (columns combined) -> ~ In "Employees" (columns combined) ->
  data <> [] ->
  Collect.merge_employees jd combined (Collect.employee_frame data)
  = Ok {| columns := columns combined ++ ["Employees"];
          rows := flat_map (employee_join jd data) (tl (rows combined)) |}.
Proof.
  intros Hwf Hdate HY HE Hdata.
  pose proof (position_lt _ _ _ Hdate) as Hjd.
  unfold Collect.merge_employees.
  assert (Hframe : select2 "Year" "Employees" (Collect.employee_frame data)
                   = Ok {| columns := ["Year"; "Employees"];
                           rows := map (fun ye => [CNum (inject_Z (fst ye));
                                                   CNum (inject_Z (snd ye))]) data |}).
  { destruct data as [|ye data]; [contradiction|]. unfold Collect.employee_frame, select2.
    simpl. do 2 f_equal. f_equal. rewrite map_map. reflexivity. }
  rewrite Hframe.
  unfold set_column, map_column. cbn [columns rows].
  rewrite (position_absent "Year" (columns combined) HY).
  unfold merge_left, iloc_from_1. cbn [columns rows].
  rewrite (position_after "Year" (columns combined) [] HY).
  cbn [position String.eqb Ascii.eqb Bool.eqb].
  rewrite merge_columns_employees by assumption.
  unfold drop_column. cbn [columns rows].
  rewrite (position_after "Year" (columns combined) ["Employees"] HY).
  rewrite drop_nth_here. f_equal. f_equal.
  rewrite !tl_map.
  apply employee_join_rows; [exact Hjd|].
  unfold well_formed in Hwf. destruct (rows combined) as [|r0 rs]; [constructor|].
  inversion Hwf. assumption.
Qed.

Lemma employees_in_spec y e data : In e (employees_in y data) <-> In (y, e) data.
Proof.
  unfold employees_in. rewrite in_map_iff. split.
  - intros ([y' e'] & <- & Hin). apply filter_In in Hin. destruct Hin as [Hin Hy].
    simpl in Hy. apply Z.eqb_eq in Hy. subst y'. exact Hin.
  - intros Hin. exists (y, e). split; [reflexivity|].
    apply filter_In. split; [exact Hin|]. simpl. apply Z.eqb_refl.
Qed.

(** A year the table lists with one count only: every row of that year
    is joined with that count, once or more. *)
Lemma employee_join_single jd data r y e :
  year_number (cell_at jd r) = y ->
  In (y, e) data -> (forall e', In (y, e') data -> e' = e) ->
  forall row, In row (employee_join jd data r) <-> row = with_employees jd r (CNum (inject_Z e)).
Proof.
  intros Hy Hin Huniq row. unfold employee_join. rewrite Hy.
  assert (Hall : forall e', In e' (employees_in y data) -> e' = e)
    by (intros e' H; apply Huniq, employees_in_spec, H).
  assert (Hsome : In e (employees_in y data)) by (apply employees_in_spec, Hin).
  destruct (employees_in y data) as [|e0 es]; [contradiction|].
  rewrite in_map_iff. split.
  - intros (e' & <- & He'). rewrite (Hall e' He'). reflexivity.
  - intros ->. exists e. split; [reflexivity|exact Hsome].
Qed.

(** C4, amended. In the merge by year of [collect_stock_info], for a
    unified table that holds the dates 2021-03-01 and 2021-09-01 in rows
    other than its first and an employee table that lists 500 for 2021,
    both rows are in the merged table and carry Employees = 500, as does
    every merged row dated in 2021. *)
Theorem employees_repeat_within_year combined jd data :
  well_formed combined ->
  position "Date" (columns combined) = Some jd ->
  ~ In "Year" (columns combined) -> ~ In "Employees" (columns combined) ->
  In (2021, 500)%Z data -> (forall e, In (2021, e)%Z data -> e = 500%Z) ->
  exists merged,
    Collect.merge_employees jd combined (Collect.employee_frame data) = Ok merged
    /\ columns merged = columns combined ++ ["Employees"]
    /\ (forall r, In r (tl (rows combined)) -> cell_at jd r = CStr "2021-03-01" ->
          In (set_nth jd (CTimestamp 2021 3 1) r ++ [CNum 500]) (rows merged))
    /\ (forall r, In r (tl (rows combined)) -> cell_at jd r = CStr "2021-09-01" ->
          In (set_nth jd (CTimestamp 2021 9 1) r ++ [CNum 500]) (rows merged))
    /\ (forall row m d, In row (rows merged) -> cell_at jd row = CTimestamp 2021 m d ->
          cell_at (List.length (columns combined)) row = CNum 500).
Proof.
  intros Hwf Hdate HY HE Hin Huniq.
  assert (Hdata : data <> []) by (intros ->; contradiction).
  rewrite (merge_employees_rows combined jd data Hwf Hdate HY HE Hdata).
  eexists. split; [reflexivity|]. cbn [columns rows].
  split; [reflexivity|].
  pose proof (position_lt _ _ _ Hdate) as Hjd.
  assert (Hwide : forall r, In r (tl (rows combined)) ->
                            List.length r = List.length (columns combined)).
  { intros r Hr. unfold well_formed in Hwf. rewrite Forall_forall in Hwf. apply Hwf.
    destruct (rows combined); [contradiction|]. right. exact Hr. }
  assert (Hrow : forall r s m d,
             In r (tl (rows combined)) -> cell_at jd r = CStr s ->
             to_datetime_cell (CStr s) = CTimestamp 2021 m d ->
             In (set_nth jd (CTimestamp 2021 m d) r ++ [CNum 500])
               (flat_map (employee_join jd data) (tl (rows combined)))).
  { intros r s m d Hr Hcell Hts. apply in_flat_map. exists r. split; [exact Hr|].
    apply (employee_join_single jd data r 2021%Z 500%Z); try assumption.
    - unfold year_number. rewrite Hcell, Hts. reflexivity.
    - unfold with_employees. rewrite Hcell, Hts. reflexivity. }
  split; [|split].
  - intros r Hr Hcell. apply (Hrow r "2021-03-01" 3%Z 1%Z Hr Hcell). reflexivity.
  - intros r Hr Hcell. apply (Hrow r "2021-09-01" 9%Z 1%Z Hr Hcell). reflexivity.
  - intros row m d Hrow' Hcell. apply in_flat_map in Hrow'. destruct Hrow' as (r & Hr & Hjoin).
    pose proof (Hwide r Hr) as Hlen.
    assert (Hdated : cell_at jd row = to_datetime_cell (cell_at jd r)).
    { unfold employee_join in Hjoin.
      assert (Hform : exists e, row = with_employees jd r e).
      { destruct (employees_in (year_number (cell_at jd r)) data) as [|e0 es].
        - destruct Hjoin as [<-|[]]. eauto.
        - apply in_map_iff in Hjoin. destruct Hjoin as (e & <- & _). eauto. }
      destruct Hform as (e & ->). unfold with_employees.
      rewrite cell_at_app_left by (rewrite set_nth_length; lia).
      apply cell_at_set_nth. lia. }
    rewrite Hcell in Hdated.
    apply (employee_join_single jd data r 2021%Z 500%Z) in Hjoin; try assumption.
    + subst row. unfold with_employees.
      rewrite <- Hlen, <- (set_nth_length jd (to_datetime_cell (cell_at jd r)) r).
      apply cell_at_app_here.
    + unfold year_number. rewrite <- Hdated. reflexivity.
Qed.

(** A unified table with a row before the two dates of 2021. *)
Lemma employees_repeat_within_year_witness :
  well_formed three_dates
  /\ position "Date" (columns three_dates) = Some 0
  /\ exists merged,
       Collect.merge_employees 0 three_dates (Collect.employee_frame [(2021, 500)%Z]) = Ok merged
       /\ In [CTimestamp 2021 3 1; CNum 10; CNum 500] (rows merged)
       /\ In [CTimestamp 2021 9 1; CNum 20; CNum 500] (rows merged).
Proof.
  assert (Hwf : well_formed three_dates) by (repeat constructor).
  assert (HY : ~ In "Year" (columns three_dates)) by (simpl; intuition discriminate).
  assert (HE : ~ In "Employees" (columns three_dates)) by (simpl; intuition discriminate).
  assert (Hin : In (2021, 500)%Z [(2021, 500)%Z]) by (left; reflexivity).
  assert (Huniq : forall e, In (2021, e)%Z [(2021, 500)%Z] -> e = 500%Z)
    by (intros e [H|[]]; congruence).
  destruct (employees_repeat_within_year three_dates 0 [(2021, 500)%Z]
              Hwf eq_refl HY HE Hin Huniq) as (merged & Hrun & _ & H3 & H9 & _).
  split; [exact Hwf|]. split; [reflexivity|].
  exists merged. split; [exact Hrun|]. split.
  - apply (H3 [CStr "2021-03-01"; CNum 10]); [left; reflexivity|reflexivity].
  - apply (H9 [CStr "2021-09-01"; CNum 20]); [right; left; reflexivity|reflexivity].
Defined.

(** C4 as stated fails: when 2021-03-01 is the first row of the unified
    table, it is gone after the merge. *)
Lemma first_date_row_is_dropped :
  map (cell_at 0) (rows two_dates) = [CStr "2021-03-01"; CStr "2021-09-01"]
  /\ Collect.merge_employees 0 two_dates (Collect.employee_frame [(2021, 500)%Z])
     = Ok {| columns := ["Date"; "financials_Revenue"; "Employees"];
             rows := [[CTimestamp 2021 9 1; CNum 20; CNum 500]] |}
  /\ ~ In (CTimestamp 2021 3 1)
         (map (cell_at 0) [[CTimestamp 2021 9 1; CNum 20; CNum 500]])
  /\ exists saved w',
       Collect.collect_stock_info (Scripted.driver Scripted.year_2021) 51 "Nvidia" 0
       = (Ok (Collect.Saved saved), w')
       /\ map (cell_at 0) (rows saved) = [CTimestamp 2021 9 1].
Proof.
  split; [reflexivity|]. split; [reflexivity|]. split.
  - intros [H|[]]. discriminate H.
  - eexists. eexists. split; [vm_compute; reflexivity|reflexivity].
Qed.

(** ** The outer join on [Date] *)

Lemma insert_key_perm k l : Permutation (insert_key k l) (k :: l).
Proof.
  induction l as [|x l IH]; simpl; [apply Permutation_refl|].
  destruct (String.leb k x); [apply Permutation_refl|].
  eapply Permutation_trans; [apply perm_skip, IH|apply perm_swap].
Qed.

Lemma sort_keys_perm l : Permutation (sort_keys l) l.
Proof.
  induction l as [|k l IH]; simpl; [constructor|].
  eapply Permutation_trans; [apply insert_key_perm|]. apply perm_skip, IH.
Qed.

Lemma eqb_neq_false (a b : string) : a <> b -> String.eqb a b = false.
Proof. intros H. apply String.eqb_neq, H. Qed.

Lemma mem_absent x l : ~ In x l -> mem x l = false.
Proof. intros H. apply not_true_is_false. intros Hm. apply H, mem_In, Hm. Qed.

(** Columns with names of their own on either side keep their names. *)
Lemma merge_columns_disjoint ca cb :
  (forall c, In c ca -> ~ In c cb) -> ~ In "Date" cb ->
  merge_columns "Date" ("Date" :: ca) ("Date" :: cb) = "Date" :: ca ++ cb.
Proof.
  intros Hdisj Hdate. unfold merge_columns. cbn [map filter String.eqb Ascii.eqb Bool.eqb negb andb].
  cbn [app]. f_equal. f_equal.
  - rewrite <- (map_id ca) at 2. apply map_ext_in. intros c Hc.
    cbn [mem]. destruct (String.eqb c "Date"); [reflexivity|].
    cbn [negb andb orb]. rewrite (mem_absent c cb (Hdisj c Hc)). reflexivity.
  - assert (Hkeep : filter (fun c => negb (String.eqb c "Date")) cb = cb).
    { apply forallb_filter_id. apply forallb_forall. intros c Hc.
      apply negb_true_iff, eqb_neq_false. intros ->. contradiction. }
    rewrite Hkeep. rewrite <- (map_id cb) at 2. apply map_ext_in. intros c Hc.
    cbn [mem]. rewrite eqb_neq_false by (intros ->; contradiction).
    cbn [orb]. rewrite mem_absent; [reflexivity|].
    intros Hin. exact (Hdisj c Hin Hc).
Qed.

(** C8. Two ordinary panels, the first with the dates [d1] and [d2], the
    second with [d2] and [d3]: the merged table has exactly these three
    dates; the row of [d1] has the second panel's columns, all missing
    (and written as 0 by the last pass); the row of [d2] has the values of
    both panels; the row of [d3] has the first panel's columns missing. *)
Theorem outer_join_completeness
        (d1 d2 d3 : string) (ca cb : list string) (va1 va2 vb2 vb3 : list cell) :
  d1 <> d2 -> d2 <> d3 -> d1 <> d3 ->
  (forall c, In c ca -> ~ In c cb) -> ~ In "Date" cb ->
  let panel_a := {| columns := "Date" :: ca;
                    rows := [CStr d1 :: va1; CStr d2 :: va2] |} in
  let panel_b := {| columns := "Date" :: cb;
                    rows := [CStr d2 :: vb2; CStr d3 :: vb3] |} in
  exists merged,
    merge_outer "Date" panel_a panel_b = Ok merged
    /\ columns merged = "Date" :: ca ++ cb
    /\ Permutation (keys_of 0 (rows merged)) [d1; d2; d3]
    /\ Permutation (rows merged)
         [CStr d1 :: va1 ++ blanks (List.length cb);
          CStr d2 :: va2 ++ vb2;
          CStr d3 :: blanks (List.length ca) ++ vb3]
    /\ written CNaN = CNum 0.
Proof.
  intros H12 H23 H13 Hdisj Hdate panel_a panel_b.
  assert (E11 := String.eqb_refl d1). assert (E22 := String.eqb_refl d2).
  assert (E33 := String.eqb_refl d3).
  assert (E12 := eqb_neq_false d1 d2 H12).
  assert (E21 := eqb_neq_false d2 d1 (not_eq_sym H12)).
  assert (E23 := eqb_neq_false d2 d3 H23).
  assert (E32 := eqb_neq_false d3 d2 (not_eq_sym H23)).
  assert (E13 := eqb_neq_false d1 d3 H13).
  assert (E31 := eqb_neq_false d3 d1 (not_eq_sym H13)).
  set (row1 := CStr d1 :: va1 ++ blanks (List.length cb)).
  set (row2 := CStr d2 :: va2 ++ vb2).
  set (row3 := CStr d3 :: blanks (List.length ca) ++ vb3).
  set (per_key := fun k =>
         match with_key 0 k (rows panel_a), with_key 0 k (rows panel_b) with
         | [], rs => map (fun r => set_nth 0 (cell_at 0 r) (blanks (List.length (columns panel_a)))
                                     ++ drop_nth 0 r) rs
         | ls, [] => map (fun l => l ++ blanks (List.length (columns panel_b) - 1)) ls
         | ls, rs => flat_map (fun l => map (fun r => l ++ drop_nth 0 r) rs) ls
         end).
  assert (Hkeys : Permutation (outer_keys 0 0 (rows panel_a) (rows panel_b)) [d1; d2; d3]).
  { unfold outer_keys. eapply Permutation_trans; [apply sort_keys_perm|].
    cbn [rows panel_a panel_b map app cell_at nth py_str nodup].
    destruct (in_dec string_dec d1 [d2; d2; d3]) as [Hin|_];
      [simpl in Hin; intuition congruence|].
    destruct (in_dec string_dec d2 [d2; d3]) as [_|Hout];
      [|exfalso; apply Hout; left; reflexivity].
    destruct (in_dec string_dec d2 [d3]) as [Hin|_];
      [simpl in Hin; intuition congruence|].
    destruct (in_dec string_dec d3 []) as [[]|_]. apply Permutation_refl. }
  assert (Hrows : flat_map per_key [d1; d2; d3] = [row1; row2; row3]).
  { unfold per_key, with_key.
    cbn [flat_map rows panel_a panel_b columns filter cell_at nth py_str].
    rewrite E11, E21, E12, E22, E32, E23, E13, E31, E33.
    cbn [filter map flat_map app].
    replace (List.length ("Date" :: cb) - 1) with (List.length cb) by (simpl; lia).
    reflexivity. }
  exists {| columns := "Date" :: ca ++ cb;
            rows := flat_map per_key (outer_keys 0 0 (rows panel_a) (rows panel_b)) |}.
  split.
  - unfold merge_outer. cbn [columns panel_a panel_b position String.eqb Ascii.eqb Bool.eqb].
    rewrite merge_columns_disjoint by assumption. reflexivity.
  - cbn [columns rows]. split; [reflexivity|].
    assert (Hperm : Permutation (flat_map per_key (outer_keys 0 0 (rows panel_a) (rows panel_b)))
                      [row1; row2; row3]).
    { rewrite <- Hrows. apply Permutation_flat_map, Hkeys. }
    split; [|split; [exact Hperm|reflexivity]].
    unfold keys_of. apply (Permutation_map (fun r => py_str (cell_at 0 r))) in Hperm.
    exact Hperm.
Qed.

(** The first two tabs of the page with overlapping quarters, and the
    whole run on that page. *)
Lemma outer_join_completeness_witness :
  let panel_a := {| columns := ["Date"; "financials_Revenue"];
                    rows := [[CStr "2023-01-01"; CNum 1]; [CStr "2023-04-01"; CNum 2]] |} in
  let panel_b := {| columns := ["Date"; "balance_sheet_Assets"];
                    rows := [[CStr "2023-04-01"; CNum 3]; [CStr "2023-07-01"; CNum 4]] |} in
  (exists merged,
      merge_outer "Date" panel_a panel_b = Ok merged
      /\ columns merged = ["Date"; "financials_Revenue"; "balance_sheet_Assets"]
      /\ Permutation (keys_of 0 (rows merged)) ["2023-01-01"; "2023-04-01"; "2023-07-01"]
      /\ Permutation (rows merged)
           [[CStr "2023-01-01"; CNum 1; CNaN];
            [CStr "2023-04-01"; CNum 2; CNum 3];
            [CStr "2023-07-01"; CNaN; CNum 4]])
  /\ Collect.collect_stock_info (Scripted.driver Scripted.overlapping) 51 "Nvidia" 0
     = (Ok (Collect.Saved
              {| columns := ["Date"; "financials_Revenue"; "balance_sheet_Assets";
                             "cash_flow_statement_Flow"; "key_financial_ratios_Flow"];
                 rows := [[CTimestamp 2023 1 1; CNum 1; CNum 0; CNum 0; CNum 0];
                          [CTimestamp 2023 4 1; CNum 2; CNum 3; CNum 0; CNum 0];
                          [CTimestamp 2023 7 1; CNum 0; CNum 4; CNum 0; CNum 0]] |}), 2).
Proof.
  intros panel_a panel_b. split; [|vm_compute; reflexivity].
  assert (H12 : "2023-01-01" <> "2023-04-01") by discriminate.
  assert (H23 : "2023-04-01" <> "2023-07-01") by discriminate.
  assert (H13 : "2023-01-01" <> "2023-07-01") by discriminate.
  assert (Hdisj : forall c, In c ["financials_Revenue"] -> ~ In c ["balance_sheet_Assets"])
    by (intros c [<-|[]] [H|[]]; discriminate H).
  assert (Hdate : ~ In "Date" ["balance_sheet_Assets"]) by (intros [H|[]]; discriminate H).
  destruct (outer_join_completeness "2023-01-01" "2023-04-01" "2023-07-01"
              ["financials_Revenue"] ["balance_sheet_Assets"]
              [CNum 1] [CNum 2] [CNum 3] [CNum 4] H12 H23 H13 Hdisj Hdate)
    as (merged & Hrun & Hcols & Hkeys & Hrows & _).
  exists merged. repeat split; assumption.
Defined.

(** * Further properties of the scripts *)

(** ** How a collection run can end *)

Section RunOutcomes.

Context {W : Type} (driver : WebDriver W).

(** With more fuel than scroll attempts, [get_chart] raises or returns a
    table. *)
Lemma get_chart_fuelled fuel w r w' :
  Collect.max_scroll_attempts < fuel ->
  Collect.get_chart driver fuel w = (r, w') -> r <> Ok None.
Proof.
  intros Hfuel. unfold Collect.get_chart, bind.
  destruct (Tools.scroll_down driver 150 w) as [[[]|e] wa];
    [|intros H; injection H as <- _; discriminate].
  destruct (wait_presence driver 20 ID "jqxgrid" wa) as [[g|e] w0];
    [|intros H; injection H as <- _; discriminate].
  destruct (Tools.extract_grid_data driver w0) as [[[h0 d0]|e] w1];
    [|intros H; injection H as <- _; discriminate].
  unfold Collect.run_scroll_loop.
  destruct (Collect.scroll_loop driver fuel _ 0 w1) as [[r0 n] w2] eqn:Hrun.
  apply scroll_loop_bounded in Hrun; [|unfold Collect.max_scroll_attempts in *; simpl; lia].
  destruct Hrun as [Hr _].
  destruct r0 as [[st|]|e].
  - rewrite DataFrame_of_finish. unfold ret. intros H; injection H as <- _; discriminate.
  - exfalso. apply Hr. reflexivity.
  - intros H; injection H as <- _; discriminate.
Qed.

(** An ordinary panel never hands back "no table". *)
Lemma ordinary_panel_keeps_data fuel title combined w r w' :
  Collect.ordinary_panel driver fuel title combined w = (r, w') -> r <> Ok (Some None).
Proof.
  unfold Collect.ordinary_panel, bind.
  destruct (Tools.click driver title false w) as [[[]|e] w1];
    [|intros H; injection H as <- _; discriminate].
  destruct (Tools.quartely driver w1) as [[[]|e] w2];
    [|intros H; injection H as <- _; discriminate].
  destruct (Collect.get_chart driver fuel w2) as [[[df|]|e] w3];
    [| |intros H; injection H as <- _; discriminate].
  - unfold Collect.lift.
    destruct (Collect.transpose_panel _ _) as [df_t|e]; unfold ret, raise;
      [|intros H; injection H as <- _; discriminate].
    destruct combined as [c|]; [|intros H; injection H as <- _; discriminate].
    destruct (merge_outer "Date" c df_t) as [m|e];
      intros H; injection H as <- _; discriminate.
  - unfold ret. intros H; injection H as <- _; discriminate.
Qed.

(** The "Other Metrics" branch never loses a table it was given. *)
Lemma employee_panel_keeps_data title c w r w' :
  Collect.employee_panel driver title (Some c) w = (r, w') -> r <> Ok None.
Proof.
  unfold Collect.employee_panel, bind.
  destruct (Tools.click driver title false w) as [[[]|e] w1];
    [|intros H; injection H as <- _; discriminate].
  destruct (Tools.click driver "Employee Count" true w1) as [[[]|e] w2];
    [|intros H; injection H as <- _; discriminate].
  destruct (Collect.extract_employee_table_to_df driver w2) as [[df|e] w3];
    [|intros H; injection H as <- _; discriminate].
  destruct (negb (empty df)); [|unfold ret; intros H; injection H as <- _; discriminate].
  unfold Collect.lift.
  destruct (coerce_int_column "Year" df) as [df1|e]; unfold ret, raise;
    [|intros H; injection H as <- _; discriminate].
  destruct (coerce_int_column "Employees" df1) as [df2|e];
    [|intros H; injection H as <- _; discriminate].
  destruct (position "Date" (columns c)) as [jd|];
    [|intros H; injection H as <- _; discriminate].
  destruct (Collect.merge_employees jd c df2) as [m|e];
    intros H; injection H as <- _; discriminate.
Qed.

Lemma panels_keep_data fuel titles : forall c w r w',
  Collect.panels driver fuel titles (Some c) w = (r, w') -> r <> Ok (Some None).
Proof.
  induction titles as [|title rest IH]; intros c w r w'; simpl.
  - unfold ret. intros H; injection H as <- _; discriminate.
  - destruct (String.eqb (Collect.lower title) "other metrics").
    + unfold bind.
      destruct (Collect.employee_panel driver title (Some c) w) as [[o|e] w1] eqn:Hp;
        [|intros H; injection H as <- _; discriminate].
      destruct o as [c1|]; [apply IH|].
      exfalso. eapply employee_panel_keeps_data; [exact Hp|reflexivity].
    + unfold bind.
      destruct (Collect.ordinary_panel driver fuel title (Some c) w) as [[o|e] w1] eqn:Hp;
        [|intros H; injection H as <- _; discriminate].
      destruct o as [[c1|]|].
      * apply IH.
      * exfalso. eapply ordinary_panel_keeps_data; [exact Hp|reflexivity].
      * unfold ret. intros H; injection H as <- _; discriminate.
Qed.

Lemma ordinary_panel_fuelled fuel title combined w r w' :
  Collect.max_scroll_attempts < fuel ->
  Collect.ordinary_panel driver fuel title combined w = (r, w') -> r <> Ok None.
Proof.
  intros Hfuel. unfold Collect.ordinary_panel, bind.
  destruct (Tools.click driver title false w) as [[[]|e] w1];
    [|intros H; injection H as <- _; discriminate].
  destruct (Tools.quartely driver w1) as [[[]|e] w2];
    [|intros H; injection H as <- _; discriminate].
  destruct (Collect.get_chart driver fuel w2) as [[[df|]|e] w3] eqn:Hchart;
    [| |intros H; injection H as <- _; discriminate].
  - unfold Collect.lift.
    destruct (Collect.transpose_panel _ _) as [df_t|e]; unfold ret, raise;
      [|intros H; injection H as <- _; discriminate].
    destruct combined as [c|]; [|intros H; injection H as <- _; discriminate].
    destruct (merge_outer "Date" c df_t) as [m|e];
      intros H; injection H as <- _; discriminate.
  - exfalso. eapply get_chart_fuelled; [exact Hfuel|exact Hchart|reflexivity].
Qed.

Lemma panels_fuelled fuel titles :
  Collect.max_scroll_attempts < fuel ->
  forall combined w r w',
    Collect.panels driver fuel titles combined w = (r, w') -> r <> Ok None.
Proof.
  intros Hfuel. induction titles as [|title rest IH]; intros combined w r w'; simpl.
  - unfold ret. intros H; injection H as <- _; discriminate.
  - destruct (String.eqb (Collect.lower title) "other metrics"); unfold bind.
    + destruct (Collect.employee_panel driver title combined w) as [[o|e] w1];
        [apply IH|intros H; injection H as <- _; discriminate].
    + destruct (Collect.ordinary_panel driver fuel title combined w) as [[o|e] w1] eqn:Hp;
        [|intros H; injection H as <- _; discriminate].
      destruct o as [c1|]; [apply IH|].
      exfalso. eapply ordinary_panel_fuelled; [exact Hfuel|exact Hp|reflexivity].
Qed.

End RunOutcomes.

(** X1. A run of [collect_stock_info] either raises or writes a table:
    the branch that reports that nothing was collected is never taken,
    because the first tab is an ordinary one and leaves a table or an
    exception behind. *)
Theorem collect_saves_or_raises {W} (driver : WebDriver W) fuel stock_name w :
  Collect.max_scroll_attempts < fuel ->
  exists w',
    (exists e, Collect.collect_stock_info driver fuel stock_name w = (Raise e, w'))
    \/ (exists df, Collect.collect_stock_info driver fuel stock_name w
                   = (Ok (Collect.Saved df), w')).
Proof.
  intros Hfuel. unfold Collect.collect_stock_info, bind.
  destruct (Tools.search driver stock_name w) as [[[]|e] w1]; [|eauto].
  destruct (Collect.panels driver fuel Collect.charts None w1) as [[o|e] w2] eqn:Hp; [|eauto].
  destruct o as [[c|]|].
  - unfold Collect.lift. destruct (Collect.finalize c) as [df|e]; unfold ret, raise; eauto.
  - exfalso.
    change (Collect.panels driver fuel Collect.charts None w1)
      with (bind (Collect.ordinary_panel driver fuel "Financials" None)
              (fun r => match r with
                        | None => ret None
                        | Some c => Collect.panels driver fuel (tl Collect.charts) c
                        end) w1) in Hp.
    unfold bind in Hp.
    destruct (Collect.ordinary_panel driver fuel "Financials" None w1) as [[o|e] w3] eqn:Ho;
      [|discriminate].
    destruct o as [[c|]|].
    + eapply panels_keep_data; [exact Hp|reflexivity].
    + eapply ordinary_panel_keeps_data; [exact Ho|reflexivity].
    + discriminate.
  - exfalso. eapply panels_fuelled; [exact Hfuel|exact Hp|reflexivity].
Qed.

(** The page with an employee table: the run writes a table. *)
Lemma collect_saves_or_raises_witness :
  Collect.max_scroll_attempts < 51
  /\ exists w',
       (exists e, Collect.collect_stock_info (Scripted.driver Scripted.staffed) 51 "Nvidia" 0
                  = (Raise e, w'))
       \/ (exists df, Collect.collect_stock_info (Scripted.driver Scripted.staffed) 51 "Nvidia" 0
                      = (Ok (Collect.Saved df), w')).
Proof.
  assert (Hfuel : Collect.max_scroll_attempts < 51) by (unfold Collect.max_scroll_attempts; lia).
  split; [exact Hfuel|].
  exact (collect_saves_or_raises (Scripted.driver Scripted.staffed) 51 "Nvidia" 0 Hfuel).
Defined.

(** ** A page that refuses scripts *)

Section ScriptFailure.

Context {W : Type} (driver : WebDriver W) (e : exn).

Hypothesis script_raises :
  forall code args w, exists w', execute_script driver code args w = (Raise e, w').

Lemma ensure_ads_removed_raises w :
  exists w1 w', Remove.close_ad_overlay driver w = (Ok tt, w1)
                /\ execute_script driver Remove.remove_script [] w1 = (Raise e, w')
                /\ Tools.ensure_ads_removed driver w = (Raise e, w').
Proof.
  destruct (close_ad_overlay_safe driver w) as ([] & w1 & E1).
  destruct (script_raises Remove.remove_script [] w1) as (w' & E2).
  exists w1, w'. split; [exact E1|]. split; [exact E2|].
  unfold Tools.ensure_ads_removed, bind, Remove.remove_ad_overlay. rewrite E1, E2. reflexivity.
Qed.

Lemma click_gives_up value nested w :
  exists w1 w', Remove.close_ad_overlay driver w = (Ok tt, w1)
                /\ execute_script driver Remove.remove_script [] w1 = (Raise e, w')
                /\ Tools.click driver value nested w = (Ok tt, w').
Proof.
  destruct (ensure_ads_removed_raises w) as (w1 & w' & E1 & E2 & E3).
  exists w1, w'. split; [exact E1|]. split; [exact E2|].
  unfold Tools.click, try_except, bind. rewrite E3. reflexivity.
Qed.

Lemma quartely_gives_up w :
  exists w1 w', Remove.close_ad_overlay driver w = (Ok tt, w1)
                /\ execute_script driver Remove.remove_script [] w1 = (Raise e, w')
                /\ Tools.quartely driver w = (Ok tt, w').
Proof.
  destruct (ensure_ads_removed_raises w) as (w1 & w' & E1 & E2 & E3).
  exists w1, w'. split; [exact E1|]. split; [exact E2|].
  unfold Tools.quartely, try_except, bind. rewrite E3. reflexivity.
Qed.

End ScriptFailure.

(** X2. On a page where [execute_script] raises, [click] and [quartely]
    return normally right after the failed overlay script, before any tab
    or dropdown is looked up or clicked; [get_chart] then raises at its
    own [scroll_down], and the exception ends [collect_stock_info]. *)
Theorem script_failure_skips_clicks_and_aborts {W} (driver : WebDriver W) (e : exn) :
  (forall code args w, exists w', execute_script driver code args w = (Raise e, w')) ->
  (forall value nested w, exists w1 w',
      Remove.close_ad_overlay driver w = (Ok tt, w1)
      /\ execute_script driver Remove.remove_script [] w1 = (Raise e, w')
      /\ Tools.click driver value nested w = (Ok tt, w'))
  /\ (forall w, exists w1 w',
        Remove.close_ad_overlay driver w = (Ok tt, w1)
        /\ execute_script driver Remove.remove_script [] w1 = (Raise e, w')
        /\ Tools.quartely driver w = (Ok tt, w'))
  /\ (forall fuel w, exists w', Collect.get_chart driver fuel w = (Raise e, w'))
  /\ (forall fuel stock_name w,
        exists w', Collect.collect_stock_info driver fuel stock_name w = (Raise e, w')).
Proof.
  intros Hscript.
  assert (Hchart : forall fuel w, exists w', Collect.get_chart driver fuel w = (Raise e, w')).
  { intros fuel w. unfold Collect.get_chart, bind, Tools.scroll_down.
    destruct (Hscript ("window.scrollBy(0, " ++ Tools.str_of_nat 150 ++ ");")%string [] w)
      as (w' & E).
    rewrite E. eauto. }
  split; [intros; apply click_gives_up, Hscript|].
  split; [intros; apply quartely_gives_up, Hscript|].
  split; [exact Hchart|].
  intros fuel stock_name w. unfold Collect.collect_stock_info, bind.
  destruct (search_safe driver stock_name w) as ([] & w1 & E1). rewrite E1.
  change (Collect.panels driver fuel Collect.charts None w1)
    with (bind (Collect.ordinary_panel driver fuel "Financials" None)
            (fun r => match r with
                      | None => ret None
                      | Some c => Collect.panels driver fuel (tl Collect.charts) c
                      end) w1).
  unfold bind, Collect.ordinary_panel, bind.
  destruct (click_safe driver "Financials" false w1) as ([] & w2 & E2). rewrite E2.
  destruct (quartely_safe driver w2) as ([] & w3 & E3). rewrite E3.
  destruct (Hchart fuel w3) as (w4 & E4). rewrite E4. eauto.
Qed.

(** The walk-through page with a script engine that reports an error. *)
Lemma script_failure_skips_clicks_and_aborts_witness :
  let driver := Scripted.driver Scripted.scriptless in
  let e := WebDriverException "javascript error" in
  (forall code args w, exists w', execute_script driver code args w = (Raise e, w'))
  /\ (exists w1 w', Remove.close_ad_overlay driver 0 = (Ok tt, w1)
                    /\ execute_script driver Remove.remove_script [] w1 = (Raise e, w')
                    /\ Tools.click driver "Financials" false 0 = (Ok tt, w'))
  /\ exists w', Collect.collect_stock_info driver 51 "Nvidia" 0 = (Raise e, w').
Proof.
  intros driver e.
  assert (Hscript : forall code args w, exists w',
             execute_script driver code args w = (Raise e, w'))
    by (intros code args w; exists w; reflexivity).
  split; [exact Hscript|]. split.
  - exact (proj1 (script_failure_skips_clicks_and_aborts driver e Hscript) "Financials" false 0).
  - exact (proj2 (proj2 (proj2 (script_failure_skips_clicks_and_aborts driver e Hscript)))
             51 "Nvidia" 0).
Defined.

(** ** Runs that end at the first pass *)

Section FirstPass.

Context {W : Type} (driver : WebDriver W).

(** A loop whose first pass stops returns the seed. *)
Lemma scroll_loop_stops_at_once fuel st w st' w' :
  Collect.attempts st < Collect.max_scroll_attempts ->
  Collect.loop_body driver st w = (Ok (Collect.Break st'), w') ->
  Collect.scroll_loop driver (S fuel) st 0 w = (Ok (Some st), 1, w').
Proof.
  intros Hlt Hbody. simpl.
  destruct (Nat.ltb_spec (Collect.attempts st) Collect.max_scroll_attempts); [|lia].
  rewrite Hbody. apply loop_body_break in Hbody. subst st'. reflexivity.
Qed.

(** The three ways the first pass can stop, in terms of what the tools
    answer: no thumb; a thumb that is gone or has not moved forward after
    the drag; a scan without a date-like header that is not known yet. *)
Lemma first_pass_stops st w w' :
  Tools.get_scrollbar_thumb_x driver w = (Ok None, w')
  \/ (exists xb wa b wb x_after,
         Tools.get_scrollbar_thumb_x driver w = (Ok (Some xb), wa)
         /\ Tools.drag_scrollbar driver 100 wa = (Ok b, wb)
         /\ Tools.get_scrollbar_thumb_x driver wb = (Ok x_after, w')
         /\ (x_after = None \/ exists xa, x_after = Some xa /\ (xa <= xb)%Z))
  \/ (exists xb wa b wb xa wc nh nd,
         Tools.get_scrollbar_thumb_x driver w = (Ok (Some xb), wa)
         /\ Tools.drag_scrollbar driver 100 wa = (Ok b, wb)
         /\ Tools.get_scrollbar_thumb_x driver wb = (Ok (Some xa), wc)
         /\ (xb < xa)%Z
         /\ Tools.extract_grid_data driver wc = (Ok (nh, nd), w')
         /\ forall h, In h nh -> Tools.looks_like_date h = true -> In h (Collect.all_headers st)) ->
  Collect.loop_body driver st w = (Ok (Collect.Break st), w').
Proof.
  unfold Collect.loop_body, bind, ret.
  intros [H|[H|H]].
  - rewrite H. reflexivity.
  - destruct H as (xb & wa & b & wb & x_after & H1 & H2 & H3 & Hx).
    rewrite H1, H2, H3. destruct Hx as [->|(xa & -> & Hle)]; [reflexivity|].
    destruct (Z.leb_spec xa xb); [reflexivity|lia].
  - destruct H as (xb & wa & b & wb & xa & wc & nh & nd & H1 & H2 & H3 & Hlt & H4 & Hknown).
    rewrite H1, H2, H3. destruct (Z.leb_spec xa xb); [lia|]. rewrite H4.
    destruct (Collect.new_date_cols (Collect.all_headers st) nh) as [|h cols] eqn:Hcols;
      [reflexivity|].
    exfalso. assert (Hin : In h (Collect.new_date_cols (Collect.all_headers st) nh))
      by (rewrite Hcols; left; reflexivity).
    apply new_date_cols_spec in Hin. destruct Hin as (Hnh & Hdate & Hnot).
    apply Hnot, Hknown; assumption.
Qed.

End FirstPass.

(** X3. When the first pass of the scroll loop stops (there is no thumb,
    the thumb is gone or has not moved forward after the drag, or the
    thumb has moved but the new scan shows no date-like header that is
    not known yet), [get_chart]
    returns the first scan as it was read: its headers, and its rows
    padded or cut to the number of headers. *)
Theorem get_chart_returns_first_scan {W} (driver : WebDriver W)
        fuel w wa g w0 headers0 data0 w1 w2 :
  0 < fuel ->
  Tools.scroll_down driver 150 w = (Ok tt, wa) ->
  wait_presence driver 20 ID "jqxgrid" wa = (Ok g, w0) ->
  Tools.extract_grid_data driver w0 = (Ok (headers0, data0), w1) ->
  Tools.get_scrollbar_thumb_x driver w1 = (Ok None, w2)
  \/ (exists xb wb b wc x_after,
         Tools.get_scrollbar_thumb_x driver w1 = (Ok (Some xb), wb)
         /\ Tools.drag_scrollbar driver 100 wb = (Ok b, wc)
         /\ Tools.get_scrollbar_thumb_x driver wc = (Ok x_after, w2)
         /\ (x_after = None \/ exists xa, x_after = Some xa /\ (xa <= xb)%Z))
  \/ (exists xb wb b wc xa wd nh nd,
         Tools.get_scrollbar_thumb_x driver w1 = (Ok (Some xb), wb)
         /\ Tools.drag_scrollbar driver 100 wb = (Ok b, wc)
         /\ Tools.get_scrollbar_thumb_x driver wc = (Ok (Some xa), wd)
         /\ (xb < xa)%Z
         /\ Tools.extract_grid_data driver wd = (Ok (nh, nd), w2)
         /\ forall h, In h nh -> Tools.looks_like_date h = true -> In h headers0) ->
  Collect.get_chart driver fuel w = (Ok (Some (table_of_scan headers0 data0)), w2).
Proof.
  intros Hfuel Hscroll Hwait Hscan Hstop.
  set (seed := {| Collect.all_headers := headers0; Collect.all_data := data0;
                  Collect.attempts := 0 |}).
  pose proof (first_pass_stops driver seed w1 w2 Hstop) as Hbody.
  destruct fuel as [|fuel]; [lia|].
  unfold Collect.get_chart, bind. rewrite Hscroll, Hwait, Hscan.
  unfold Collect.run_scroll_loop. fold seed.
  rewrite (scroll_loop_stops_at_once driver fuel seed w1 seed w2);
    [|unfold Collect.max_scroll_attempts; simpl; lia|exact Hbody].
  rewrite DataFrame_of_finish. reflexivity.
Qed.

(** A grid without a scrollbar whose second row is one cell short. *)
Lemma get_chart_returns_first_scan_witness :
  Collect.get_chart (Scripted.driver unscrollable) 51 0
  = (Ok (Some {| columns := ["Metric"; "2023-01-01"];
                 rows := [[CStr "Revenue"; CStr "100"]; [CStr "Costs"; CStr ""]] |}), 0).
Proof.
  assert (Hfuel : 0 < 51) by lia.
  exact (get_chart_returns_first_scan (Scripted.driver unscrollable) 51 0 0 0 0
           ["Metric"; "2023-01-01"] [["Revenue"; "100"]; ["Costs"]] 0 0
           Hfuel eq_refl eq_refl eq_refl (or_introl eq_refl)).
Defined.

(** ** What a pass adds *)

Lemma absorb_rows_length n idx : forall new i data,
  i <= List.length data ->
  List.length (Collect.absorb_rows n idx i new data)
  = Nat.max (List.length data) (i + List.length new).
Proof.
  induction new as [|row new IH]; intros i data Hi; simpl.
  - lia.
  - destruct (Nat.ltb_spec i (List.length data)) as [Hlt|Hge].
    + rewrite IH by (rewrite extend_at_length; lia). rewrite extend_at_length. lia.
    + rewrite IH by (rewrite length_app; simpl; lia). rewrite length_app. simpl. lia.
Qed.

Lemma extend_at_nth : forall data i rd p,
  nth p (Collect.extend_at i rd data) []
  = if (p =? i) && (p <? List.length data) then nth p data [] ++ rd else nth p data [].
Proof.
  induction data as [|r data IH]; intros i rd p; simpl.
  - rewrite andb_false_r. destruct p, i; reflexivity.
  - destruct i as [|i], p as [|p]; simpl; try reflexivity.
    rewrite IH. reflexivity.
Qed.

(** Row by row: rows before [i] are untouched; a gathered row from [i] on
    gets the picked cells of its scan row, if the scan reaches it; scan
    rows beyond the gathered ones start a row of blanks. *)
Lemma absorb_rows_nth n idx : forall new i data p,
  i <= List.length data ->
  nth p (Collect.absorb_rows n idx i new data) []
  = if p <? i then nth p data []
    else if p <? List.length data
         then nth p data [] ++ (if p - i <? List.length new
                                then picked idx (nth (p - i) new []) else [])
         else if p - i <? List.length new
              then repeat "" n ++ picked idx (nth (p - i) new [])
              else [].
Proof.
  induction new as [|row new IH]; intros i data p Hi.
  - simpl. destruct (Nat.ltb_spec p i); [reflexivity|].
    destruct (Nat.ltb_spec p (List.length data)).
    + destruct (p - i); simpl; apply eq_sym, app_nil_r.
    + destruct (p - i); apply nth_overflow; lia.
  - cbn [Collect.absorb_rows]. fold (picked idx row).
    destruct (Nat.ltb_spec i (List.length data)) as [Hlt|Hge].
    + rewrite IH by (rewrite extend_at_length; lia).
      rewrite extend_at_length, extend_at_nth.
      destruct (Nat.ltb_spec p (S i)) as [Hp|Hp].
      * destruct (Nat.eqb_spec p i) as [->|Hne]; simpl.
        -- destruct (Nat.ltb_spec i (List.length data)); [|lia].
           destruct (Nat.ltb_spec i i); [lia|].
           rewrite Nat.sub_diag. reflexivity.
        -- destruct (Nat.ltb_spec p i); [reflexivity|lia].
      * destruct (Nat.eqb_spec p i) as [->|Hne]; [lia|]. simpl.
        destruct (Nat.ltb_spec p i); [lia|].
        replace (p - i) with (S (p - S i)) by lia. simpl.
        destruct (Nat.ltb_spec p (List.length data)); reflexivity.
    + assert (i = List.length data) by lia. subst i.
      rewrite IH by (rewrite length_app; simpl; lia).
      rewrite length_app. simpl.
      destruct (Nat.ltb_spec p (S (List.length data))) as [Hp|Hp].
      * destruct (Nat.ltb_spec p (List.length data)) as [Hp'|Hp'].
        -- apply app_nth1, Hp'.
        -- assert (p = List.length data) by lia. subst p.
           rewrite app_nth2, !Nat.sub_diag by lia. reflexivity.
      * destruct (Nat.ltb_spec p (List.length data)); [lia|].
        destruct (Nat.ltb_spec p (List.length data + 1)); [lia|].
        replace (p - List.length data) with (S (p - S (List.length data))) by lia. simpl.
        reflexivity.
Qed.

(** X4. What the row loop of a pass does, row by row: a gathered row
    keeps its cells and gets, at its end, the cells of the scan row with
    the same number under the new columns (an empty string where the scan
    row is too short), or nothing when the scan has no such row; a scan
    row beyond the gathered ones becomes a new row that starts with one
    empty string per known header.  The number of rows becomes the larger
    of the two row counts. *)
Theorem absorb_rows_row_by_row n idx new data p :
  List.length (Collect.absorb_rows n idx 0 new data)
  = Nat.max (List.length data) (List.length new)
  /\ nth p (Collect.absorb_rows n idx 0 new data) []
     = if p <? List.length data
       then nth p data [] ++ (if p <? List.length new then picked idx (nth p new []) else [])
       else if p <? List.length new
            then repeat "" n ++ picked idx (nth p new [])
            else [].
Proof.
  split.
  - rewrite absorb_rows_length by lia. reflexivity.
  - rewrite absorb_rows_nth by lia. rewrite Nat.sub_0_r. reflexivity.
Qed.

(** A run of [get_chart] that returns a table has taken its first scan
    in [seed_state] and has run the loop from it. *)
Lemma get_chart_seed {W} (driver : WebDriver W) fuel w df w' :
  Collect.get_chart driver fuel w = (Ok (Some df), w') ->
  exists h0 d0 w1 st n,
    Tools.extract_grid_data driver (seed_state driver w) = (Ok (h0, d0), w1)
    /\ Collect.scroll_loop driver fuel
         {| Collect.all_headers := h0; Collect.all_data := d0; Collect.attempts := 0 |} 0 w1
       = (Ok (Some st), n, w')
    /\ df = {| columns := Collect.all_headers st;
               rows := map (map CStr) (Collect.finish st) |}.
Proof.
  unfold Collect.get_chart, seed_state, bind.
  destruct (Tools.scroll_down driver 150 w) as [[[]|e] wa]; try discriminate. cbn [snd].
  destruct (wait_presence driver 20 ID "jqxgrid" wa) as [[g|e] w0]; try discriminate.
  cbn [snd].
  destruct (Tools.extract_grid_data driver w0) as [[[h0 d0]|e] w1] eqn:Hscan; try discriminate.
  unfold Collect.run_scroll_loop.
  destruct (Collect.scroll_loop driver fuel _ 0 w1) as [[r n] w2] eqn:Hloop.
  destruct r as [[st|]|e]; try discriminate.
  rewrite DataFrame_of_finish. unfold ret. intros H. injection H as <- <-.
  exists h0, d0, w1, st, n. split; [reflexivity|]. split; [exact Hloop|].
  reflexivity.
Qed.

(** X5. A run of [get_chart] that returns a table has read its first
    scan right after the scroll-down script and the wait for the grid (in
    [seed_state]), and in the table the headers of that scan come first,
    in their order; every header after them is date-like and none of them
    is a header of that scan; and the table has at least as many rows as
    that scan. *)
Theorem returned_table_extends_first_scan {W} (driver : WebDriver W) fuel w df w' :
  Collect.get_chart driver fuel w = (Ok (Some df), w') ->
  exists headers0 data0 w1 dates,
    Tools.extract_grid_data driver (seed_state driver w) = (Ok (headers0, data0), w1)
    /\ columns df = headers0 ++ dates
    /\ Forall (fun h => Tools.looks_like_date h = true /\ ~ In h headers0) dates
    /\ List.length data0 <= List.length (rows df).
Proof.
  intros Hrun. apply get_chart_seed in Hrun.
  destruct Hrun as (h0 & d0 & w1 & st & n & Hscan & Hloop & ->).
  exists h0, d0, w1.
  assert (HP : exists dates,
             Collect.all_headers st = h0 ++ dates
             /\ Forall (fun h => Tools.looks_like_date h = true /\ ~ In h h0) dates
             /\ List.length d0 <= List.length (Collect.all_data st)).
  { eapply (scroll_loop_invariant driver
              (fun st => exists dates,
                   Collect.all_headers st = h0 ++ dates
                   /\ Forall (fun h => Tools.looks_like_date h = true /\ ~ In h h0) dates
                   /\ List.length d0 <= List.length (Collect.all_data st)));
      [| |exact Hloop].
    - intros st1 wa st2 wb (dates & Hh & Hd & Hlen) Hbody.
      apply loop_body_next_inv in Hbody.
      destruct Hbody as (nh & nd & w3 & _ & _ & ->). cbn [Collect.all_headers Collect.all_data].
      exists (dates ++ Collect.new_date_cols (Collect.all_headers st1) nh).
      split; [rewrite Hh at 1; apply eq_sym, app_assoc|]. split.
      + apply Forall_app. split; [exact Hd|]. apply Forall_forall. intros h Hin.
        apply new_date_cols_spec in Hin. destruct Hin as (_ & Hdate & Hnot).
        split; [exact Hdate|]. intros Hin0. apply Hnot. rewrite Hh. apply in_or_app. left.
        exact Hin0.
      + rewrite absorb_rows_length by lia. lia.
    - exists []. cbn [Collect.all_headers Collect.all_data].
      split; [apply eq_sym, app_nil_r|]. split; [constructor|lia]. }
  destruct HP as (dates & Hh & Hd & Hlen). exists dates.
  split; [exact Hscan|]. cbn [columns rows]. split; [exact Hh|]. split; [exact Hd|].
  unfold Collect.finish. rewrite !length_map. exact Hlen.
Qed.

(** The walk-through grid: one date column is added to the two headers of
    the first scan. *)
Lemma returned_table_extends_first_scan_witness :
  Tools.extract_grid_data (Scripted.driver Scripted.walkthrough)
    (seed_state (Scripted.driver Scripted.walkthrough) 0)
  = (Ok (["Metric"; "2023-01-01"], [["Revenue"; "100"]]), 0)
  /\ exists headers0 data0 w1 dates,
       Tools.extract_grid_data (Scripted.driver Scripted.walkthrough)
         (seed_state (Scripted.driver Scripted.walkthrough) 0) = (Ok (headers0, data0), w1)
       /\ ["Metric"; "2023-01-01"; "2023-04-01"] = headers0 ++ dates
       /\ Forall (fun h => Tools.looks_like_date h = true /\ ~ In h headers0) dates
       /\ List.length data0 <= 1.
Proof.
  split; [reflexivity|].
  exact (returned_table_extends_first_scan (Scripted.driver Scripted.walkthrough) 51 0
           {| columns := ["Metric"; "2023-01-01"; "2023-04-01"];
              rows := [[CStr "Revenue"; CStr "100"; CStr "110"]] |} 2 eq_refl).
Defined.

(** ** Column names *)

Lemma prefix_of_charts :
  map Collect.prefix_of ordinary_charts
  = ["financials"; "balance_sheet"; "cash_flow_statement"; "key_financial_ratios"].
Proof. reflexivity. Qed.

Lemma column_name_labelled prefix s :
  s <> "Date" -> s <> "index" ->
  Collect.column_name prefix (CStr s) = (prefix ++ "_" ++ s)%string.
Proof.
  intros HD HI. unfold Collect.column_name. cbn [py_str].
  rewrite (eqb_neq_false s "index" HI), (eqb_neq_false s "Date" HD). reflexivity.
Qed.

Lemma documented_prefix_of title :
  In title ordinary_charts -> In (title, Collect.prefix_of title) documented_prefixes.
Proof.
  change ordinary_charts
    with ["Financials"; "Balance Sheet"; "Cash Flow Statement"; "Key Financial Ratios"].
  intros [<-|[<-|[<-|[<-|[]]]]]; simpl; tauto.
Qed.

(** The name the transposition gives the column of metric row [k]. *)
Lemma transpose_panel_name prefix df k :
  columns df <> [] -> k < List.length (rows df) ->
  exists t,
    Collect.transpose_panel prefix df = Ok t
    /\ nth 0 (columns t) "" = "Date"
    /\ nth (S k) (columns t) "" = Collect.column_name prefix (cell_of df k 0).
Proof.
  intros Hne Hk. unfold Collect.transpose_panel.
  destruct (columns df) as [|c0 dates]; [contradiction|].
  eexists. split; [reflexivity|]. cbn [columns]. split; [reflexivity|].
  cbn [nth].
  rewrite (nth_indep _ "" (Collect.column_name prefix (cell_at 0 [])))
    by (rewrite length_map; exact Hk).
  rewrite (map_nth (fun r => Collect.column_name prefix (cell_at 0 r))). reflexivity.
Qed.

Lemma get_chart_well_formed {W} (driver : WebDriver W) fuel w df w' :
  Collect.get_chart driver fuel w = (Ok (Some df), w') -> well_formed df.
Proof.
  intros Hrun. apply get_chart_inv in Hrun.
  destruct Hrun as (h0 & d0 & w0 & w1 & st & n & _ & _ & ->).
  unfold well_formed. cbn [columns rows]. apply Forall_forall. intros row Hin.
  apply in_map_iff in Hin. destruct Hin as (r & <- & Hr).
  rewrite length_map. revert r Hr. apply Forall_forall, finish_widths.
Qed.

(** X6. How the ordinary branch names the column of a metric.  When the
    tab is clicked, the view switched and the grid read, with distinct
    headers and no label that is cleaned to [index], the branch of the
    first tab hands back the transposed table, in which the first column
    is [Date] and the metric of row [k], whose label [s] holds a character
    that no number holds, is filed under the tab's documented prefix
    ([financials], [balance_sheet], [cash_flow_statement] or
    [key_financial_ratios]), an underscore, and [s] without its [$], [,]
    and [%]: the label column goes through the cleaning like every other
    column. *)
Theorem metric_columns_named_by_tab {W} (driver : WebDriver W)
        fuel chart_title w w1 w2 df w3 k s :
  In chart_title ordinary_charts ->
  Tools.click driver chart_title false w = (Ok tt, w1) ->
  Tools.quartely driver w1 = (Ok tt, w2) ->
  Collect.get_chart driver fuel w2 = (Ok (Some df), w3) ->
  NoDup (columns df) ->
  (forall r, In r (rows (Collect.clean_panel df)) -> py_str (cell_at 0 r) <> "index") ->
  k < List.length (rows df) -> cell_of df k 0 = CStr s ->
  surely_text (strip_symbols s) = true ->
  strip_symbols s <> "Date" ->
  exists df_t prefix,
    Collect.ordinary_panel driver fuel chart_title None w = (Ok (Some (Some df_t)), w3)
    /\ In (chart_title, prefix) documented_prefixes
    /\ nth 0 (columns df_t) "" = "Date"
    /\ nth (S k) (columns df_t) "" = (prefix ++ "_" ++ strip_symbols s)%string.
Proof.
  intros Htab Hclick Hq Hrun _ Hindex Hk Hcell Hsure HD.
  pose proof (get_chart_well_formed driver fuel w2 df w3 Hrun) as Hwf.
  assert (Hne : columns df <> []).
  { intros E. unfold well_formed in Hwf. rewrite Forall_forall in Hwf.
    pose proof (Hwf (nth k (rows df) []) (nth_In _ _ Hk)) as Hlen.
    rewrite E in Hlen. unfold cell_of in Hcell.
    destruct (nth k (rows df) []); [discriminate Hcell|discriminate Hlen]. }
  assert (Hj : 0 < List.length (columns df)) by (destruct (columns df); [contradiction|simpl; lia]).
  assert (Hdash : s <> "-") by (intros ->; discriminate Hsure).
  assert (Hstripped : stripped_cell df k 0 = CStr (strip_symbols s)).
  { unfold stripped_cell. rewrite Hcell. cbn [replace_dash].
    rewrite (proj2 (String.eqb_neq s "-") Hdash). reflexivity. }
  assert (Hlabel : cell_of (Collect.clean_panel df) k 0 = CStr (strip_symbols s)).
  { rewrite (clean_panel_text_column df 0 k k Hj Hk Hk); [exact Hstripped|].
    rewrite Hstripped. unfold to_numeric_cell.
    destruct (strip_symbols s) as [|a t]; [discriminate Hsure|].
    rewrite (surely_text_unreadable _ Hsure). reflexivity. }
  destruct (transpose_panel_name (Collect.prefix_of chart_title) (Collect.clean_panel df) k)
    as (t & Ht & Hdate & Hname).
  { exact Hne. }
  { assert (E : List.length (rows (Collect.clean_panel df)) = List.length (rows df))
      by (unfold Collect.clean_panel, apply_columns, rows_of_columns; simpl;
          rewrite !length_map, length_seq; reflexivity).
    rewrite E. exact Hk. }
  exists t, (Collect.prefix_of chart_title).
  split.
  { unfold Collect.ordinary_panel, bind. rewrite Hclick, Hq, Hrun.
    cbn [Collect.lift]. rewrite Ht. reflexivity. }
  split; [apply documented_prefix_of, Htab|]. split; [exact Hdate|].
  rewrite Hname, Hlabel. apply column_name_labelled; [exact HD|].
  intros E. apply (Hindex (nth k (rows (Collect.clean_panel df)) [])).
  - apply nth_In.
    assert (El : List.length (rows (Collect.clean_panel df)) = List.length (rows df))
      by (unfold Collect.clean_panel, apply_columns, rows_of_columns; simpl;
          rewrite !length_map, length_seq; reflexivity).
    rewrite El. exact Hk.
  - unfold cell_of in Hlabel. rewrite Hlabel. exact E.
Qed.

(** A grid whose labels hold a comma and a percent sign. *)
Lemma metric_columns_named_by_tab_witness :
  exists df_t,
    Collect.ordinary_panel (Scripted.driver symbol_labels) 51 "Balance Sheet" None 0
    = (Ok (Some (Some df_t)), 0)
    /\ nth 0 (columns df_t) "" = "Date"
    /\ nth 1 (columns df_t) "" = "balance_sheet_R&D net"
    /\ nth 2 (columns df_t) "" = "balance_sheet_Margin ".
Proof.
  assert (Htab : In "Balance Sheet" ordinary_charts) by (right; left; reflexivity).
  pose (df := {| columns := ["Metric"; "2023-01-01"];
                 rows := [[CStr "R&D, net"; CStr "100"]; [CStr "Margin %"; CStr "12%"]] |}).
  assert (Hclick : Tools.click (Scripted.driver symbol_labels) "Balance Sheet" false 0
                   = (Ok tt, 0)) by reflexivity.
  assert (Hq : Tools.quartely (Scripted.driver symbol_labels) 0 = (Ok tt, 0)) by reflexivity.
  assert (Hrun : Collect.get_chart (Scripted.driver symbol_labels) 51 0 = (Ok (Some df), 0))
    by reflexivity.
  assert (Hnd : NoDup (columns df)).
  { simpl. repeat constructor; simpl; intuition discriminate. }
  assert (Hindex : forall r, In r (rows (Collect.clean_panel df)) ->
                             py_str (cell_at 0 r) <> "index").
  { intros r [<-|[<-|[]]]; discriminate. }
  destruct (metric_columns_named_by_tab (Scripted.driver symbol_labels) 51 "Balance Sheet"
              0 0 0 df 0 0 "R&D, net" Htab Hclick Hq Hrun Hnd Hindex)
    as (t0 & p0 & Hp0 & Hin0 & Hd0 & Hn0);
    [simpl; lia|reflexivity|reflexivity|discriminate|].
  destruct (metric_columns_named_by_tab (Scripted.driver symbol_labels) 51 "Balance Sheet"
              0 0 0 df 0 1 "Margin %" Htab Hclick Hq Hrun Hnd Hindex)
    as (t1 & p1 & Hp1 & Hin1 & Hd1 & Hn1);
    [simpl; lia|reflexivity|reflexivity|discriminate|].
  exists t0. split; [exact Hp0|]. split; [exact Hd0|].
  assert (E : t1 = t0) by congruence. subst t1.
  assert (Hp : forall p, In ("Balance Sheet", p) documented_prefixes -> p = "balance_sheet").
  { intros p [H|[H|[H|[H|[]]]]]; try discriminate H. injection H as <-. reflexivity. }
  rewrite (Hp p0 Hin0) in Hn0. rewrite (Hp p1 Hin1) in Hn1.
  split; [exact Hn0|exact Hn1].
Defined.

(** X7. Two different ordinary tabs never produce the same column name,
    whatever the metric labels are, except for the name [Date] itself
    (which a metric labelled [Date] or [index] keeps). *)
Theorem panels_do_not_share_columns (t1 t2 : string) (l1 l2 : cell) :
  In t1 ordinary_charts -> In t2 ordinary_charts -> t1 <> t2 ->
  Collect.column_name (Collect.prefix_of t1) l1 = Collect.column_name (Collect.prefix_of t2) l2 ->
  Collect.column_name (Collect.prefix_of t1) l1 = "Date".
Proof.
  intros H1 H2 Hne Heq.
  change ordinary_charts
    with ["Financials"; "Balance Sheet"; "Cash Flow Statement"; "Key Financial Ratios"] in *.
  revert Heq. unfold Collect.column_name.
  set (n1 := if String.eqb (py_str l1) "index" then "Date" else py_str l1).
  set (n2 := if String.eqb (py_str l2) "index" then "Date" else py_str l2).
  clearbody n1 n2.
  destruct (String.eqb n1 "Date") eqn:E1; [intros _; apply String.eqb_eq, E1|].
  destruct (String.eqb n2 "Date") eqn:E2.
  - apply String.eqb_eq in E2. subst n2. simpl in H1.
    destruct H1 as [<-|[<-|[<-|[<-|[]]]]]; intros H; cbv in H; discriminate H.
  - simpl in H1, H2.
    destruct H1 as [<-|[<-|[<-|[<-|[]]]]]; destruct H2 as [<-|[<-|[<-|[<-|[]]]]];
      try (exfalso; apply Hne; reflexivity); intros H; cbv in H; discriminate H.
Qed.

Lemma panels_do_not_share_columns_witness :
  In "Financials" ordinary_charts /\ In "Balance Sheet" ordinary_charts
  /\ (Collect.column_name (Collect.prefix_of "Financials") (CStr "index")
      = Collect.column_name (Collect.prefix_of "Balance Sheet") (CStr "Date"))
  /\ Collect.column_name (Collect.prefix_of "Financials") (CStr "index") = "Date".
Proof.
  assert (H1 : In "Financials" ordinary_charts) by (left; reflexivity).
  assert (H2 : In "Balance Sheet" ordinary_charts) by (right; left; reflexivity).
  assert (Hne : "Financials" <> "Balance Sheet") by discriminate.
  split; [exact H1|]. split; [exact H2|]. split; [reflexivity|].
  exact (panels_do_not_share_columns "Financials" "Balance Sheet" (CStr "index") (CStr "Date")
           H1 H2 Hne eq_refl).
Defined.

(** ** The transposition of a panel *)

Lemma nth_map_seq_from {A} (f : nat -> A) a n i d :
  i < n -> nth i (map f (seq a n)) d = f (a + i).
Proof.
  intros Hi. rewrite (nth_indep _ d (f 0)) by (rewrite length_map, length_seq; exact Hi).
  rewrite map_nth, seq_nth by exact Hi. reflexivity.
Qed.

(** X8. Transposing a panel needs a first column and raises [IndexError]
    without one.  Otherwise, for a panel with distinct headers and no
    metric labelled [index] (the name [reset_index] wants for its own
    column), it swaps the axes: one row per column after the first, led by
    that column's header, one column per row, named after the row's first
    cell, and the cell at row [i], column [k + 1] is the cell the panel
    had at row [k], column [i + 1]. *)
Theorem transpose_panel_swaps_axes (prefix : string) (df : DataFrame) :
  (columns df = [] -> Collect.transpose_panel prefix df = Raise IndexError)
  /\ (columns df <> [] -> NoDup (columns df) ->
      (forall r, In r (rows df) -> py_str (cell_at 0 r) <> "index") ->
      exists t,
        Collect.transpose_panel prefix df = Ok t
        /\ List.length (columns t) = S (List.length (rows df))
        /\ List.length (rows t) = List.length (columns df) - 1
        /\ well_formed t
        /\ nth 0 (columns t) "" = "Date"
        /\ (forall k, k < List.length (rows df) ->
              nth (S k) (columns t) "" = Collect.column_name prefix (cell_of df k 0))
        /\ (forall i, i < List.length (columns df) - 1 ->
              cell_of t i 0 = CStr (nth (S i) (columns df) "")
              /\ forall k, cell_of t i (S k) = cell_of df k (S i))).
Proof.
  split.
  - intros E. unfold Collect.transpose_panel. rewrite E. reflexivity.
  - intros Hne _ _. unfold Collect.transpose_panel.
    destruct (columns df) as [|c0 dates] eqn:Hcols; [contradiction|].
    eexists. split; [reflexivity|]. cbn [columns rows].
    split; [simpl; rewrite length_map; reflexivity|].
    split; [rewrite length_map, length_seq; simpl; lia|].
    split.
    { unfold well_formed. cbn [columns rows]. apply Forall_forall.
      intros r Hr. apply in_map_iff in Hr. destruct Hr as (j & <- & _).
      simpl. unfold column. rewrite !length_map. reflexivity. }
    split; [reflexivity|].
    split.
    { intros k Hk. cbn [nth].
      rewrite (nth_indep _ "" (Collect.column_name prefix (cell_at 0 [])))
        by (rewrite length_map; exact Hk).
      rewrite (map_nth (fun r => Collect.column_name prefix (cell_at 0 r))). reflexivity. }
    intros i Hi. simpl in Hi. rewrite Nat.sub_0_r in Hi.
    unfold cell_of at 1 2. cbn [rows].
    rewrite nth_map_seq_from by exact Hi.
    split; [reflexivity|].
    intros k. unfold cell_at at 1. cbn [nth]. apply column_cell.
Qed.

Lemma transpose_panel_swaps_axes_witness :
  columns mixed_panel <> [] /\ NoDup (columns mixed_panel)
  /\ (forall r, In r (rows mixed_panel) -> py_str (cell_at 0 r) <> "index")
  /\ exists t,
       Collect.transpose_panel "financials" mixed_panel = Ok t
       /\ columns t = ["Date"; "financials_Revenue"; "financials_Outlook"]
       /\ cell_of t 1 0 = CStr "2023-04-01"
       /\ cell_of t 1 1 = cell_of mixed_panel 0 2.
Proof.
  assert (Hne : columns mixed_panel <> []) by discriminate.
  assert (Hnd : NoDup (columns mixed_panel)).
  { simpl. repeat constructor; simpl; intuition discriminate. }
  assert (Hidx : forall r, In r (rows mixed_panel) -> py_str (cell_at 0 r) <> "index").
  { intros r [<-|[<-|[]]]; discriminate. }
  split; [exact Hne|]. split; [exact Hnd|]. split; [exact Hidx|].
  destruct (proj2 (transpose_panel_swaps_axes "financials" mixed_panel) Hne Hnd Hidx)
    as (t & Ht & _ & _ & _ & _ & _ & Hcells).
  exists t. split; [exact Ht|].
  split; [vm_compute in Ht; injection Ht as <-; reflexivity|].
  destruct (Hcells 1) as [H0 Hk]; [simpl; lia|].
  split; [exact H0|apply Hk].
Defined.

(** ** The cleaning of a panel, column by column *)

(** X9. Cleaning a panel keeps its header and its number of rows and
    makes every row as wide as the header.  Each column is coerced as a
    whole or not at all: one cell that cannot be read as a number leaves
    every cell of its column as stripped text, and a column in which
    every cell can be read holds numbers only. *)
Theorem clean_panel_all_or_nothing (df : DataFrame) (j : nat) :
  j < List.length (columns df) ->
  columns (Collect.clean_panel df) = columns df
  /\ List.length (rows (Collect.clean_panel df)) = List.length (rows df)
  /\ well_formed (Collect.clean_panel df)
  /\ (forall i0, i0 < List.length (rows df) ->
        to_numeric_cell (stripped_cell df i0 j) = None ->
        forall i, i < List.length (rows df) ->
          cell_of (Collect.clean_panel df) i j = stripped_cell df i j)
  /\ ((forall i, i < List.length (rows df) -> to_numeric_cell (stripped_cell df i j) <> None) ->
      forall i, i < List.length (rows df) ->
        to_numeric_cell (stripped_cell df i j) = Some (cell_of (Collect.clean_panel df) i j)
        /\ is_number (cell_of (Collect.clean_panel df) i j) = true).
Proof.
  intros Hj.
  split; [reflexivity|].
  split; [unfold Collect.clean_panel, apply_columns, rows_of_columns; simpl;
          rewrite !length_map, length_seq; reflexivity|].
  split.
  { unfold well_formed, Collect.clean_panel, apply_columns, rows_of_columns. cbn [columns rows].
    apply Forall_forall. intros r Hr. apply in_map_iff in Hr. destruct Hr as (i & <- & _).
    rewrite !length_map, length_seq. reflexivity. }
  set (col := map strip_symbols_cell (map replace_dash (column j df))).
  assert (Hlen : List.length col = List.length (rows df))
    by (unfold col, column; rewrite !length_map; reflexivity).
  split.
  - intros i0 Hi0 Hbad i Hi. rewrite clean_panel_cell by assumption. fold col.
    unfold to_numeric_ignore.
    rewrite (all_some_none to_numeric_cell col i0 CNaN).
    + apply stripped_column.
    + rewrite Hlen. exact Hi0.
    + fold (cell_at i0 col). unfold col. rewrite stripped_column. exact Hbad.
  - intros Hall i Hi. rewrite clean_panel_cell by assumption. fold col.
    destruct (all_some_total to_numeric_cell col) as (col' & Hcol').
    { intros c Hc. apply (In_nth _ _ CNaN) in Hc. destruct Hc as (i' & Hi' & <-).
      fold (cell_at i' col). unfold col. rewrite stripped_column.
      apply Hall. rewrite <- Hlen. exact Hi'. }
    unfold to_numeric_ignore. rewrite Hcol'.
    assert (E : to_numeric_cell (stripped_cell df i j) = Some (cell_at i col')).
    { rewrite <- stripped_column. fold col. unfold cell_at.
      eapply all_some_nth; [exact Hcol'|]. rewrite Hlen. exact Hi. }
    split; [exact E|]. eapply to_numeric_cell_number, E.
Qed.

Lemma clean_panel_all_or_nothing_witness :
  1 < List.length (columns mixed_panel)
  /\ to_numeric_cell (stripped_cell mixed_panel 1 1) = None
  /\ cell_of (Collect.clean_panel mixed_panel) 0 1 = CStr "1234.56".
Proof.
  assert (Hj : 1 < List.length (columns mixed_panel)) by (simpl; lia).
  assert (Hbad : to_numeric_cell (stripped_cell mixed_panel 1 1) = None) by reflexivity.
  split; [exact Hj|]. split; [exact Hbad|].
  destruct (clean_panel_all_or_nothing mixed_panel 1 Hj) as (_ & _ & _ & Htext & _).
  rewrite (Htext 1); [reflexivity|simpl; lia|exact Hbad|simpl; lia].
Defined.

(** ** The merge by year when every year is listed once *)

Lemma employees_in_unique y data :
  NoDup (map fst data) -> List.length (employees_in y data) <= 1.
Proof.
  induction data as [|[y' e] data IH]; intros Hnd; [simpl; lia|].
  inversion Hnd as [|? ? Hnotin Hnd']; subst.
  unfold employees_in in *. cbn [filter fst].
  destruct (y' =? y)%Z eqn:E; [|apply IH, Hnd'].
  apply Z.eqb_eq in E. subst y'. cbn [map List.length snd].
  destruct (map snd (filter (fun ye => (fst ye =? y)%Z) data)) as [|e' es] eqn:Hes;
    [simpl; lia|].
  exfalso. apply Hnotin.
  assert (Hin : In e' (employees_in y data)) by (unfold employees_in; rewrite Hes; left; reflexivity).
  apply employees_in_spec in Hin. apply in_map_iff. exists (y, e'). split; [reflexivity|exact Hin].
Qed.

Lemma employee_join_unique jd data r :
  NoDup (map fst data) ->
  employee_join jd data r
  = [with_employees jd r (count_for (year_number (cell_at jd r)) data)].
Proof.
  intros Hnd. unfold employee_join, count_for.
  pose proof (employees_in_unique (year_number (cell_at jd r)) data Hnd) as Hlen.
  destruct (employees_in (year_number (cell_at jd r)) data) as [|e [|e' es]];
    [reflexivity|reflexivity|simpl in Hlen; lia].
Qed.

Lemma flat_map_singleton {A B} (f : A -> B) (g : A -> list B) (l : list A) :
  (forall a, g a = [f a]) -> flat_map g l = map f l.
Proof.
  intros H. induction l as [|a l IH]; simpl; [reflexivity|]. rewrite H, IH. reflexivity.
Qed.

(** X10. When the employee table lists every year once, the merge by
    year gives one row for each row of the running table after the first,
    in the same order: the row with its date parsed, followed by the count
    of the date's year, or by a missing value when the year is not
    listed. *)
Theorem employees_one_row_per_date (combined : DataFrame) (jd : nat) (data : list (Z * Z)) :
  well_formed combined ->
  position "Date" (columns combined) = Some jd ->
  ~ In "Year" (columns combined) -> ~ In "Employees" (columns combined) ->
  data <> [] -> NoDup (map fst data) ->
  exists merged,
    Collect.merge_employees jd combined (Collect.employee_frame data) = Ok merged
    /\ columns merged = columns combined ++ ["Employees"]
    /\ rows merged
       = map (fun r => with_employees jd r (count_for (year_number (cell_at jd r)) data))
           (tl (rows combined))
    /\ List.length (rows merged) = List.length (rows combined) - 1.
Proof.
  intros Hwf Hdate HY HE Hdata Hnd.
  rewrite (merge_employees_rows combined jd data Hwf Hdate HY HE Hdata).
  eexists. split; [reflexivity|]. cbn [columns rows].
  split; [reflexivity|].
  assert (E : flat_map (employee_join jd data) (tl (rows combined))
              = map (fun r => with_employees jd r (count_for (year_number (cell_at jd r)) data))
                  (tl (rows combined))).
  { apply flat_map_singleton. intros r. apply employee_join_unique, Hnd. }
  rewrite E. split; [reflexivity|].
  rewrite length_map. destruct (rows combined); simpl; lia.
Qed.

Lemma employees_one_row_per_date_witness :
  exists merged,
    Collect.merge_employees 0 three_dates (Collect.employee_frame [(2021, 500); (2019, 450)]%Z)
    = Ok merged
    /\ rows merged = [[CTimestamp 2021 3 1; CNum 10; CNum 500];
                      [CTimestamp 2021 9 1; CNum 20; CNum 500]].
Proof.
  assert (Hwf : well_formed three_dates) by (repeat constructor).
  assert (HY : ~ In "Year" (columns three_dates))
    by (simpl; intros [H|[H|[]]]; discriminate H).
  assert (HE : ~ In "Employees" (columns three_dates))
    by (simpl; intros [H|[H|[]]]; discriminate H).
  assert (Hdata : [(2021, 500); (2019, 450)]%Z <> []) by discriminate.
  assert (Hnd : NoDup (map fst [(2021, 500); (2019, 450)]%Z)).
  { simpl. constructor; [simpl; intros [H|[]]; discriminate H|].
    constructor; [simpl; tauto|constructor]. }
  destruct (employees_one_row_per_date three_dates 0 [(2021, 500); (2019, 450)]%Z
              Hwf eq_refl HY HE Hdata Hnd) as (merged & Hm & _ & Hrows & _).
  exists merged. split; [exact Hm|]. rewrite Hrows. reflexivity.
Defined.

(** ** The last pass before the table is written *)

Lemma final_cell_number c : exists q, Collect.final_cell c = CNum q.
Proof.
  unfold Collect.final_cell, to_numeric_coerce_fill0, to_numeric_cell.
  destruct (strip_symbols (py_str c)) as [|a s]; [eauto|].
  destruct (number_of_str (String a s)); simpl; eauto.
Qed.

Lemma final_row_length cols row : List.length (Collect.final_row cols row) = List.length row.
Proof.
  revert row. induction cols as [|c cols IH]; intros [|x row]; simpl; try reflexivity.
  f_equal. apply IH.
Qed.

Lemma final_row_date cols jd row :
  position "Date" cols = Some jd ->
  cell_at jd (Collect.final_row cols row) = cell_at jd row.
Proof.
  revert jd row. induction cols as [|c cols IH]; intros jd row Hpos; [discriminate|].
  destruct row as [|x row]; [reflexivity|].
  cbn [position] in Hpos. cbn [Collect.final_row]. rewrite String.eqb_sym.
  destruct (String.eqb "Date" c).
  - injection Hpos as <-. reflexivity.
  - destruct (position "Date" cols) as [jd'|]; [|discriminate].
    injection Hpos as <-. apply (IH jd' row). reflexivity.
Qed.

Lemma final_row_other cols j row :
  j < List.length cols -> j < List.length row -> nth j cols "" <> "Date" ->
  cell_at j (Collect.final_row cols row) = Collect.final_cell (cell_at j row).
Proof.
  revert j row. induction cols as [|c cols IH]; intros j row Hc Hr Hname; [simpl in Hc; lia|].
  destruct row as [|x row]; [simpl in Hr; lia|].
  cbn [Collect.final_row]. destruct j as [|j].
  - simpl in Hname. rewrite (eqb_neq_false _ _ Hname). reflexivity.
  - simpl in Hc, Hr, Hname.
    change (cell_at j (Collect.final_row cols row) = Collect.final_cell (cell_at j row)).
    apply IH; [lia|lia|exact Hname].
Qed.

Lemma to_datetime_cell_day c : is_day (to_datetime_cell c) = true.
Proof.
  destruct c as [s| | | |]; try reflexivity. unfold to_datetime_cell.
  destruct (Tools.looks_like_date s && (String.length s =? 10)); [|reflexivity].
  destruct (digits (substring 0 4 s)); [|reflexivity].
  destruct (digits (substring 5 2 s)); [|reflexivity].
  destruct (digits (substring 8 2 s)); [|reflexivity].
  match goal with |- is_day (if ?b then _ else _) = true => destruct b end; reflexivity.
Qed.

Lemma replace_dash_day c : is_day c = true -> replace_dash c = c.
Proof. destruct c; simpl; try reflexivity; discriminate. Qed.

Lemma insert_row_perm j r l : Permutation (insert_row j r l) (r :: l).
Proof.
  induction l as [|x l IH]; simpl; [apply Permutation_refl|].
  destruct (date_cell_leb (cell_at j r) (cell_at j x)); [apply Permutation_refl|].
  eapply perm_trans; [apply perm_skip, IH|apply perm_swap].
Qed.

Lemma sort_rows_perm j l : Permutation (sort_rows j l) l.
Proof.
  induction l as [|r l IH]; simpl; [constructor|].
  eapply perm_trans; [apply insert_row_perm|apply perm_skip, IH].
Qed.

Lemma date_leb_total a b : date_leb a b = false -> date_leb b a = true.
Proof.
  destruct a as [[y m] d], b as [[y' m'] d']. unfold date_leb.
  rewrite !orb_false_iff, !andb_false_iff, !orb_false_iff, !andb_false_iff.
  rewrite !orb_true_iff, !andb_true_iff, !orb_true_iff, !andb_true_iff.
  rewrite !Z.ltb_lt, !Z.eqb_eq, !Z.leb_le, !Z.ltb_ge, !Z.eqb_neq, !Z.leb_gt. lia.
Qed.

Lemma date_leb_trans a b c : date_leb a b = true -> date_leb b c = true -> date_leb a c = true.
Proof.
  destruct a as [[y m] d], b as [[y' m'] d'], c as [[y2 m2] d2]. unfold date_leb.
  rewrite !orb_true_iff, !andb_true_iff, !orb_true_iff, !andb_true_iff.
  rewrite !Z.ltb_lt, !Z.eqb_eq, !Z.leb_le. lia.
Qed.

Lemma date_cell_leb_total a b : date_cell_leb a b = false -> date_cell_leb b a = true.
Proof.
  destruct a, b; simpl; try reflexivity; try discriminate.
  intros H. exact (date_leb_total (_, _, _) (_, _, _) H).
Qed.

Lemma date_cell_leb_trans a b c :
  date_cell_leb a b = true -> date_cell_leb b c = true -> date_cell_leb a c = true.
Proof.
  destruct a, b, c; simpl; try reflexivity; try discriminate.
  intros H1 H2. exact (date_leb_trans (_, _, _) (_, _, _) (_, _, _) H1 H2).
Qed.

Lemma insert_row_sorted j r l :
  StronglySorted (in_date_order j) l -> StronglySorted (in_date_order j) (insert_row j r l).
Proof.
  induction 1 as [|x l Hs IH Hall]; simpl; [repeat constructor|].
  destruct (date_cell_leb (cell_at j r) (cell_at j x)) eqn:E.
  - constructor; [constructor; assumption|].
    constructor; [exact E|].
    eapply Forall_impl; [|exact Hall]. intros y Hy.
    unfold in_date_order in *. eapply date_cell_leb_trans; eassumption.
  - constructor; [exact IH|].
    apply Forall_forall. intros y Hy.
    apply (Permutation_in _ (insert_row_perm j r l)) in Hy. destruct Hy as [<-|Hy].
    + apply date_cell_leb_total, E.
    + rewrite Forall_forall in Hall. apply Hall, Hy.
Qed.

Lemma sort_rows_sorted j l : StronglySorted (in_date_order j) (sort_rows j l).
Proof.
  induction l as [|r l IH]; simpl; [constructor|]. apply insert_row_sorted, IH.
Qed.

Lemma sorted_map j (g : list cell -> list cell) l :
  (forall r, In r l -> cell_at j (g r) = cell_at j r) ->
  StronglySorted (in_date_order j) l -> StronglySorted (in_date_order j) (map g l).
Proof.
  intros Hkey Hs. induction Hs as [|x l Hs IH Hall]; simpl; [constructor|].
  constructor.
  - apply IH. intros r Hr. apply Hkey. right. exact Hr.
  - apply Forall_forall. intros y Hy. apply in_map_iff in Hy. destruct Hy as (r & <- & Hr).
    unfold in_date_order. rewrite !Hkey by (simpl; tauto).
    rewrite Forall_forall in Hall. apply Hall, Hr.
Qed.

(** The rows of the written table, before the last pass and in the order
    of the running table. *)
Lemma finalize_rows combined jd :
  position "Date" (columns combined) = Some jd ->
  Collect.finalize combined
  = Ok {| columns := columns combined;
          rows := map (fun r => Collect.final_row (columns combined) (map replace_dash r))
                    (sort_rows jd
                       (map (fun r => set_nth jd (to_datetime_cell (cell_at jd r)) r)
                          (rows combined))) |}.
Proof.
  intros Hpos. unfold Collect.finalize. rewrite Hpos.
  unfold applymap, map_column. cbn [columns rows]. rewrite map_map. reflexivity.
Qed.

Lemma dated_row jd (cols : list string) r :
  jd < List.length cols -> List.length r = List.length cols ->
  let r' := set_nth jd (to_datetime_cell (cell_at jd r)) r in
  List.length r' = List.length cols
  /\ cell_at jd r' = to_datetime_cell (cell_at jd r)
  /\ forall j, j <> jd -> cell_at j r' = cell_at j r.
Proof.
  intros Hjd Hlen r'. unfold r'. split; [rewrite set_nth_length; exact Hlen|].
  split; [apply cell_at_set_nth; lia|].
  intros j Hj. clear Hlen Hjd r'. generalize (to_datetime_cell (cell_at jd r)). intros x.
  revert j jd Hj. induction r as [|c r IH]; intros j jd Hj; [destruct jd; reflexivity|].
  destruct jd as [|jd]; destruct j as [|j]; simpl; try reflexivity; try lia.
  apply (IH j jd). lia.
Qed.

Lemma written_row cols jd r :
  position "Date" cols = Some jd -> List.length r = List.length cols ->
  is_day (cell_at jd r) = true ->
  let out := Collect.final_row cols (map replace_dash r) in
  List.length out = List.length cols
  /\ cell_at jd out = cell_at jd r
  /\ forall j, j < List.length cols -> nth j cols "" <> "Date" ->
       cell_at j out = written (cell_at j r).
Proof.
  intros Hpos Hlen Hday out. unfold out.
  split; [rewrite final_row_length, length_map; exact Hlen|].
  split.
  - rewrite (final_row_date cols jd _ Hpos). rewrite cell_at_map by reflexivity.
    apply replace_dash_day, Hday.
  - intros j Hj Hname. rewrite final_row_other; [|exact Hj|rewrite length_map; lia|exact Hname].
    rewrite cell_at_map by reflexivity. reflexivity.
Qed.

Lemma position_nth name cols j :
  position name cols = Some j -> j < List.length cols /\ nth j cols "" = name.
Proof.
  revert j. induction cols as [|c cols IH]; intros j H; [discriminate|].
  cbn [position] in H. destruct (String.eqb name c) eqn:E.
  - injection H as <-. apply String.eqb_eq in E. split; [simpl; lia|symmetry; exact E].
  - destruct (position name cols) as [j'|]; [|discriminate]. injection H as <-.
    destruct (IH j' eq_refl) as [Hlt Hn]. split; [simpl; lia|exact Hn].
Qed.

Lemma position_only name cols jd j :
  NoDup cols -> position name cols = Some jd ->
  j < List.length cols -> j <> jd -> nth j cols "" <> name.
Proof.
  intros Hnd Hpos Hj Hne Hname. destruct (position_nth _ _ _ Hpos) as [Hjd Hn].
  apply Hne. rewrite NoDup_nth in Hnd. apply Hnd; [exact Hj|exact Hjd|].
  rewrite Hname, Hn. reflexivity.
Qed.

(** Every row of the written table comes from a row of the running
    table. *)
Lemma written_rows_origin combined jd r :
  well_formed combined -> position "Date" (columns combined) = Some jd ->
  In r (sort_rows jd (map (fun r => set_nth jd (to_datetime_cell (cell_at jd r)) r)
                        (rows combined))) ->
  List.length r = List.length (columns combined)
  /\ is_day (cell_at jd r) = true.
Proof.
  intros Hwf Hpos Hin. destruct (position_nth _ _ _ Hpos) as [Hjd _].
  apply (Permutation_in _ (sort_rows_perm jd _)) in Hin.
  apply in_map_iff in Hin. destruct Hin as (r0 & <- & Hr0).
  unfold well_formed in Hwf. rewrite Forall_forall in Hwf.
  destruct (dated_row jd (columns combined) r0 Hjd (Hwf r0 Hr0)) as (Hlen & Hcell & _).
  split; [exact Hlen|]. rewrite Hcell. apply to_datetime_cell_day.
Qed.

(** X11. The last pass needs a [Date] column and raises [KeyError]
    without one.  For a table with distinct column names it keeps the
    header and the number of rows, and in every row it leaves a day or a
    missing day under [Date] and a number under every other column. *)
Theorem written_table_types (combined : DataFrame) :
  well_formed combined -> NoDup (columns combined) ->
  (~ In "Date" (columns combined) -> Collect.finalize combined = Raise KeyError)
  /\ (forall jd, position "Date" (columns combined) = Some jd ->
      exists df,
        Collect.finalize combined = Ok df
        /\ columns df = columns combined
        /\ List.length (rows df) = List.length (rows combined)
        /\ well_formed df
        /\ forall r j, In r (rows df) -> j < List.length (columns df) ->
             if j =? jd then is_day (cell_at j r) = true
             else exists q, cell_at j r = CNum q).
Proof.
  intros Hwf Hnd. split.
  - intros Hno. unfold Collect.finalize. rewrite (position_absent _ _ Hno). reflexivity.
  - intros jd Hpos. rewrite (finalize_rows combined jd Hpos).
    eexists. split; [reflexivity|]. cbn [columns rows].
    split; [reflexivity|].
    split.
    { rewrite length_map. rewrite (Permutation_length (sort_rows_perm jd _)).
      apply length_map. }
    split.
    { unfold well_formed. cbn [columns rows]. apply Forall_forall. intros r Hr.
      apply in_map_iff in Hr. destruct Hr as (r1 & <- & Hr1).
      destruct (written_rows_origin combined jd r1 Hwf Hpos Hr1) as [Hlen Hday].
      apply (written_row _ jd r1 Hpos Hlen Hday). }
    intros r j Hr Hj. apply in_map_iff in Hr. destruct Hr as (r1 & <- & Hr1).
    destruct (written_rows_origin combined jd r1 Hwf Hpos Hr1) as [Hlen Hday].
    destruct (written_row _ jd r1 Hpos Hlen Hday) as (_ & Hdate & Hother).
    destruct (j =? jd) eqn:E.
    + apply Nat.eqb_eq in E. subst j. rewrite Hdate. exact Hday.
    + apply Nat.eqb_neq in E. rewrite Hother; [apply final_cell_number|exact Hj|].
      apply (position_only "Date" _ jd j Hnd Hpos Hj E).
Qed.

Lemma written_table_types_witness :
  exists df,
    Collect.finalize unsorted_table = Ok df
    /\ columns df = ["Date"; "financials_Revenue"; "Employees"]
    /\ forall r, In r (rows df) ->
         is_day (cell_at 0 r) = true /\ (exists q, cell_at 1 r = CNum q)
         /\ (exists q, cell_at 2 r = CNum q).
Proof.
  assert (Hwf : well_formed unsorted_table) by (repeat constructor).
  assert (Hnd : NoDup (columns unsorted_table)).
  { simpl. repeat constructor; simpl; intuition discriminate. }
  destruct (proj2 (written_table_types unsorted_table Hwf Hnd) 0 eq_refl)
    as (df & Hdf & Hcols & _ & _ & Hcells).
  exists df. split; [exact Hdf|]. split; [exact Hcols|].
  intros r Hr. rewrite Hcols in Hcells.
  split; [apply (Hcells r 0 Hr); simpl; lia|].
  split; [apply (Hcells r 1 Hr); simpl; lia|apply (Hcells r 2 Hr); simpl; lia].
Defined.

(** X12. For a running table with distinct column names (under a
    repeated name pandas selects a frame, not a column, and the pass does
    not get this far), the table that is written has its rows in date
    order, rows without a date last, and holds the same dates as the
    running table, each as often as there. *)
Theorem written_table_sorted (combined : DataFrame) (jd : nat) :
  well_formed combined -> NoDup (columns combined) ->
  position "Date" (columns combined) = Some jd ->
  exists df,
    Collect.finalize combined = Ok df
    /\ StronglySorted (in_date_order jd) (rows df)
    /\ Permutation (map (cell_at jd) (rows df))
         (map (fun r => to_datetime_cell (cell_at jd r)) (rows combined)).
Proof.
  intros Hwf _ Hpos. rewrite (finalize_rows combined jd Hpos).
  eexists. split; [reflexivity|]. cbn [rows].
  assert (Hkey : forall r,
             In r (sort_rows jd (map (fun r => set_nth jd (to_datetime_cell (cell_at jd r)) r)
                                   (rows combined))) ->
             cell_at jd (Collect.final_row (columns combined) (map replace_dash r))
             = cell_at jd r).
  { intros r Hr. destruct (written_rows_origin combined jd r Hwf Hpos Hr) as [Hlen Hday].
    apply (written_row _ jd r Hpos Hlen Hday). }
  split.
  - apply sorted_map; [exact Hkey|apply sort_rows_sorted].
  - rewrite map_map. rewrite (map_ext_in _ (cell_at jd) _ Hkey).
    eapply perm_trans; [apply Permutation_map, sort_rows_perm|].
    rewrite map_map. destruct (position_nth _ _ _ Hpos) as [Hjd _].
    unfold well_formed in Hwf. rewrite Forall_forall in Hwf.
    rewrite (map_ext_in _ (fun r => to_datetime_cell (cell_at jd r))); [apply Permutation_refl|].
    intros r Hr. apply cell_at_set_nth. rewrite (Hwf r Hr). exact Hjd.
Qed.

Lemma written_table_sorted_witness :
  exists df,
    Collect.finalize unsorted_table = Ok df
    /\ StronglySorted (in_date_order 0) (rows df)
    /\ map (cell_at 0) (rows df) = [CTimestamp 2021 9 1; CTimestamp 2023 4 1; CNaT].
Proof.
  assert (Hwf : well_formed unsorted_table) by (repeat constructor).
  assert (Hnd : NoDup (columns unsorted_table)).
  { simpl. repeat constructor; simpl; intuition discriminate. }
  destruct (written_table_sorted unsorted_table 0 Hwf Hnd eq_refl) as (df & Hdf & Hs & _).
  exists df. split; [exact Hdf|]. split; [exact Hs|].
  vm_compute in Hdf. injection Hdf as <-. reflexivity.
Defined.

(** ** The "Other Metrics" branch *)

Section OtherMetrics.

Context {W : Type} (driver : WebDriver W).









End OtherMetrics.


(** ** The combined clearing of [AdRemoval.py] *)

Section Clearing.

Context {W : Type} (driver : WebDriver W) (wait_fixed_hidden : Z -> M W unit).

(** X14. [force_clear_all_obstructions] raises exactly when the removal
    script raises, with the exception of the script and before any of the
    two waits is started; a failure of the gentle close or of either wait
    never leaves it. *)
Theorem force_clear_raises_with_script_only (timeout : Z) (w : W) :
  exists w1,
    Remove.close_ad_overlay driver w = (Ok tt, w1)
    /\ match execute_script driver Remove.remove_script [] w1 with
       | (Raise e, w2) =>
           Obstructions.force_clear_all_obstructions driver wait_fixed_hidden timeout w
           = (Raise e, w2)
       | (Ok _, _) =>
           exists w',
             Obstructions.force_clear_all_obstructions driver wait_fixed_hidden timeout w
             = (Ok tt, w')
       end.
Proof.
  destruct (close_ad_overlay_safe driver w) as ([] & w1 & Hclose).
  exists w1. split; [exact Hclose|].
  unfold Obstructions.force_clear_all_obstructions, bind. rewrite Hclose.
  unfold Remove.remove_ad_overlay.
  destruct (execute_script driver Remove.remove_script [] w1) as [[[]|e] w2]; [|reflexivity].
  destruct (wait_for_overlay_to_disappear_safe driver timeout w2) as ([] & w3 & ->).
  unfold try_except, ret.
  destruct (wait_fixed_hidden timeout w3) as [[[]|e] w4]; eauto.
Qed.

End Clearing.

(** ** The outer merge on the date *)

Lemma with_key_In j k rs r :
  In r (with_key j k rs) <-> In r rs /\ py_str (cell_at j r) = k.
Proof.
  unfold with_key. rewrite filter_In, String.eqb_eq. reflexivity.
Qed.

Lemma outer_keys_In jl jr lrows rrows k :
  In k (outer_keys jl jr lrows rrows)
  <-> In k (keys_of jl lrows) \/ In k (keys_of jr rrows).
Proof.
  unfold outer_keys, keys_of. split.
  - intros H. apply (Permutation_in _ (sort_keys_perm _)) in H.
    apply nodup_In in H. apply in_app_or in H. exact H.
  - intros H. apply (Permutation_in _ (Permutation_sym (sort_keys_perm _))).
    apply nodup_In. apply in_or_app. exact H.
Qed.

Lemma blank_key_cell jl wl c : jl < wl -> cell_at jl (set_nth jl c (blanks wl)) = c.
Proof.
  intros H. apply cell_at_set_nth. unfold blanks. rewrite repeat_length. exact H.
Qed.

(** The rows the outer merge makes for one key all carry that key. *)
Lemma merge_outer_group_key jl jr wl wr lrows rrows k row :
  jl < wl -> Forall (fun l => List.length l = wl) lrows ->
  In row (match with_key jl k lrows, with_key jr k rrows with
          | [], rs => map (fun r => set_nth jl (cell_at jr r) (blanks wl) ++ drop_nth jr r) rs
          | ls, [] => map (fun l => l ++ blanks (wr - 1)) ls
          | ls, rs => flat_map (fun l => map (fun r => l ++ drop_nth jr r) rs) ls
          end) ->
  py_str (cell_at jl row) = k.
Proof.
  intros Hjl Hwf. rewrite Forall_forall in Hwf.
  assert (Hleft : forall l t, In l (with_key jl k lrows) -> py_str (cell_at jl (l ++ t)) = k).
  { intros l t Hl. apply with_key_In in Hl. destruct Hl as [Hin Hk].
    rewrite cell_at_app_left by (rewrite (Hwf l Hin); exact Hjl). exact Hk. }
  destruct (with_key jl k lrows) as [|l0 ls] eqn:El.
  - intros Hin. apply in_map_iff in Hin. destruct Hin as (r & <- & Hr).
    apply with_key_In in Hr. destruct Hr as [_ Hk].
    rewrite cell_at_app_left by (rewrite set_nth_length; unfold blanks;
                                 rewrite repeat_length; exact Hjl).
    rewrite blank_key_cell by exact Hjl. exact Hk.
  - destruct (with_key jr k rrows) as [|r0 rs] eqn:Er.
    + intros Hin. apply in_map_iff in Hin. destruct Hin as (l & <- & Hl).
      apply Hleft, Hl.
    + intros Hin. apply in_flat_map in Hin. destruct Hin as (l & Hl & Hin).
      apply in_map_iff in Hin. destruct Hin as (r & <- & _). apply Hleft, Hl.
Qed.

(** A key that one side holds gets at least one row. *)
Lemma merge_outer_group_inhabited jl jr wl wr lrows rrows k :
  In k (keys_of jl lrows) \/ In k (keys_of jr rrows) ->
  exists row,
    In row (match with_key jl k lrows, with_key jr k rrows with
            | [], rs => map (fun r => set_nth jl (cell_at jr r) (blanks wl) ++ drop_nth jr r) rs
            | ls, [] => map (fun l => l ++ blanks (wr - 1)) ls
            | ls, rs => flat_map (fun l => map (fun r => l ++ drop_nth jr r) rs) ls
            end).
Proof.
  intros H.
  destruct (with_key jl k lrows) as [|l0 ls] eqn:El.
  - destruct H as [H|H].
    + unfold keys_of in H. apply in_map_iff in H. destruct H as (l & Hk & Hl).
      assert (Hin : In l (with_key jl k lrows)) by (apply with_key_In; tauto).
      rewrite El in Hin. contradiction.
    + unfold keys_of in H. apply in_map_iff in H. destruct H as (r & Hk & Hr).
      eexists. apply in_map_iff. exists r. split; [reflexivity|].
      apply with_key_In. tauto.
  - destruct (with_key jr k rrows) as [|r0 rs].
    + eexists. left. reflexivity.
    + eexists. simpl. left. reflexivity.
Qed.

(** X15. The outer merge of two tables on a key column that holds text
    loses no key and invents none: the keys of the merged rows are the
    keys of the left rows together with the keys of the right rows. *)
Theorem outer_merge_keys (key : string) (left right : DataFrame) (jl jr : nat) :
  well_formed left -> well_formed right ->
  position key (columns left) = Some jl -> position key (columns right) = Some jr ->
  text_column jl left -> text_column jr right ->
  exists merged,
    merge_outer key left right = Ok merged
    /\ nth jl (columns merged) "" = key
    /\ forall k, In k (keys_of jl (rows merged))
                 <-> In k (keys_of jl (rows left)) \/ In k (keys_of jr (rows right)).
Proof.
  intros Hwf _ Hl Hr _ _. unfold merge_outer. rewrite Hl, Hr.
  eexists. split; [reflexivity|]. cbn [columns rows].
  destruct (position_nth _ _ _ Hl) as [Hjl Hname].
  split.
  { unfold merge_columns. rewrite app_nth1 by (rewrite length_map; exact Hjl).
    rewrite (nth_indep _ "" ((fun c => if negb (String.eqb c key) && mem c (columns right)
                                       then (c ++ "_x")%string else c) ""))
      by (rewrite length_map; exact Hjl).
    rewrite (map_nth (fun c => if negb (String.eqb c key) && mem c (columns right)
                               then (c ++ "_x")%string else c)).
    rewrite Hname, String.eqb_refl. reflexivity. }
  intros k. unfold merge_outer_rows. split.
  - intros Hin. unfold keys_of in Hin at 1. apply in_map_iff in Hin.
    destruct Hin as (row & Hk & Hrow). apply in_flat_map in Hrow.
    destruct Hrow as (k' & Hk' & Hrow).
    apply merge_outer_group_key in Hrow; [|exact Hjl|exact Hwf].
    apply outer_keys_In. congruence.
  - intros Hin.
    destruct (merge_outer_group_inhabited jl jr (List.length (columns left))
                (List.length (columns right)) (rows left) (rows right) k Hin) as (row & Hrow).
    unfold keys_of at 1. apply in_map_iff. exists row. split.
    + eapply merge_outer_group_key; [exact Hjl|exact Hwf|exact Hrow].
    + apply in_flat_map. exists k. split; [apply outer_keys_In, Hin|exact Hrow].
Qed.

Lemma outer_merge_keys_witness :
  exists merged,
    merge_outer "Date" two_dates later_dates = Ok merged
    /\ keys_of 0 (rows merged) = ["2021-03-01"; "2021-09-01"; "2021-12-01"].
Proof.
  destruct (outer_merge_keys "Date" two_dates later_dates 0 0) as (merged & Hm & _ & _).
  - repeat constructor.
  - repeat constructor.
  - reflexivity.
  - reflexivity.
  - repeat constructor; eexists; reflexivity.
  - repeat constructor; eexists; reflexivity.
  - exists merged. split; [exact Hm|].
    vm_compute in Hm. injection Hm as <-. reflexivity.
Defined.

(** ** What the navigation helpers let through *)

(** X16. [search], [click] and [quartely] never raise, whatever the
    page does: each runs inside one [try] whose handler only logs.
    [get_scrollbar_thumb_x] never raises either, and it returns a position
    exactly when the thumb was found and its location could be read. *)
Theorem navigation_never_raises {W} (driver : WebDriver W) :
  (forall name, never_raises (Tools.search driver name))
  /\ (forall click_value nested, never_raises (Tools.click driver click_value nested))
  /\ never_raises (Tools.quartely driver)
  /\ (forall w, exists x w',
        Tools.get_scrollbar_thumb_x driver w = (Ok x, w')
        /\ forall z, x = Some z <->
                     exists thumb w1,
                       find_element driver ID Tools.thumb_id w = (Ok thumb, w1)
                       /\ location_x driver thumb w1 = (Ok z, w')).
Proof.
  split; [intros name; apply search_safe|].
  split; [intros v nested; apply click_safe|].
  split; [apply quartely_safe|].
  intros w. unfold Tools.get_scrollbar_thumb_x, try_except, bind, ret.
  destruct (find_element driver ID Tools.thumb_id w) as [[thumb|e] w1] eqn:Hfind.
  - destruct (location_x driver thumb w1) as [[x|e] w2] eqn:Hloc.
    + exists (Some x), w2. split; [reflexivity|]. intros z. split.
      * intros H. injection H as <-. exists thumb, w1. split; [reflexivity|exact Hloc].
      * intros (t & wa & Hf & Hl). injection Hf as <- <-. congruence.
    + exists None, w2. split; [reflexivity|]. intros z. split; [discriminate|].
      intros (t & wa & Hf & Hl). injection Hf as <- <-. congruence.
  - exists None, w1. split; [reflexivity|]. intros z. split; [discriminate|].
    intros (t & wa & Hf & _). discriminate Hf.
Qed.

(** ** Scanned texts are stripped *)

Lemma rstrip_idempotent s : rstrip (rstrip s) = rstrip s.
Proof.
  induction s as [|c s IH]; [reflexivity|]. cbn [rstrip].
  destruct (rstrip s) as [|d t] eqn:E.
  - destruct (is_space c) eqn:Hc; [reflexivity|]. cbn [rstrip]. rewrite Hc. reflexivity.
  - change (rstrip (String c (String d t)))
      with (match rstrip (String d t) with
            | EmptyString => if is_space c then EmptyString else String c EmptyString
            | u => String c u
            end).
    rewrite IH. reflexivity.
Qed.

Lemma lstrip_clean s : starts_clean (lstrip s) = true.
Proof.
  induction s as [|c s IH]; [reflexivity|]. cbn [lstrip].
  destruct (is_space c) eqn:E; [exact IH|]. simpl. rewrite E. reflexivity.
Qed.

Lemma lstrip_of_clean s : starts_clean s = true -> lstrip s = s.
Proof.
  destruct s as [|c s]; [reflexivity|]. simpl. intros H.
  apply negb_true_iff in H. rewrite H. reflexivity.
Qed.

Lemma rstrip_keeps_clean s : starts_clean s = true -> starts_clean (rstrip s) = true.
Proof.
  destruct s as [|c s]; [reflexivity|]. cbn [rstrip starts_clean]. intros H.
  apply negb_true_iff in H.
  destruct (rstrip s); [rewrite H|]; simpl; rewrite H; reflexivity.
Qed.

Lemma strip_stripped s : stripped (strip s).
Proof.
  unfold stripped, strip.
  rewrite (lstrip_of_clean (rstrip (lstrip s))) by apply rstrip_keeps_clean, lstrip_clean.
  apply rstrip_idempotent.
Qed.

Lemma rstrip_end s : ends_in_space (rstrip s) = false.
Proof.
  induction s as [|c s IH]; [reflexivity|]. cbn [rstrip].
  destruct (rstrip s) as [|d t].
  - destruct (is_space c) eqn:E; [reflexivity|]. simpl. exact E.
  - exact IH.
Qed.

Lemma stripped_end s : stripped s -> ends_in_space s = false.
Proof. intros H. rewrite <- H. apply rstrip_end. Qed.

(** A stripped text that matches the date pattern has no final newline. *)
Lemma stripped_date_length s :
  stripped s -> Tools.looks_like_date s = true -> String.length s = 10.
Proof.
  intros Hs Hd. apply stripped_end in Hs.
  do 10 (destruct s as [|? s]; [discriminate Hd|]).
  destruct s as [|nl [|x s]].
  - reflexivity.
  - exfalso. unfold Tools.looks_like_date in Hd.
    rewrite !andb_true_iff in Hd. destruct Hd as [_ Hnl].
    apply Ascii.eqb_eq in Hnl. subst nl. simpl in Hs. discriminate Hs.
  - exfalso. unfold Tools.looks_like_date in Hd. rewrite andb_false_r in Hd. discriminate Hd.
Qed.

Lemma mapM_Forall {W A B} (f : A -> M W B) (P : B -> Prop) :
  (forall x w y w', f x w = (Ok y, w') -> P y) ->
  forall l w ys w', mapM f l w = (Ok ys, w') -> Forall P ys.
Proof.
  intros Hf. induction l as [|x l IH]; intros w ys w' H.
  - injection H as <- _. constructor.
  - cbn [mapM] in H. unfold bind in H.
    destruct (f x w) as [[y|e] w1] eqn:Hx; [|discriminate].
    destruct (mapM f l w1) as [[ys'|e] w2] eqn:Hl; [|discriminate].
    injection H as <- _. constructor; [eapply Hf, Hx|eapply IH, Hl].
Qed.

Lemma stripped_text_stripped {W} (driver : WebDriver W) e w y w' :
  Tools.stripped_text driver e w = (Ok y, w') -> stripped y.
Proof.
  unfold Tools.stripped_text, bind, ret.
  destruct (text driver e w) as [[t|x] w1]; [|discriminate].
  intros H. injection H as <- _. apply strip_stripped.
Qed.

Lemma extract_grid_data_stripped {W} (driver : WebDriver W) w hs rows w' :
  Tools.extract_grid_data driver w = (Ok (hs, rows), w') ->
  Forall stripped hs /\ Forall (Forall stripped) rows.
Proof.
  unfold Tools.extract_grid_data, bind.
  destruct (find_elements driver CSS_SELECTOR _ w) as [[es|e] w1]; [|discriminate].
  destruct (mapM (Tools.stripped_text driver) es w1) as [[hs'|e] w2] eqn:Hh; [|discriminate].
  destruct (find_elements driver CSS_SELECTOR _ w2) as [[rs|e] w3]; [|discriminate].
  destruct (mapM _ rs w3) as [[rows'|e] w4] eqn:Hr; [|discriminate].
  intros H. injection H as <- <- _. split.
  - eapply mapM_Forall; [|exact Hh]. intros x wa y wb. apply stripped_text_stripped.
  - eapply mapM_Forall; [|exact Hr]. intros row wa cells wb Hrow. cbv beta in Hrow.
    unfold bind in Hrow.
    destruct (elem_find_elements driver row CSS_SELECTOR _ wa) as [[cs|e] wc]; [|discriminate].
    eapply mapM_Forall; [|exact Hrow]. intros x wd y we. apply stripped_text_stripped.
Qed.

(** X17. Every header and every cell a scan returns is stripped of
    surrounding white space.  So is every column header of the table
    [get_chart] returns, and one that matches the date pattern has
    exactly ten characters: the final newline the pattern would let
    through cannot be there. *)
Theorem scanned_texts_are_stripped {W} (driver : WebDriver W) :
  (forall w hs rows w',
      Tools.extract_grid_data driver w = (Ok (hs, rows), w') ->
      Forall stripped hs /\ Forall (Forall stripped) rows)
  /\ (forall fuel w df w',
        Collect.get_chart driver fuel w = (Ok (Some df), w') ->
        Forall (fun h => stripped h
                         /\ (Tools.looks_like_date h = true -> String.length h = 10))
          (columns df)).
Proof.
  split; [apply extract_grid_data_stripped|].
  intros fuel w df w' Hrun.
  assert (Hs : Forall stripped (columns df)).
  { apply get_chart_inv in Hrun.
    destruct Hrun as (h0 & d0 & w0 & w1 & st & n & Hscan & Hloop & ->). cbn [columns].
    eapply (scroll_loop_invariant driver (fun st => Forall stripped (Collect.all_headers st)));
      [| |exact Hloop].
    - intros st1 wa st2 wb HP Hbody. apply loop_body_next_inv in Hbody.
      destruct Hbody as (nh & nd & w3 & Hs & _ & ->). cbn [Collect.all_headers].
      apply Forall_app. split; [exact HP|].
      apply extract_grid_data_stripped in Hs. destruct Hs as [Hnh _].
      apply Forall_forall. intros h Hh. apply new_date_cols_spec in Hh.
      rewrite Forall_forall in Hnh. apply Hnh. tauto.
    - cbn [Collect.all_headers]. eapply extract_grid_data_stripped, Hscan. }
  eapply Forall_impl; [|exact Hs]. intros h Hh. split; [exact Hh|].
  apply stripped_date_length, Hh.
Qed.

Lemma scanned_texts_are_stripped_witness :
  exists df w',
    Collect.get_chart (Scripted.driver Scripted.walkthrough) 51 0 = (Ok (Some df), w')
    /\ columns df = ["Metric"; "2023-01-01"; "2023-04-01"]
    /\ Forall (fun h => stripped h /\ (Tools.looks_like_date h = true -> String.length h = 10))
         (columns df).
Proof.
  destruct (Collect.get_chart (Scripted.driver Scripted.walkthrough) 51 0)
    as [[[df|]|e] w'] eqn:Hrun; try (vm_compute in Hrun; discriminate Hrun).
  exists df, w'. split; [reflexivity|].
  split; [vm_compute in Hrun; injection Hrun as <- _; reflexivity|].
  exact (proj2 (scanned_texts_are_stripped (Scripted.driver Scripted.walkthrough))
           51 0 df w' Hrun).
Defined.

(** ** What the scripts do to the page *)

Section Records.

Import Logged.

Context {W : Type} (d : WebDriver W).

Lemma silent_ret {A} (a : A) : silent (W := W) (ret a).
Proof. intros s. reflexivity. Qed.

Lemma silent_quiet {A} (m : M W A) : silent (quiet m).
Proof. intros s. unfold log_after, quiet. destruct (m (fst s)). reflexivity. Qed.

Lemma silent_bind {A B} (m : M (W * list event) A) (k : A -> M (W * list event) B) :
  silent m -> (forall a, silent (k a)) -> silent (bind m k).
Proof.
  intros Hm Hk s. specialize (Hm s). unfold log_after, bind in *.
  destruct (m s) as [[a|e] s1]; simpl in Hm; [|exact Hm].
  rewrite <- Hm. apply Hk.
Qed.

Lemma silent_try {A} (m : M (W * list event) A) (h : exn -> M (W * list event) A) :
  silent m -> (forall e, silent (h e)) -> silent (try_except m h).
Proof.
  intros Hm Hh s. specialize (Hm s). unfold log_after, try_except in *.
  destruct (m s) as [[a|e] s1]; simpl in Hm; [exact Hm|].
  rewrite <- Hm. apply Hh.
Qed.

Lemma silent_mapM {A B} (f : A -> M (W * list event) B) (l : list A) :
  (forall a, silent (f a)) -> silent (mapM f l).
Proof.
  intros Hf. induction l as [|x l IH]; simpl; [apply silent_ret|].
  apply silent_bind; [apply Hf|]. intros y.
  apply silent_bind; [exact IH|]. intros ys. apply silent_ret.
Qed.

(** How a silent step leaves the record, once its result is named. *)
Lemma silent_run {A} (m : M (W * list event) A) s r s' :
  silent m -> m s = (r, s') -> snd s' = snd s.
Proof. intros Hm E. specialize (Hm s). unfold log_after in Hm. rewrite E in Hm. exact Hm. Qed.

Lemma noting_run ev (m : M W unit) s r s' :
  noting ev m s = (r, s') ->
  (r = Ok tt /\ snd s' = snd s ++ [ev]) \/ ((exists e, r = Raise e) /\ snd s' = snd s).
Proof.
  unfold noting. destruct (m (fst s)) as [[[]|e] w1]; intros H; injection H as <- <-.
  - left. split; reflexivity.
  - right. split; [eauto|reflexivity].
Qed.

Lemma extract_grid_data_silent : silent (Tools.extract_grid_data (driver d)).
Proof.
  unfold Tools.extract_grid_data.
  apply silent_bind; [apply silent_quiet|]. intros hs.
  apply silent_bind.
  { apply silent_mapM. intros e. apply silent_bind; [apply silent_quiet|].
    intros t. apply silent_ret. }
  intros headers. apply silent_bind; [apply silent_quiet|]. intros rs.
  apply silent_bind.
  { apply silent_mapM. intros row. apply silent_bind; [apply silent_quiet|]. intros cells.
    apply silent_mapM. intros e. apply silent_bind; [apply silent_quiet|].
    intros t. apply silent_ret. }
  intros rows. apply silent_ret.
Qed.

Lemma get_scrollbar_thumb_x_silent : silent (Tools.get_scrollbar_thumb_x (driver d)).
Proof.
  unfold Tools.get_scrollbar_thumb_x. apply silent_try.
  - apply silent_bind; [apply silent_quiet|]. intros thumb.
    apply silent_bind; [apply silent_quiet|]. intros x. apply silent_ret.
  - intros e. apply silent_ret.
Qed.

(** *** Closing an overlay *)

Lemma try_close_record overlay s :
  exists closed s',
    Remove.try_close (driver d) overlay s = (Ok closed, s')
    /\ if closed then exists btn, snd s' = snd s ++ [Clicked btn] else snd s' = snd s.
Proof.
  unfold Remove.try_close, try_except, bind, ret.
  assert (Hsecond : forall s1, snd s1 = snd s ->
            exists closed s',
              match
                (let (r, s2) := elem_find_element (driver d) overlay CSS_SELECTOR
                                  Remove.close_class_selector s1 in
                 match r with
                 | Ok close_btn =>
                     let (r', s3) := click_element (driver d) close_btn s2 in
                     match r' with
                     | Ok _ => (Ok true, s3)
                     | Raise e => (Raise e, s3)
                     end
                 | Raise e => (Raise e, s2)
                 end)
              with
              | (Ok a, w') => (Ok a, w')
              | (Raise _, w') => (Ok false, w')
              end = (Ok closed, s')
              /\ if closed then exists btn, snd s' = snd s ++ [Clicked btn]
                 else snd s' = snd s).
  { intros s1 Hs1.
    destruct (elem_find_element (driver d) overlay CSS_SELECTOR Remove.close_class_selector s1)
      as [[btn|e] s2] eqn:Hfind.
    - apply (silent_run _ _ _ _ (silent_quiet _)) in Hfind.
      destruct (click_element (driver d) btn s2) as [[[]|e] s3] eqn:Hclick.
      + exists true, s3. split; [reflexivity|]. exists btn.
        apply noting_run in Hclick. destruct Hclick as [[_ ->]|[[e He] _]]; [|discriminate].
        congruence.
      + exists false, s3. split; [reflexivity|].
        apply noting_run in Hclick. destruct Hclick as [[Hr _]|[_ ->]]; [discriminate|].
        congruence.
    - apply (silent_run _ _ _ _ (silent_quiet _)) in Hfind.
      exists false, s2. split; [reflexivity|]. congruence. }
  destruct (elem_find_element (driver d) overlay XPATH Remove.close_text_xpath s)
    as [[btn|e] s1] eqn:Hfind.
  - apply (silent_run _ _ _ _ (silent_quiet _)) in Hfind.
    destruct (click_element (driver d) btn s1) as [[[]|e] s2] eqn:Hclick.
    + exists true, s2. split; [reflexivity|]. exists btn.
      apply noting_run in Hclick. destruct Hclick as [[_ ->]|[[e He] _]]; [|discriminate].
      congruence.
    + apply noting_run in Hclick. destruct Hclick as [[Hr _]|[_ Hlog]]; [discriminate|].
      apply Hsecond. congruence.
  - apply (silent_run _ _ _ _ (silent_quiet _)) in Hfind. apply Hsecond, Hfind.
Qed.

Lemma close_each_record overlays s :
  log_after (Remove.close_each (driver d) overlays) s = snd s
  \/ exists btn, log_after (Remove.close_each (driver d) overlays) s = snd s ++ [Clicked btn].
Proof.
  revert s. induction overlays as [|overlay rest IH]; intros s; [left; reflexivity|].
  unfold log_after in *. cbn [Remove.close_each]. unfold bind.
  destruct (is_displayed (driver d) overlay s) as [[shown|e] s1] eqn:Hshown;
    apply (silent_run _ _ _ _ (silent_quiet _)) in Hshown; [|left; exact Hshown].
  destruct shown; [|rewrite <- Hshown; apply IH].
  destruct (try_close_record overlay s1) as (closed & s2 & -> & Hlog).
  destruct closed.
  - right. destruct Hlog as (btn & Hlog). exists btn. simpl. congruence.
  - rewrite <- Hshown, <- Hlog. apply IH.
Qed.

Lemma close_ad_overlay_record s :
  exists s' closes,
    Remove.close_ad_overlay (driver d) s = (Ok tt, s')
    /\ snd s' = snd s ++ closes /\ closing closes.
Proof.
  assert (Hcase : forall s' : W * list event,
            snd s' = snd s \/ (exists btn, snd s' = snd s ++ [Clicked btn]) ->
            exists closes, snd s' = snd s ++ closes /\ closing closes).
  { intros s' [H|(btn & H)].
    - exists []. rewrite app_nil_r. split; [exact H|left; reflexivity].
    - exists [Clicked btn]. split; [exact H|right; exists btn; reflexivity]. }
  unfold Remove.close_ad_overlay, try_except, bind, ret.
  destruct (find_elements (driver d) CSS_SELECTOR Remove.overlay_selector s)
    as [[overlays|e] s1] eqn:Hfind;
    apply (silent_run _ _ _ _ (silent_quiet _)) in Hfind.
  - pose proof (close_each_record overlays s1) as Hrec. unfold log_after in Hrec.
    rewrite Hfind in Hrec.
    destruct (Remove.close_each (driver d) overlays s1) as [[[]|e] s2]; simpl in Hrec;
      destruct (Hcase s2 Hrec) as (closes & H); exists s2, closes; split; auto.
  - destruct (Hcase s1 (or_introl Hfind)) as (closes & H). exists s1, closes. split; auto.
Qed.

(** X18. [close_ad_overlay] clicks at most one button and does nothing
    else to the page: it stops at the first overlay on which a click on a
    close button goes through. *)
Theorem close_ad_overlay_clicks_at_most_once (w : W) (log : list event) :
  exists w' log',
    Remove.close_ad_overlay (driver d) (w, log) = (Ok tt, (w', log'))
    /\ (log' = log \/ exists btn, log' = log ++ [Clicked btn]).
Proof.
  destruct (close_ad_overlay_record (w, log)) as ([w' log'] & closes & Hrun & Hlog & Hc).
  exists w', log'. split; [exact Hrun|]. simpl in Hlog. subst log'.
  destruct Hc as [->|(btn & ->)]; [left; apply app_nil_r|right; exists btn; reflexivity].
Qed.

(** *** Searching for a stock *)

Ltac no_click :=
  let H := fresh in
  intros H; simpl in H;
  repeat (destruct H as [H|H]; [discriminate H|]); contradiction.

(** The steps of [search] once the search box is found: they stop at the
    first failure, and a click that went through was made on the element
    the wait for a clickable result returned, after all earlier steps. *)
Lemma search_steps name box s :
  exists r s' first_result done,
    (execute_script (driver d) "arguments[0].scrollIntoView(true);" [box] ;;
     clear_element (driver d) box ;;
     send_keys (driver d) box name ;;
     wait_presence (driver d) 10 CSS_SELECTOR ".typeahead__result ul li a" ;;
     first_result <- wait_clickable (driver d) 10 CSS_SELECTOR ".typeahead__result ul li a" ;;
     click_element (driver d) first_result) s = (r, s')
    /\ snd s' = snd s ++ done
    /\ begins done (search_actions name box first_result)
    /\ (In (Clicked first_result) done ->
        exists s2 s3 s4 el s5 s6,
          execute_script (driver d) "arguments[0].scrollIntoView(true);" [box] s = (Ok tt, s2)
          /\ clear_element (driver d) box s2 = (Ok tt, s3)
          /\ send_keys (driver d) box name s3 = (Ok tt, s4)
          /\ wait_presence (driver d) 10 CSS_SELECTOR ".typeahead__result ul li a" s4
             = (Ok el, s5)
          /\ wait_clickable (driver d) 10 CSS_SELECTOR ".typeahead__result ul li a" s5
             = (Ok first_result, s6)
          /\ click_element (driver d) first_result s6 = (Ok tt, s')).
Proof.
  unfold bind.
  destruct (execute_script (driver d) _ [box] s) as [r1 s1] eqn:E1.
  pose proof (noting_run _ _ _ _ _ E1) as L1. destruct L1 as [[-> L1]|[[e ->] L1]].
  2: { exists (Raise e), s1, 0, []. split; [reflexivity|].
       split; [rewrite app_nil_r; exact L1|]. split; [eexists; reflexivity|no_click]. }
  destruct (clear_element (driver d) box s1) as [r2 s2] eqn:E2.
  pose proof (noting_run _ _ _ _ _ E2) as L2. destruct L2 as [[-> L2]|[[e ->] L2]].
  2: { exists (Raise e), s2, 0, [Ran "arguments[0].scrollIntoView(true);" [box]].
       split; [reflexivity|]. split; [congruence|].
       split; [eexists; reflexivity|no_click]. }
  destruct (send_keys (driver d) box name s2) as [r3 s3] eqn:E3.
  pose proof (noting_run _ _ _ _ _ E3) as L3. destruct L3 as [[-> L3]|[[e ->] L3]].
  2: { exists (Raise e), s3, 0, [Ran "arguments[0].scrollIntoView(true);" [box]; Cleared box].
       split; [reflexivity|]. split; [rewrite L3, L2, L1, <- app_assoc; reflexivity|].
       split; [eexists; reflexivity|no_click]. }
  assert (L : snd s3 = snd s ++ [Ran "arguments[0].scrollIntoView(true);" [box];
                                 Cleared box; Typed box name]).
  { rewrite L3, L2, L1, <- !app_assoc. reflexivity. }
  destruct (wait_presence (driver d) 10 CSS_SELECTOR _ s3) as [[el|e] s4] eqn:E4;
    pose proof (silent_run _ _ _ _ (silent_quiet _) E4) as L4.
  2: { exists (Raise e), s4, 0, [Ran "arguments[0].scrollIntoView(true);" [box];
                                 Cleared box; Typed box name].
       split; [reflexivity|]. split; [congruence|].
       split; [eexists; reflexivity|no_click]. }
  destruct (wait_clickable (driver d) 10 CSS_SELECTOR _ s4) as [[first_result|e] s5] eqn:E5;
    pose proof (silent_run _ _ _ _ (silent_quiet _) E5) as L5.
  2: { exists (Raise e), s5, 0, [Ran "arguments[0].scrollIntoView(true);" [box];
                                 Cleared box; Typed box name].
       split; [reflexivity|]. split; [congruence|].
       split; [eexists; reflexivity|no_click]. }
  destruct (click_element (driver d) first_result s5) as [r6 s6] eqn:E6.
  pose proof (noting_run _ _ _ _ _ E6) as L6. destruct L6 as [[-> L6]|[[e ->] L6]].
  - exists (Ok tt), s6, first_result, (search_actions name box first_result).
    split; [reflexivity|].
    split; [rewrite L6, L5, L4, L, <- app_assoc; reflexivity|].
    split; [exists []; apply app_nil_r|].
    intros _. exists s1, s2, s3, el, s4, s5. tauto.
  - exists (Raise e), s6, first_result,
      [Ran "arguments[0].scrollIntoView(true);" [box]; Cleared box; Typed box name].
    split; [reflexivity|]. split; [congruence|].
    split; [eexists; reflexivity|no_click].
Qed.

(** X19. [search] never raises.  When neither wait finds the search
    box, it does nothing to the page.  Otherwise it acts on the box that
    was found, in one fixed order, and stops at the first step that fails:
    it scrolls that box into view, clears it, types the stock name into
    it, and clicks the element that the wait for a clickable result
    returned after the typing.  So the name is typed at most once, only
    into the box that was found, and nothing is clicked before the name is
    typed. *)
Theorem search_acts_in_order (name : string) (w : W) (log : list event) :
  exists s',
    Tools.search (driver d) name (w, log) = (Ok tt, s')
    /\ match find_search_box (driver d) (w, log) with
       | (Raise _, s1) => s' = s1 /\ snd s' = log
       | (Ok box, s1) =>
           exists first_result done,
             snd s' = log ++ done
             /\ begins done (search_actions name box first_result)
             /\ (In (Clicked first_result) done ->
                 exists s2 s3 s4 el s5 s6,
                   execute_script (driver d) "arguments[0].scrollIntoView(true);" [box] s1
                   = (Ok tt, s2)
                   /\ clear_element (driver d) box s2 = (Ok tt, s3)
                   /\ send_keys (driver d) box name s3 = (Ok tt, s4)
                   /\ wait_presence (driver d) 10 CSS_SELECTOR ".typeahead__result ul li a" s4
                      = (Ok el, s5)
                   /\ wait_clickable (driver d) 10 CSS_SELECTOR ".typeahead__result ul li a" s5
                      = (Ok first_result, s6)
                   /\ click_element (driver d) first_result s6 = (Ok tt, s'))
       end.
Proof.
  assert (Hbox : silent (find_search_box (driver d))).
  { unfold find_search_box. apply silent_try; [apply silent_quiet|].
    intros e. apply silent_quiet. }
  unfold Tools.search. unfold try_except at 1. unfold bind at 1.
  fold (find_search_box (driver d)).
  destruct (find_search_box (driver d) (w, log)) as [[box|e] s1] eqn:E1;
    apply (silent_run _ _ _ _ Hbox) in E1; simpl in E1.
  - destruct (search_steps name box s1) as (r & s' & fr & done & -> & Hlog & Hb & Hchain).
    exists s'. split; [destruct r as [[]|e]; reflexivity|].
    exists fr, done. split; [congruence|]. split; [exact Hb|exact Hchain].
  - exists s1. split; [reflexivity|]. split; [reflexivity|exact E1].
Qed.

(** *** Reading a chart *)

Lemma drag_scrollbar_record amount s :
  log_after (Tools.drag_scrollbar (driver d) amount) s = snd s
  \/ exists thumb, log_after (Tools.drag_scrollbar (driver d) amount) s
                   = snd s ++ [Dragged thumb amount].
Proof.
  unfold log_after, Tools.drag_scrollbar, try_except, bind, ret.
  destruct (find_element (driver d) ID Tools.thumb_id s) as [[thumb|e] s1] eqn:E1;
    apply (silent_run _ _ _ _ (silent_quiet _)) in E1; [|left; exact E1].
  destruct (drag_and_release (driver d) thumb amount s1) as [r2 s2] eqn:E2.
  apply noting_run in E2. destruct E2 as [[-> L2]|[[e ->] L2]]; simpl.
  - right. exists thumb. congruence.
  - left. congruence.
Qed.

(** One pass drags the thumb at most once and does nothing else. *)
Lemma loop_body_record st s :
  exists drags,
    log_after (Collect.loop_body (driver d) st) s = snd s ++ drags
    /\ Forall is_drag drags /\ List.length drags <= 1.
Proof.
  assert (Hnone : forall s' : W * list event, snd s' = snd s ->
            exists drags, snd s' = snd s ++ drags /\ Forall is_drag drags
                          /\ List.length drags <= 1).
  { intros s' H. exists []. rewrite app_nil_r. split; [exact H|]. split; [constructor|simpl; lia]. }
  unfold log_after, Collect.loop_body, bind, ret.
  destruct (Tools.get_scrollbar_thumb_x (driver d) s) as [[[xb|]|e] s1] eqn:E1;
    apply (silent_run _ _ _ _ get_scrollbar_thumb_x_silent) in E1;
    [|apply Hnone, E1|apply Hnone, E1].
  pose proof (drag_scrollbar_record 100 s1) as Hdrag. unfold log_after in Hdrag.
  assert (Hsome : forall s' : W * list event, snd s' = snd (snd (Tools.drag_scrollbar (driver d) 100 s1)) ->
            exists drags, snd s' = snd s ++ drags /\ Forall is_drag drags
                          /\ List.length drags <= 1).
  { intros s' H. rewrite H. destruct Hdrag as [->|(thumb & ->)].
    - apply Hnone, E1.
    - exists [Dragged thumb 100]. rewrite E1. split; [reflexivity|].
      split; [repeat constructor; exists thumb; reflexivity|simpl; lia]. }
  clear Hdrag.
  destruct (Tools.drag_scrollbar (driver d) 100 s1) as [[scrolled|e] s2];
    [|apply Hsome; reflexivity].
  simpl in Hsome.
  destruct (Tools.get_scrollbar_thumb_x (driver d) s2) as [[[xa|]|e] s3] eqn:E3;
    apply (silent_run _ _ _ _ get_scrollbar_thumb_x_silent) in E3;
    [|apply Hsome, E3|apply Hsome, E3].
  destruct (xa <=? xb)%Z; [apply Hsome, E3|].
  destruct (Tools.extract_grid_data (driver d) s3) as [[[nh nd]|e] s4] eqn:E4;
    apply (silent_run _ _ _ _ extract_grid_data_silent) in E4;
    [|apply Hsome; simpl; congruence].
  destruct (Collect.new_date_cols (Collect.all_headers st) nh); apply Hsome; simpl; congruence.
Qed.

Lemma scroll_loop_record fuel : forall st iters s r n s',
  Collect.scroll_loop (driver d) fuel st iters s = (r, n, s') ->
  exists drags,
    snd s' = snd s ++ drags /\ Forall is_drag drags /\ iters + List.length drags <= n.
Proof.
  induction fuel as [|fuel IH]; intros st iters s r n s' Hrun; simpl in Hrun.
  - injection Hrun as _ <- <-. exists []. rewrite app_nil_r.
    split; [reflexivity|]. split; [constructor|simpl; lia].
  - destruct (Collect.attempts st <? Collect.max_scroll_attempts).
    + destruct (loop_body_record st s) as (ds & Hlog & Hds & Hlen). unfold log_after in Hlog.
      destruct (Collect.loop_body (driver d) st s) as [[[st1|st1]|e] s1]; simpl in Hlog.
      * injection Hrun as _ <- <-. exists ds. split; [exact Hlog|]. split; [exact Hds|lia].
      * apply IH in Hrun. destruct Hrun as (ds' & Hlog' & Hds' & Hlen').
        exists (ds ++ ds'). rewrite Hlog', Hlog, app_assoc. split; [reflexivity|].
        split; [apply Forall_app; tauto|]. rewrite length_app. lia.
      * injection Hrun as _ <- <-. exists ds. split; [exact Hlog|]. split; [exact Hds|lia].
    + injection Hrun as _ <- <-. exists []. rewrite app_nil_r.
      split; [reflexivity|]. split; [constructor|simpl; lia].
Qed.

(** X20. All [get_chart] does to the page is scroll it down once and
    then drag the scrollbar thumb, by 100 pixels each time and at most
    50 times: it clicks nothing and types nothing. *)
Theorem get_chart_only_scrolls_and_drags (fuel : nat) (s : W * list event) :
  Collect.max_scroll_attempts < fuel ->
  log_after (Collect.get_chart (driver d) fuel) s = snd s
  \/ exists drags,
       log_after (Collect.get_chart (driver d) fuel) s
       = snd s ++ Ran "window.scrollBy(0, 150);" [] :: drags
       /\ Forall is_drag drags /\ List.length drags <= 50.
Proof.
  intros Hfuel. unfold log_after, Collect.get_chart, bind.
  destruct (Tools.scroll_down (driver d) 150 s) as [r1 s1] eqn:E1.
  unfold Tools.scroll_down in E1. apply noting_run in E1.
  destruct E1 as [[-> L1]|[[e ->] L1]]; [|left; exact L1].
  right.
  assert (Hnone : forall s' : W * list event, snd s' = snd s1 ->
            exists drags, snd s' = snd s ++ Ran "window.scrollBy(0, 150);" [] :: drags
                          /\ Forall is_drag drags /\ List.length drags <= 50).
  { intros s' H. exists []. rewrite H, L1. split; [reflexivity|].
    split; [constructor|simpl; lia]. }
  destruct (wait_presence (driver d) 20 ID "jqxgrid" s1) as [[g|e] s2] eqn:E2;
    apply (silent_run _ _ _ _ (silent_quiet _)) in E2; [|apply Hnone, E2].
  destruct (Tools.extract_grid_data (driver d) s2) as [[[h0 d0]|e] s3] eqn:E3;
    apply (silent_run _ _ _ _ extract_grid_data_silent) in E3; [|apply Hnone; simpl; congruence].
  unfold Collect.run_scroll_loop.
  destruct (Collect.scroll_loop (driver d) fuel _ 0 s3) as [[r n] s4] eqn:Hrun.
  assert (Hn : n <= 50).
  { apply scroll_loop_bounded in Hrun;
      [|unfold Collect.max_scroll_attempts in *; simpl; lia].
    unfold Collect.max_scroll_attempts in Hrun. simpl in Hrun. lia. }
  apply scroll_loop_record in Hrun. destruct Hrun as (drags & Hlog & Hds & Hlen).
  assert (Hend : forall s' : W * list event, snd s' = snd s4 ->
            exists drags, snd s' = snd s ++ Ran "window.scrollBy(0, 150);" [] :: drags
                          /\ Forall is_drag drags /\ List.length drags <= 50).
  { intros s' H. exists drags. rewrite H, Hlog, E3, E2, L1, <- app_assoc.
    split; [reflexivity|]. split; [exact Hds|lia]. }
  destruct r as [[st|]|e]; [|apply Hend; reflexivity|apply Hend; reflexivity].
  destruct (DataFrame_of (Collect.finish st) (Collect.all_headers st));
    apply Hend; reflexivity.
Qed.

(** *** Clicking a tab and switching to the quarterly view *)

Lemma ensure_ads_removed_record s :
  exists r s' closes,
    Tools.ensure_ads_removed (driver d) s = (r, s')
    /\ closing closes
    /\ ((r = Ok tt /\ snd s' = snd s ++ clearing closes)
        \/ ((exists e, r = Raise e) /\ snd s' = snd s ++ closes)).
Proof.
  unfold Tools.ensure_ads_removed, bind.
  destruct (close_ad_overlay_record s) as (s1 & closes & -> & L1 & Hc).
  unfold Remove.remove_ad_overlay.
  destruct (execute_script (driver d) Remove.remove_script [] s1) as [r2 s2] eqn:E2.
  apply noting_run in E2. destruct E2 as [[-> L2]|[[e ->] L2]].
  - unfold Remove.wait_for_overlay_to_disappear, try_except, ret.
    destruct (wait_none_left (driver d) 10 CSS_SELECTOR Remove.wait_selector s2)
      as [[[]|e] s3] eqn:E3; apply (silent_run _ _ _ _ (silent_quiet _)) in E3;
      exists (Ok tt), s3, closes; (split; [reflexivity|]); (split; [exact Hc|]); left;
      (split; [reflexivity|]); unfold clearing; rewrite E3, L2, L1, app_assoc; reflexivity.
  - exists (Raise e), s2, closes. split; [reflexivity|]. split; [exact Hc|].
    right. split; [eauto|]. congruence.
Qed.

Lemma locate_tab_silent click_value nested :
  silent (Tools.locate_tab (driver d) click_value nested).
Proof.
  unfold Tools.locate_tab. destruct nested.
  - apply silent_bind; [apply silent_quiet|]. intros [|first_strip [|second rest]];
      try apply silent_ret.
    apply silent_bind; [apply silent_quiet|]. intros tab. apply silent_ret.
  - apply silent_bind; [apply silent_quiet|]. intros tab. apply silent_ret.
Qed.

Lemma begins_start (done rest : list event) : begins done (done ++ rest).
Proof. exists rest. reflexivity. Qed.

Lemma closing_nil : closing [].
Proof. left. reflexivity. Qed.

(** The body of [click], before its handler. *)
Lemma click_body_record click_value nested s :
  exists r s' closes1 tab closes2 done,
    (Tools.ensure_ads_removed (driver d) ;;
     found <- Tools.locate_tab (driver d) click_value nested ;;
     match found with
     | None => ret tt
     | Some tab =>
         execute_script (driver d) "arguments[0].scrollIntoView(true);" [tab] ;;
         wait_clickable (driver d) 10 XPATH (Tools.tab_xpath click_value) ;;
         click_element (driver d) tab ;;
         Tools.ensure_ads_removed (driver d)
     end) s = (r, s')
    /\ snd s' = snd s ++ done
    /\ closing closes1 /\ closing closes2
    /\ begins done (click_actions closes1 tab closes2).
Proof.
  unfold bind at 1.
  destruct (ensure_ads_removed_record s) as (r1 & s1 & closes1 & -> & Hc1 & Hr1).
  destruct Hr1 as [[-> L1]|[[e ->] L1]].
  2: { exists (Raise e), s1, closes1, 0, [], closes1. split; [reflexivity|].
       split; [exact L1|]. split; [exact Hc1|]. split; [apply closing_nil|].
       unfold click_actions, clearing. rewrite <- app_assoc. apply begins_start. }
  assert (Hstop : forall (r : result unit) (s' : W * list event) (tab : WebElement), snd s' = snd s1 ->
            exists r0 s0 closes1 tab closes2 done,
              (r, s') = (r0, s0) /\ snd s0 = snd s ++ done
              /\ closing closes1 /\ closing closes2
              /\ begins done (click_actions closes1 tab closes2)).
  { intros r s' tab H. exists r, s', closes1, tab, [], (clearing closes1).
    split; [reflexivity|]. split; [congruence|]. split; [exact Hc1|].
    split; [apply closing_nil|]. apply begins_start. }
  unfold bind at 1.
  destruct (Tools.locate_tab (driver d) click_value nested s1) as [[[tab|]|e] s2] eqn:E2;
    apply (silent_run _ _ _ _ (locate_tab_silent _ _)) in E2;
    [|apply (Hstop _ _ 0 E2)|apply (Hstop _ _ 0 E2)].
  unfold bind.
  destruct (execute_script (driver d) _ [tab] s2) as [r3 s3] eqn:E3.
  apply noting_run in E3. destruct E3 as [[-> L3]|[[e ->] L3]];
    [|apply (Hstop _ _ tab); congruence].
  destruct (wait_clickable (driver d) 10 XPATH _ s3) as [[el|e] s4] eqn:E4;
    apply (silent_run _ _ _ _ (silent_quiet _)) in E4.
  2: { exists (Raise e), s4, closes1, tab, [],
         (clearing closes1 ++ [Ran "arguments[0].scrollIntoView(true);" [tab]]).
       split; [reflexivity|]. split; [rewrite E4, L3, E2, L1, app_assoc; reflexivity|].
       split; [exact Hc1|]. split; [apply closing_nil|].
       exists (Clicked tab :: clearing []). unfold click_actions.
       rewrite <- app_assoc. reflexivity. }
  destruct (click_element (driver d) tab s4) as [r5 s5] eqn:E5.
  apply noting_run in E5. destruct E5 as [[-> L5]|[[e ->] L5]].
  2: { exists (Raise e), s5, closes1, tab, [],
         (clearing closes1 ++ [Ran "arguments[0].scrollIntoView(true);" [tab]]).
       split; [reflexivity|]. split; [rewrite L5, E4, L3, E2, L1, app_assoc; reflexivity|].
       split; [exact Hc1|]. split; [apply closing_nil|].
       exists (Clicked tab :: clearing []). unfold click_actions.
       rewrite <- app_assoc. reflexivity. }
  assert (L : snd s5 = snd s ++ clearing closes1
                       ++ [Ran "arguments[0].scrollIntoView(true);" [tab]; Clicked tab]).
  { rewrite L5, E4, L3, E2, L1, <- !app_assoc. reflexivity. }
  destruct (ensure_ads_removed_record s5) as (r6 & s6 & closes2 & -> & Hc2 & Hr6).
  destruct Hr6 as [[-> L6]|[[e ->] L6]].
  - exists (Ok tt), s6, closes1, tab, closes2, (click_actions closes1 tab closes2).
    split; [reflexivity|]. split; [rewrite L6, L; unfold click_actions;
                                   rewrite <- !app_assoc; reflexivity|].
    split; [exact Hc1|]. split; [exact Hc2|]. exists []. apply app_nil_r.
  - exists (Raise e), s6, closes1, tab, closes2,
      (clearing closes1 ++ [Ran "arguments[0].scrollIntoView(true);" [tab]; Clicked tab]
       ++ closes2).
    split; [reflexivity|]. split; [rewrite L6, L, <- !app_assoc; reflexivity|].
    split; [exact Hc1|]. split; [exact Hc2|].
    exists [Ran Remove.remove_script []]. unfold click_actions, clearing.
    rewrite <- !app_assoc. reflexivity.
Qed.

(** X21. [click] never raises and acts on the page in one fixed order,
    stopping at the first step that fails: clear the overlays (at most
    one click on a close button, then the removal script), scroll the tab
    into view, click the tab, clear the overlays again.  So the tab is
    clicked at most once, and never before the removal script has gone
    through. *)
Theorem click_acts_in_order (click_value : string) (nested : bool) (w : W)
        (log : list event) :
  exists w' log' closes1 tab closes2 done,
    Tools.click (driver d) click_value nested (w, log) = (Ok tt, (w', log'))
    /\ log' = log ++ done
    /\ closing closes1 /\ closing closes2
    /\ begins done (click_actions closes1 tab closes2).
Proof.
  destruct (click_body_record click_value nested (w, log))
    as (r & [w' log'] & closes1 & tab & closes2 & done & Hrun & Hlog & H).
  exists w', log', closes1, tab, closes2, done.
  split; [|split; [exact Hlog|exact H]].
  unfold Tools.click, try_except. rewrite Hrun. destruct r as [[]|e]; reflexivity.
Qed.

(** The steps of [quartely] that read the current view. *)
Lemma frequency_read_silent :
  silent (select_element <- wait_presence (driver d) 10 CSS_SELECTOR "select.frequency_select" ;;
          selected_option <- elem_find_element (driver d) select_element CSS_SELECTOR
                               "option[selected]" ;;
          selected_text <- Tools.stripped_text (driver d) selected_option ;;
          selected_value <- get_attribute (driver d) selected_option "value" ;;
          ret (selected_text, selected_value)).
Proof.
  apply silent_bind; [apply silent_quiet|]. intros sel.
  apply silent_bind; [apply silent_quiet|]. intros opt.
  apply silent_bind.
  { apply silent_bind; [apply silent_quiet|]. intros t. apply silent_ret. }
  intros t. apply silent_bind; [apply silent_quiet|]. intros v. apply silent_ret.
Qed.

(** The body of [quartely], before its handler; [switched] says that
    the view was found not to be quarterly. *)
Lemma quartely_body_record s :
  exists r s' closes1 dropdown option closes2 done switched,
    (Tools.ensure_ads_removed (driver d) ;;
     select_element <- wait_presence (driver d) 10 CSS_SELECTOR "select.frequency_select" ;;
     selected_option <- elem_find_element (driver d) select_element CSS_SELECTOR
                          "option[selected]" ;;
     selected_text <- Tools.stripped_text (driver d) selected_option ;;
     selected_value <- get_attribute (driver d) selected_option "value" ;;
     if String.eqb selected_value "0" || Tools.contains "Quarterly" selected_text then ret tt
     else
       dropdown <- wait_clickable (driver d) 10 CSS_SELECTOR "span.select2-selection--single" ;;
       click_element (driver d) dropdown ;;
       quarterly_option <- wait_clickable (driver d) 10 XPATH
                             "//li[contains(text(),'Quarterly')]" ;;
       click_element (driver d) quarterly_option ;;
       Tools.ensure_ads_removed (driver d)) s = (r, s')
    /\ snd s' = snd s ++ done
    /\ closing closes1 /\ closing closes2
    /\ begins done (quartely_actions closes1 dropdown option closes2)
    /\ (switched = false -> begins done (clearing closes1))
    /\ (switched = true ->
        exists selected_option s4 selected_value s5,
          get_attribute (driver d) selected_option "value" s4 = (Ok selected_value, s5)
          /\ selected_value <> "0").
Proof.
  unfold bind at 1.
  destruct (ensure_ads_removed_record s) as (r1 & s1 & closes1 & -> & Hc1 & Hr1).
  destruct Hr1 as [[-> L1]|[[e ->] L1]].
  2: { exists (Raise e), s1, closes1, 0, 0, [], closes1, false. split; [reflexivity|].
       split; [exact L1|]. split; [exact Hc1|]. split; [apply closing_nil|].
       split; [unfold quartely_actions, clearing; rewrite <- app_assoc; apply begins_start|].
       split; [intros _; apply begins_start|discriminate]. }
  assert (Hstop : forall (r : result unit) (s' : W * list event), snd s' = snd s1 ->
            exists r0 s0 closes1 dropdown option closes2 done switched,
              (r, s') = (r0, s0) /\ snd s0 = snd s ++ done
              /\ closing closes1 /\ closing closes2
              /\ begins done (quartely_actions closes1 dropdown option closes2)
              /\ (switched = false -> begins done (clearing closes1))
              /\ (switched = true ->
                  exists selected_option s4 selected_value s5,
                    get_attribute (driver d) selected_option "value" s4
                    = (Ok selected_value, s5)
                    /\ selected_value <> "0")).
  { intros r s' H. exists r, s', closes1, 0, 0, [], (clearing closes1), false.
    split; [reflexivity|]. split; [congruence|]. split; [exact Hc1|].
    split; [apply closing_nil|]. split; [apply begins_start|].
    split; [intros _; exists []; apply app_nil_r|discriminate]. }
  unfold bind at 1.
  destruct (wait_presence (driver d) 10 CSS_SELECTOR "select.frequency_select" s1)
    as [[sel|e] s2] eqn:E2; apply (silent_run _ _ _ _ (silent_quiet _)) in E2;
    [|apply Hstop, E2].
  unfold bind at 1.
  destruct (elem_find_element (driver d) sel CSS_SELECTOR "option[selected]" s2)
    as [[opt|e] s3] eqn:E3; apply (silent_run _ _ _ _ (silent_quiet _)) in E3;
    [|apply Hstop; congruence].
  unfold bind at 1.
  destruct (Tools.stripped_text (driver d) opt s3) as [[t|e] s4] eqn:E4.
  2: { apply Hstop. unfold Tools.stripped_text, bind, ret in E4.
       destruct (text (driver d) opt s3) as [[t0|e0] s40] eqn:Et; [discriminate|].
       apply (silent_run _ _ _ _ (silent_quiet _)) in Et. injection E4 as _ <-. congruence. }
  assert (L4 : snd s4 = snd s3).
  { unfold Tools.stripped_text, bind, ret in E4.
    destruct (text (driver d) opt s3) as [[t0|e0] s40] eqn:Et; [|discriminate].
    apply (silent_run _ _ _ _ (silent_quiet _)) in Et. injection E4 as _ <-. exact Et. }
  clear E4. unfold bind at 1.
  destruct (get_attribute (driver d) opt "value" s4) as [[v|e] s5] eqn:E5.
  2: { apply (silent_run _ _ _ _ (silent_quiet _)) in E5. apply Hstop. congruence. }
  pose proof (silent_run _ _ _ _ (silent_quiet _) E5) as L5.
  destruct (String.eqb v "0") eqn:Ev; [apply Hstop; congruence|].
  cbn [orb].
  destruct (Tools.contains "Quarterly" t); [apply Hstop; congruence|].
  assert (Hv : exists selected_option s4 selected_value s5,
             get_attribute (driver d) selected_option "value" s4 = (Ok selected_value, s5)
             /\ selected_value <> "0").
  { exists opt, s4, v, s5. split; [exact E5|]. apply String.eqb_neq, Ev. }
  assert (L : snd s5 = snd s ++ clearing closes1) by congruence.
  clear Hstop. unfold bind.
  destruct (wait_clickable (driver d) 10 CSS_SELECTOR _ s5) as [[dropdown|e] s6] eqn:E6;
    apply (silent_run _ _ _ _ (silent_quiet _)) in E6.
  2: { exists (Raise e), s6, closes1, 0, 0, [], (clearing closes1), true.
       split; [reflexivity|]. split; [congruence|]. split; [exact Hc1|].
       split; [apply closing_nil|]. split; [apply begins_start|].
       split; [discriminate|intros _; exact Hv]. }
  destruct (click_element (driver d) dropdown s6) as [r7 s7] eqn:E7.
  apply noting_run in E7. destruct E7 as [[-> L7]|[[e ->] L7]].
  2: { exists (Raise e), s7, closes1, dropdown, 0, [], (clearing closes1), true.
       split; [reflexivity|]. split; [congruence|]. split; [exact Hc1|].
       split; [apply closing_nil|]. split; [apply begins_start|].
       split; [discriminate|intros _; exact Hv]. }
  destruct (wait_clickable (driver d) 10 XPATH _ s7) as [[option|e] s8] eqn:E8;
    apply (silent_run _ _ _ _ (silent_quiet _)) in E8.
  2: { exists (Raise e), s8, closes1, dropdown, 0, [],
         (clearing closes1 ++ [Clicked dropdown]), true.
       split; [reflexivity|]. split; [rewrite E8, L7, E6, L, app_assoc; reflexivity|].
       split; [exact Hc1|]. split; [apply closing_nil|].
       split; [exists (Clicked 0 :: clearing []); unfold quartely_actions;
               rewrite <- app_assoc; reflexivity|].
       split; [discriminate|intros _; exact Hv]. }
  destruct (click_element (driver d) option s8) as [r9 s9] eqn:E9.
  apply noting_run in E9. destruct E9 as [[-> L9]|[[e ->] L9]].
  2: { exists (Raise e), s9, closes1, dropdown, option, [],
         (clearing closes1 ++ [Clicked dropdown]), true.
       split; [reflexivity|]. split; [rewrite L9, E8, L7, E6, L, app_assoc; reflexivity|].
       split; [exact Hc1|]. split; [apply closing_nil|].
       split; [exists (Clicked option :: clearing []); unfold quartely_actions;
               rewrite <- app_assoc; reflexivity|].
       split; [discriminate|intros _; exact Hv]. }
  assert (L' : snd s9 = snd s ++ clearing closes1 ++ [Clicked dropdown; Clicked option]).
  { rewrite L9, E8, L7, E6, L, <- !app_assoc. reflexivity. }
  destruct (ensure_ads_removed_record s9) as (r10 & s10 & closes2 & -> & Hc2 & Hr10).
  destruct Hr10 as [[-> L10]|[[e ->] L10]].
  - exists (Ok tt), s10, closes1, dropdown, option, closes2,
      (quartely_actions closes1 dropdown option closes2), true.
    split; [reflexivity|].
    split; [rewrite L10, L'; unfold quartely_actions; rewrite <- !app_assoc; reflexivity|].
    split; [exact Hc1|]. split; [exact Hc2|]. split; [exists []; apply app_nil_r|].
    split; [discriminate|intros _; exact Hv].
  - exists (Raise e), s10, closes1, dropdown, option, closes2,
      (clearing closes1 ++ [Clicked dropdown; Clicked option] ++ closes2), true.
    split; [reflexivity|]. split; [rewrite L10, L', <- !app_assoc; reflexivity|].
    split; [exact Hc1|]. split; [exact Hc2|].
    split; [exists [Ran Remove.remove_script []]; unfold quartely_actions, clearing;
            rewrite <- !app_assoc; reflexivity|].
    split; [discriminate|intros _; exact Hv].
Qed.

(** X22. [quartely] never raises and acts on the page in one fixed
    order, stopping at the first step that fails: clear the overlays, click
    the frequency dropdown, click the Quarterly entry, clear the overlays
    again.  When every selected option reads value 0, it stops after the
    first clearing: the dropdown is not touched. *)
Theorem quartely_acts_in_order (w : W) (log : list event) :
  exists w' log' closes1 dropdown option closes2 done,
    Tools.quartely (driver d) (w, log) = (Ok tt, (w', log'))
    /\ log' = log ++ done
    /\ closing closes1 /\ closing closes2
    /\ begins done (quartely_actions closes1 dropdown option closes2)
    /\ ((forall e w0 r w1, get_attribute d e "value" w0 = (r, w1) -> r = Ok "0" \/ exists x, r = Raise x) ->
        begins done (clearing closes1)).
Proof.
  destruct (quartely_body_record (w, log))
    as (r & [w' log'] & closes1 & dropdown & option & closes2 & done & switched
        & Hrun & Hlog & Hc1 & Hc2 & Hb & Hstay & Hsw).
  exists w', log', closes1, dropdown, option, closes2, done.
  split; [unfold Tools.quartely, try_except; rewrite Hrun; destruct r as [[]|e]; reflexivity|].
  split; [exact Hlog|]. split; [exact Hc1|]. split; [exact Hc2|]. split; [exact Hb|].
  intros Hzero. destruct switched; [|apply Hstay; reflexivity].
  exfalso. destruct Hsw as (opt & s4 & v & s5 & Hget & Hv); [reflexivity|].
  cbn [get_attribute driver] in Hget. unfold quiet in Hget.
  destruct (get_attribute d opt "value" (fst s4)) as [r0 w0] eqn:E.
  injection Hget as -> _.
  destruct (Hzero _ _ _ _ E) as [H|(x & H)]; [|discriminate].
  injection H as ->. apply Hv. reflexivity.
Qed.

End Records.

Lemma get_chart_only_scrolls_and_drags_witness :
  Collect.max_scroll_attempts < 51
  /\ Logged.log_after
       (Collect.get_chart (Logged.driver (Scripted.driver Scripted.walkthrough)) 51) (0, [])
     = [Logged.Ran "window.scrollBy(0, 150);" []; Logged.Dragged 0 100; Logged.Dragged 0 100]
  /\ (Logged.log_after
        (Collect.get_chart (Logged.driver (Scripted.driver Scripted.walkthrough)) 51) (0, [])
      = []
      \/ exists drags,
           Logged.log_after
             (Collect.get_chart (Logged.driver (Scripted.driver Scripted.walkthrough)) 51)
             (0, [])
           = [] ++ Logged.Ran "window.scrollBy(0, 150);" [] :: drags
           /\ Forall Logged.is_drag drags /\ List.length drags <= 50).
Proof.
  assert (Hfuel : Collect.max_scroll_attempts < 51)
    by (unfold Collect.max_scroll_attempts; lia).
  split; [exact Hfuel|]. split; [vm_compute; reflexivity|].
  exact (get_chart_only_scrolls_and_drags (Scripted.driver Scripted.walkthrough) 51 (0, [])
           Hfuel).
Defined.

Lemma quartely_acts_in_order_witness :
  (forall e w0 r w1,
      get_attribute (Scripted.driver Scripted.walkthrough) e "value" w0 = (r, w1) ->
      r = Ok "0" \/ exists x, r = Raise x)
  /\ exists w' log' closes1 done,
       Tools.quartely (Logged.driver (Scripted.driver Scripted.walkthrough)) (0, [])
       = (Ok tt, (w', log'))
       /\ log' = [] ++ done
       /\ begins done (clearing closes1).
Proof.
  assert (Hzero : forall e w0 r w1,
             get_attribute (Scripted.driver Scripted.walkthrough) e "value" w0 = (r, w1) ->
             r = Ok "0" \/ exists x, r = Raise x).
  { intros e w0 r w1 H. simpl in H. injection H as <- _. left. reflexivity. }
  split; [exact Hzero|].
  destruct (quartely_acts_in_order (Scripted.driver Scripted.walkthrough) 0 [])
    as (w' & log' & closes1 & dropdown & option & closes2 & done & Hrun & Hlog & _ & _ & _
        & Hz).
  exists w', log', closes1, done. split; [exact Hrun|]. split; [exact Hlog|].
  apply Hz, Hzero.
Defined.

(** The walk-through page: the box is found at once and every step goes
    through. *)
Lemma search_acts_in_order_witness :
  exists s' first_result,
    Tools.search (Logged.driver (Scripted.driver Scripted.walkthrough)) "Nvidia" (0, [])
    = (Ok tt, s')
    /\ snd s' = Logged.search_actions "Nvidia" 0 first_result
    /\ exists s6,
         wait_clickable (Logged.driver (Scripted.driver Scripted.walkthrough)) 10 CSS_SELECTOR
           ".typeahead__result ul li a" (0, [Logged.Ran "arguments[0].scrollIntoView(true);" [0];
                                             Logged.Cleared 0; Logged.Typed 0 "Nvidia"])
         = (Ok first_result, s6)
         /\ click_element (Logged.driver (Scripted.driver Scripted.walkthrough)) first_result s6
            = (Ok tt, s').
Proof.
  destruct (search_acts_in_order (Scripted.driver Scripted.walkthrough) "Nvidia" 0 [])
    as (s' & Hrun & Hmatch).
  change (find_search_box (Logged.driver (Scripted.driver Scripted.walkthrough)) (0, []))
    with (@Ok WebElement 0, (0, @nil Logged.event)) in Hmatch.
  cbv iota in Hmatch. destruct Hmatch as (fr & done & Hlog & Hb & Hchain).
  assert (Hs : s' = (0, Logged.search_actions "Nvidia" 0 0)).
  { vm_compute in Hrun. injection Hrun as <-. reflexivity. }
  subst s'. simpl in Hlog. subst done.
  assert (Hfr : fr = 0).
  { destruct Hb as (rest & Hb). injection Hb as Hb _. exact (eq_sym Hb). }
  subst fr.
  destruct Hchain as (s2 & s3 & s4 & el & s5 & s6 & E2 & E3 & E4 & E5 & E6 & E7);
    [simpl; tauto|].
  vm_compute in E2. injection E2 as <-.
  vm_compute in E3. injection E3 as <-.
  vm_compute in E4. injection E4 as <-.
  vm_compute in E5. injection E5 as _ <-.
  exists (0, Logged.search_actions "Nvidia" 0 0), 0.
  split; [exact Hrun|]. split; [reflexivity|].
  exists s6. split; [exact E6|exact E7].
Defined.
